(* ===== verification/_CoqProject ===== *)
-Q . S2P
Prelude.v
Tracker.v
Eapol.v
Client.v
IeTag.v
Ssid.v
Deserialise.v
Device.v
DeviceOps.v
DeviceProps.v
DeviceHeap.v
Handshake.v
Regex.v
Watchlist.v
MatcherLock.v
Registry.v
Schema.v
