(* ===== verification/Prelude.v ===== *)
(** * Kismet 802.11 device-state components: a Rocq model

    This development models [src/phy_80211_components.h] of the Kismet
    fork: the per-device 802.11 state records that Kismet's frame
    processing mutates, and the SSID watchlist matcher.

    ** The program
    The header declares tracked records.  Each is a [tracker_component]
    whose fields are reached through proxy macros ([__Proxy],
    [__ProxyDynamic], [__ProxyIncDec], [__ProxyBitset],
    [__ProxyDynamicTrackable]):
    - [dot11_tracked_eapol] (one observed WPA key message) and
      [dot11_tracked_nonce] (its condensed view);
    - [dot11_tracked_ssid_alert]: a configured SSID pattern with exempt
      MACs;
    - [dot11_11d_tracked_range_info] (802.11d ranges) and
      [dot11_tracked_ietag] (raw IE tags);
    - [dot11_probed_ssid] and [dot11_advertised_ssid]: SSID identity
      records;
    - [dot11_client]: how a device behaves as client of one BSSID;
    - [dot11_tracked_device]: the per-device aggregate.  It owns maps of
      the records above, counters, a type bitset, the EAPOL histories and
      the beacon/PMKID snapshot slots.  It also holds [last_adv_ssid], a
      [shared_ptr] into the advertised-SSID map.
    Every record has a schema signature ([get_signature]) and a clone
    ([clone_type], through the copy constructor taking [const T *p]).
    The caller (in the .cc files, outside [src/]) drives a device by
    get-or-create on its maps, setter and counter calls, and EAPOL
    recording, and calls [pre_serialize] before every read.  The watchlist
    is independent of the device tree.

    ** Files, in dependency order
    - [Prelude] (this file): C integers as [Z] with explicit wrap-around
      ([wrap], [swrap]), the notations of [kismet_scope], the [kismet]
      hint database and the [kismet_rw] rewrite database, the [split_wf]
      and [solve_width] tactics, and lemmas on words, bits and optional
      maps.
    - [Tracker]: the proxy macros as functions ([proxy_set_u],
      [proxy_inc], [proxy_bitset], [dyn_get], ...), Adler-32, and the
      [TrackerComponent] / [TrackerComponentLaws] classes (signature and
      clone), with one [Instance] per record, and the three constructors
      every class has ([construct_default], [construct_with_id],
      [construct_from_map]); each record Module names its own
      ([make_default], [make_with_id], [make_from_map]).
    - [Eapol]: Modules [eapol] and [nonce], with [set_from_eapol].
    - [Client]: Module [client]: the record, every setter and counter,
      the clone, and [client_step] over a [client_op] type.
    - [IeTag]: Modules [range_info] and [ietag].
    - [Ssid]: Modules [probed] and [advertised]: every setter,
      [set_ietag_content_from_packet] building the tag-content [gmap],
      and [probed_step] / [adv_step] over one constructor per
      state-changing call ([adv_step] is [None] on [set_maxrate] through
      a null pointer).
    - [Deserialise]: the [(int, shared_ptr<tracker_element_map>)]
      constructors.  Nested records are [ElemMap] (generic) or
      [ElemTyped]; the [reserve_fields] overrides of the device and the
      advertised SSID with their two loop shapes as written:
      [iter_assign] (assignment through a vector iterator, with fuel) and
      [for_each_copy] (assignment to the copy of a map pair).
    - [Device]: the heap [ssid_heap] of shared SSID records (a [gmap]
      from locations, [alloc] for [make_shared]), and Module [device]:
      the 45-field record, the constructor, every setter and counter,
      [pre_serialize], the snapshot queries, the lazily materialised
      packet slots and histories, the caller's get-or-create, and the
      copy constructor (which deep-clones [last_adv_ssid] into a fresh
      location), [attach_base_parent] into a device base, and the
      ownership of the shared records: [holders] counts the [shared_ptr]s
      of the device to a record and [release_loc] destroys it when the
      last one is dropped.
      Properties of single operations follow.
    - [DeviceOps]: [dev_state] (device and heap), [dev_op] (one
      constructor per state-changing call), [dev_step], [dev_run], and
      the section lemma [dev_run_invariant] for invariants over runs.
    - [DeviceProps]: the abstract device of five key sets ([abs_step])
      and the refinement by [dev_step]; [pre_serialize] counts; the
      snapshot protocol; the type bitset; the width invariant [dev_wf].
    - [DeviceHeap]: liveness of every pointer the device holds under
      that ownership, the aliasing through [last_adv_ssid] on the
      caller's beacon path ([adv_select]), and what erasing a map entry
      destroys.
    - [Handshake]: EAPOL recording as a sequence of device calls, and the
      reachability relation [hs_reach] for the bitmask invariant.
    - [Regex]: the pattern language that replaces PCRE (with character
      classes): a structural parser, a derivative matcher proved equal to a relational
      semantics, and the search semantics of anchors.
    - [Watchlist]: Module [alert]: constructors and destructor with the
      preprocessor guards as written, [set_regex], [set_allowed_macs],
      [compare_ssid], and [alert_step] for reconfiguration sequences.
    - [MatcherLock]: [ssid_mutex] (a recursive mutex: owner and depth)
      and the matcher shared by threads.  Each guarded call is
      [ILock :: body ++ [IUnlock]] over single loads and stores; a
      system step runs one instruction of one thread ([thread_step]),
      so [sys_step] covers every interleaving.  Instructions read and
      write fields of the matcher, and [race] is two threads about to
      make conflicting accesses.  Reconfiguration callbacks that match
      under the lock they hold ([CCallbackCompare]) take the mutex twice.
      [rr_run] is a round-robin scheduler used to build witnesses.
    - [Registry]: the entry tracker's field registry (from the spec: a
      [gmap] from lowercased names to id, type and description) and the
      [register_fields] bodies of the device, the client and the 802.11d
      range as the lists of registrations they make.
    - [Schema]: the nine record signatures.

    ** What the theorems show
    - Refinement ([DeviceProps]): for any history of calls, the counts
      [pre_serialize] refreshes are the sizes of the key sets of the
      abstract device the same history builds
      ([refresh_counts_after_history]).  A second get-or-create of a key
      changes nothing ([get_or_create_advertised_idem]).
    - Snapshot protocol: after a capture, [get_snap_next_beacon] stays
      false ([snap_next_beacon_false_after_capture]).  Reading a packet
      slot through its getter cancels the snapshot
      ([getter_cancels_snapshot]).
    - Handshake: in every reachable state, the bitmask reflects the key
      history ([handshake_mask_reflects_history]).  Recording appends the
      record and its condensed form to the selected history, sets the
      message's bit and clears none, and leaves the WPS M3 counter alone
      ([record_eapol_appends]).
    - Deserialisation ([Deserialise]): the device's [reserve_fields]
      re-types exactly the three EAPOL vectors and leaves every map entry
      as it was, since the map loops assign to copies
      ([reserve_fields_device_spec]); the constructor is undefined
      exactly when [advertised_ssid_map] is absent
      ([device_of_map_undefined_iff]).
    - Registration ([Registry]): the device's 47 registrations, then a
      client's 19, then an 802.11d range's 3, give the three classes
      consecutive blocks of ids, distinct across all three, keep the
      registry well-formed, and are idempotent for every later
      constructor of any of them ([register_fields_header_ids]).
    - Concurrency ([MatcherLock]): the calls of the .cc, each under
      [ssid_mutex], never race and every complete interleaving equals
      the calls applied whole in some order that keeps each thread's
      order, results included ([lock_serializable]).  The unlocked
      exempt-vector setter of line 264 races with [compare_ssid]
      ([unguarded_setter_races]).  With the recursive mutex no reachable
      state deadlocks, callbacks included ([lock_no_deadlock]); with a
      plain mutex a callback blocks on itself for ever
      ([plain_mutex_deadlocks_callback]).
    - Watchlist: the meaning of [compare_ssid] through the derivative
      matcher and the anchors ([compare_ssid_semantics]).  The
      [HAVE_LIBCPRE] guards leave a clone's pattern uninitialised
      ([clone_leaves_pcre_uninitialised]).  The cached compilation stays
      coherent ([cache_coherent_run]).
    - Shared records ([DeviceHeap]): every pointer the device holds
      stays live although records no pointer holds are destroyed
      ([dev_run_ptrs_ok]).  The beacon path makes the map entry and
      [last_adv_ssid] one record ([adv_select_aliases]).  Erasing a map
      entry destroys the record exactly when no other pointer holds it
      ([erase_advertised_releases]).  A clone's [last_adv_ssid] is
      isolated from the original's ([clone_last_adv_isolated]).
    - Clones: the device clone drops its collections
      ([clone_device_drops_collections]); the advertised SSID's copy
      constructor keeps exactly the fixed fields
      ([advertised_clone_forgets_optional]); the IE tag's forgets
      [tag_oui_manuf] ([ietag_clone_drops_oui_manuf]).
    - Fields: the type bitset is monotone except under its setter
      ([type_set_monotone]); [uint8_t] truncation
      ([min_tx_power_truncates]) and the [time_t] round trip
      ([last_beacon_timestamp_roundtrip]); [set_from_eapol]
      ([set_from_eapol_copies]); the IE-tag map ([ietag_content_lookup]).
    - Lemmas beside these: width invariants of every device, client and
      SSID call ([dev_run_wf], [client_run_wf], [probed_step_wf],
      [adv_step_wf]), distinct signatures, the [uint64_t] wrap of the
      counters, termination and the map equivalence of the iterator loop
      ([iter_assign_terminates], [kick_vec_map]), and termination of
      every interleaving ([sys_step_wf]).

    ** Bounds and fuel
    Integers are [Z], stored through [wrap w] at the width of their C
    type: 8, 16, 32 or 64 bits.  [double] is an exact [Z], which is
    enough since no theorem depends on rounding.  Two definitions use
    fuel.  [kick_vec] gives [iter_assign] one unit per element plus one
    for the final [k != end] test, which [iter_assign_terminates] shows
    is enough.  The scheduler [rr_run] takes its number of passes as
    an argument; the witnesses give it enough for their programs, and
    [sys_step_wf] shows every interleaving is finite.  Every other
    recursion is structural: the regex parser on the pattern, the
    matcher on the SSID, Adler-32 on the string, and [dev_run] and
    [client_run] on the list of calls.

    ** Null pointers and undefined behaviour
    A dynamic field that is absent is [None].  So is a fixed field that
    a copy constructor leaves unassigned (advertised [maxrate], ietag
    [tag_oui_manuf]); its setter then returns [None], the dereference
    of a null pointer.  A [pcre *] that is never written is [PcreUninit],
    and [compare_ssid] returns [None] on it.

    ** Not modelled
    - The [register_fields] bodies of the other records, which live in
      the .cc file; the entry tracker itself is modelled from the spec.
      The binding of each registered field to its entry of a
      deserialised map is abstracted to the [stored_device] record.
    - JSON/msgpack serialisation; the device base beyond the map of
      components [attach_base_parent] inserts into.
    - Timed locking ([try_lock_for]) and the locks of the device
      tracker around a device: the core takes none, and a device is
      mutated by one writer (spec section 5).
    - PCRE beyond the pattern language above: back-references,
      which are not regular, look-around, which the derivative matcher
      of [Regex] does not express, and the named classes ([\d], [\w],
      [[:alpha:]]); an escaped letter is that letter.
    - The caller's frame routing (which frame updates which map of the
      device): it lives in the phy handler of the .cc file, and spec
      section 4 describes it only in prose; the development models the
      calls it makes ([dev_step], [record_eapol]), not the choice of
      which call a frame triggers, which is left open as the list of
      calls the theorems quantify over.
    - The frame parsers of [dot11_parsers], seen only through the
      [parsed_tag] they deliver.
    - The internals of [kis_tracked_location], [kis_tracked_ip_data] and
      [kis_tracked_packet], held as opaque values.
    - The caller's own temporary [shared_ptr]s to SSID records, held
      while a frame is processed: between calls the device's pointers
      are the only holders that [holders] counts.
    - The order of the loads inside [compare_ssid] (its body is in the
      .cc): one instruction reads the pattern and the exempt vector.
    - The spec's retransmission counter for handshake message 3: the
      header has no such field ([wps_m3_count] counts WPS messages).
    - Any accessor of [__ProxyBitset] beyond the OR the spec describes
      (the macro is outside [src/]). *)

From stdpp Require Export base gmap list strings.
From Stdlib Require Export ZArith Lia.

Declare Scope kismet_scope.
Delimit Scope kismet_scope with kis.
Open Scope Z_scope.

(** ** Machine-width integers *)

(** Unsigned conversion to a [w]-bit integer: what C does when a value
    is stored into [uintW_t]. *)
Definition wrap (w : Z) (z : Z) : Z := z mod 2 ^ w.

(** Signed conversion to a [w]-bit two's complement integer: what C does
    when a [uintW_t] is read back as [intW_t] (e.g. [time_t]). *)
Definition swrap (w : Z) (z : Z) : Z := (z + 2 ^ (w - 1)) mod 2 ^ w - 2 ^ (w - 1).

Definition in_width (w z : Z) : Prop := 0 <= z < 2 ^ w.
Definition in_widthb (w z : Z) : bool := (0 <=? z) && (z <? 2 ^ w).
Definition in_swidth (w z : Z) : Prop := - 2 ^ (w - 1) <= z < 2 ^ (w - 1).

#[export] Instance in_width_dec w z : Decision (in_width w z).
Proof. unfold in_width. apply _. Defined.

Notation "⌊ z ⌋_ w" := (wrap w z) (at level 5, w at level 0, format "⌊ z ⌋_ w") : kismet_scope.
Notation "'UINT_MAX' w" := (2 ^ w - 1) (at level 9, w at level 0) : kismet_scope.
Open Scope kismet_scope.

(** C booleans stored in [uint8_t] fields. *)
Definition of_bool (b : bool) : Z := if b then 1 else 0.
Definition to_bool (z : Z) : bool := negb (z =? 0).

(** Sizes of lazily created collections: an absent collection has size 0,
    as in [pre_serialize]'s [nullptr] tests. *)
Definition opt_size {K V} `{Countable K} (o : option (gmap K V)) : Z :=
  match o with Some m => Z.of_nat (size m) | None => 0 end.

(** ** Lemmas on words *)

Create HintDb kismet.
Create Rewrite HintDb kismet_rw.

Lemma pow2_pos w : 0 <= w -> 0 < 2 ^ w.
Proof. intros. apply Z.pow_pos_nonneg; lia. Qed.

Lemma wrap_range w z : 0 <= w -> in_width w (wrap w z).
Proof. intros Hw. unfold in_width, wrap. apply Z.mod_pos_bound, pow2_pos, Hw. Qed.

Lemma wrap_small w z : in_width w z -> wrap w z = z.
Proof. unfold in_width, wrap. intros. apply Z.mod_small; lia. Qed.

Lemma wrap_idem w z : 0 <= w -> wrap w (wrap w z) = wrap w z.
Proof. intros Hw. apply wrap_small, wrap_range, Hw. Qed.

Lemma wrap_add_l w a b : 0 <= w -> wrap w (wrap w a + b) = wrap w (a + b).
Proof.
  intros Hw. unfold wrap. rewrite Zplus_mod_idemp_l. reflexivity.
Qed.

Lemma wrap_sub_l w a b : 0 <= w -> wrap w (wrap w a - b) = wrap w (a - b).
Proof.
  intros Hw. unfold wrap. rewrite Zminus_mod_idemp_l. reflexivity.
Qed.

Lemma wrap_max_succ w : 0 <= w -> wrap w (2 ^ w - 1 + 1) = 0.
Proof. intros Hw. unfold wrap. replace (2 ^ w - 1 + 1) with (2 ^ w) by lia. apply Z_mod_same_full. Qed.

Lemma in_widthb_spec w z : in_widthb w z = true <-> in_width w z.
Proof. unfold in_widthb, in_width. rewrite andb_true_iff, Z.leb_le, Z.ltb_lt. tauto. Qed.

(** Storing a signed value into unsigned storage and reading it back as
    signed is the identity on the signed range. *)
Lemma swrap_wrap w z : 0 < w -> in_swidth w z -> swrap w (wrap w z) = z.
Proof.
  intros Hw Hz. unfold swrap, wrap, in_swidth in *.
  assert (Hp : 2 ^ w = 2 * 2 ^ (w - 1)).
  { rewrite <- Z.pow_succ_r by lia. f_equal. lia. }
  rewrite Zplus_mod_idemp_l, Z.mod_small; lia.
Qed.

Lemma of_bool_range b : in_width 8 (of_bool b).
Proof. destruct b; unfold in_width; simpl; lia. Qed.

Lemma to_bool_of_bool b : to_bool (of_bool b) = b.
Proof. now destruct b. Qed.

(** Setting bits with [Z.lor] keeps every bit already set. *)
Lemma lor_keeps_bits a b i : Z.testbit a i = true -> Z.testbit (Z.lor a b) i = true.
Proof. intros H. rewrite Z.lor_spec, H. reflexivity. Qed.

Lemma lor_in_width w a b : 0 <= w -> in_width w a -> in_width w b -> in_width w (Z.lor a b).
Proof.
  unfold in_width. intros Hw [Ha0 Ha] [Hb0 Hb]. split.
  - apply Z.lor_nonneg; lia.
  - destruct (Z.eq_dec (Z.lor a b) 0) as [-> | Hne]; [apply pow2_pos; lia |].
    assert (0 < w).
    { destruct (Z.eq_dec w 0) as [-> | ?]; [| lia].
      simpl in *. assert (a = 0) as -> by lia. assert (b = 0) as -> by lia. easy. }
    apply Z.log2_lt_pow2; [pose proof (Z.lor_nonneg a b); lia |].
    rewrite Z.log2_lor by lia.
    apply Z.max_lub_lt.
    + destruct (Z.eq_dec a 0) as [-> | ?]; [simpl; lia | apply Z.log2_lt_pow2; lia].
    + destruct (Z.eq_dec b 0) as [-> | ?]; [simpl; lia | apply Z.log2_lt_pow2; lia].
Qed.

Lemma in_width_0 w : 0 <= w -> in_width w 0.
Proof. intros. unfold in_width. pose proof (pow2_pos w). lia. Qed.

Lemma opt_size_nonneg {K V} `{Countable K} (o : option (gmap K V)) : 0 <= opt_size o.
Proof. destruct o; simpl; lia. Qed.

#[export] Hint Resolve wrap_range of_bool_range in_width_0 lor_in_width opt_size_nonneg : kismet.
#[export] Hint Rewrite wrap_idem to_bool_of_bool using lia : kismet_rw.

(** Splits the conjunctions of a well-formedness predicate without
    unfolding [in_width]. *)
Ltac split_wf := repeat match goal with |- _ /\ _ => split end.

(** Closes goals [in_width w e] for values built by the operations. *)
Ltac solve_width :=
  repeat match goal with
  | |- in_width _ (wrap _ _) => apply wrap_range; lia
  | |- in_width _ (of_bool _) => apply of_bool_range
  | |- in_width _ (Z.lor _ _) => apply lor_in_width; [lia | |]
  | |- in_width _ 0 => apply in_width_0; lia
  | |- _ => assumption
  | |- in_width _ _ => solve [eauto with kismet]
  | |- in_width _ _ => unfold in_width; lia
  end.
