(* ===== verification/Tracker.v ===== *)
(** * The tracked-component contract consumed by every record

    The records of [phy_80211_components.h] reach their fields through the
    proxy macros of [trackedcomponent.h] and implement [get_signature] and
    [clone_type].  This file gives those macros their meaning once, so the
    record files only say which macro, C types and field each accessor
    uses:
    - [__Proxy(name, ptype, itype, rtype, cvar)]: [set_name(itype in)]
      stores [(ptype) in]; [get_name()] returns [(rtype) cvar->get()];
    - [__ProxyDynamic] / [__ProxyDynamicTrackable]: the field is absent
      ([nullptr]) until first used; the getter materialises it with its
      default value;
    - [__ProxyIncDec]: [inc_name(i)] is [*cvar += (ptype) i], which wraps
      at the field's width;
    - [__ProxyBitset]: [bitset_name(bs)] ORs bits in, [bitcheck_name(bs)]
      masks them.
    The macros themselves are outside [src/]; their semantics here follow
    the spec (section 4.1: lazy materialisation, OR-only bitsets). *)

From S2P Require Import Prelude.

(** ** External element types *)

(** [mac_addr]: a 48-bit hardware address. *)
Definition mac_addr := Z.
(** [device_key]: Kismet's (phy id, device hash) pair. *)
Definition device_key := (Z * Z)%type.
(** [double] fields are stored and copied, never computed on: they are
    kept as exact values. *)
Definition double := Z.

(** [kis_tracked_packet]: a captured frame (timestamp and raw bytes). *)
Record kis_tracked_packet := mk_packet {
  packet_time : Z;
  packet_data : string;
}.

(** The empty packet a dynamic getter materialises. *)
Definition empty_packet : kis_tracked_packet := mk_packet 0 "".

(** [kis_tracked_location] and [kis_tracked_ip_data] are records of other
    components; we keep them as the presence-aware name/value list the
    serialiser walks. *)
Definition ext_record := list (string * string).

(** ** Proxy macro semantics *)

Section Proxies.
Context {A : Type}.

(** [__ProxyDynamic]'s getter: materialise [def] when absent, and
    return the value together with the new field state. *)
Definition dyn_get (def : A) (o : option A) : A * option A :=
  match o with
  | Some v => (v, Some v)
  | None => (def, Some def)
  end.

(** [has_name()]: the field is present. *)
Definition dyn_has (o : option A) : bool :=
  match o with Some _ => true | None => false end.

End Proxies.

(** [set_name(itype in)] on an unsigned [w]-bit field: [(ptype) in]. *)
Definition proxy_set_u (w v : Z) : Z := wrap w v.
(** ... on a signed [w]-bit field. *)
Definition proxy_set_s (w v : Z) : Z := swrap w v.
(** A [bool] stored in a [uint8_t] field and read back as [bool]. *)
Definition proxy_set_bool (b : bool) : Z := of_bool b.
Definition proxy_get_bool (x : Z) : bool := to_bool x.
(** A [time_t] (signed 64-bit) stored in a [uint64_t] field and read back. *)
Definition proxy_set_time (t : Z) : Z := wrap 64 t.
Definition proxy_get_time (x : Z) : Z := swrap 64 x.

(** [__ProxyIncDec]: [*cvar += (ptype) i] and [*cvar -= (ptype) i]. *)
Definition proxy_inc (w x i : Z) : Z := wrap w (x + wrap w i).
Definition proxy_dec (w x i : Z) : Z := wrap w (x - wrap w i).

(** [__ProxyBitset]: OR bits in, test bits. *)
Definition proxy_bitset (w x bs : Z) : Z := wrap w (Z.lor x bs).
Definition proxy_bitcheck (x bs : Z) : Z := Z.land x bs.

(** ** Schema signatures *)

(** Adler-32 over the bytes of a string: the checksum that every record's
    [get_signature] applies to its class name. *)
Definition adler_mod : Z := 65521.

Fixpoint adler32_loop (s : string) (a b : Z) : Z * Z :=
  match s with
  | EmptyString => (a, b)
  | String c s' =>
      let a' := (a + Z.of_N (Ascii.N_of_ascii c)) mod adler_mod in
      adler32_loop s' a' ((b + a') mod adler_mod)
  end.

Definition adler32_checksum (s : string) : Z :=
  let '(a, b) := adler32_loop s 1 0 in b * 65536 + a.

(** ** The component interface *)

(** What every tracked record provides to its owner: a structural
    signature and a clone ([clone_type] through the copy constructor). *)
Class TrackerComponent (T : Type) := {
  tracker_signature : Z;
  clone_type : T -> T;
}.
Arguments tracker_signature T {_}.

(** The law the owners rely on: cloning a clone changes nothing more
    (the copy constructor copies what it copies, and resets the rest to
    the same defaults each time). *)
Class TrackerComponentLaws (T : Type) `{TrackerComponent T} := {
  clone_type_idem : forall x : T, clone_type (clone_type x) = clone_type x;
}.

(** Cloning a vector of components: [tracker_element_vector]'s clone
    clones each element in order. *)
Definition clone_vector {T} `{TrackerComponent T} (v : list T) : list T :=
  map clone_type v.

(** ** The three constructors of a record class

    Every class of the header has [T()], [T(int in_id)] and
    [T(int in_id, shared_ptr<tracker_element_map> e)], each running
    [register_fields(); reserve_fields(x)] after its base constructor.
    [tracker_component()] gives the element no id.
    [reserve_fields(NULL)] leaves each field at its initial value
    [fresh].  [reserve_fields(e)] binds each field to its entry of the
    stored map [e]; [None] is a null [e]. *)
Record tracked_elem (T : Type) := mk_tracked { te_id : option Z; te_val : T }.
Arguments mk_tracked {T} te_id te_val.
Arguments te_id {T} _.
Arguments te_val {T} _.

Definition construct_default {T} (fresh : T) : tracked_elem T := mk_tracked None fresh.
Definition construct_with_id {T} (fresh : T) (in_id : Z) : tracked_elem T := mk_tracked (Some in_id) fresh.
Definition construct_from_map {T} (fresh : T) (in_id : Z) (e : option T) : tracked_elem T :=
  mk_tracked (Some in_id) (default fresh e).

(** ** Lemmas on the proxies *)

Section ProxyLemmas.
Context {A : Type}.

Lemma dyn_get_present (def : A) o : dyn_has (dyn_get def o).2 = true.
Proof. by destruct o. Qed.

Lemma dyn_get_value_some (def v : A) : dyn_get def (Some v) = (v, Some v).
Proof. reflexivity. Qed.
End ProxyLemmas.

Lemma proxy_inc_wrap w x i : 0 <= w -> proxy_inc w x i = wrap w (x + i).
Proof.
  intros Hw. unfold proxy_inc, wrap.
  rewrite Zplus_mod_idemp_r. reflexivity.
Qed.

Lemma proxy_inc_range w x i : 0 <= w -> in_width w (proxy_inc w x i).
Proof. intros. apply wrap_range; lia. Qed.

Lemma proxy_set_u_range w v : 0 <= w -> in_width w (proxy_set_u w v).
Proof. intros. apply wrap_range; lia. Qed.

Lemma proxy_dec_range w x i : 0 <= w -> in_width w (proxy_dec w x i).
Proof. intros. apply wrap_range; lia. Qed.

(** Two increments merge into one (modulo the width). *)
Lemma proxy_inc_inc w x a b :
  0 <= w -> proxy_inc w (proxy_inc w x a) b = proxy_inc w x (a + b).
Proof.
  intros Hw. rewrite !proxy_inc_wrap by lia.
  rewrite wrap_add_l by lia. f_equal. lia.
Qed.

(** An increment that does not overflow adds exactly [i]. *)
Lemma proxy_inc_nowrap w x i :
  0 <= w -> 0 <= i -> in_width w (x + i) -> proxy_inc w x i = x + i.
Proof. intros. rewrite proxy_inc_wrap by lia. apply wrap_small; assumption. Qed.

Lemma proxy_bitset_keeps w x bs i :
  0 <= w -> 0 <= i < w -> Z.testbit x i = true -> Z.testbit (proxy_bitset w x bs) i = true.
Proof.
  intros Hw Hi Hx. unfold proxy_bitset, wrap.
  rewrite <- Z.land_ones by lia. rewrite Z.land_spec, Z.ones_spec_low by lia.
  rewrite Z.lor_spec, Hx. reflexivity.
Qed.

Lemma proxy_bitset_in_width w x bs :
  0 <= w -> in_width w x -> in_width w bs -> proxy_bitset w x bs = Z.lor x bs.
Proof. intros. apply wrap_small, lor_in_width; assumption. Qed.

#[export] Hint Extern 1 (in_width _ (proxy_inc _ _ _)) => apply proxy_inc_range; lia : kismet.
#[export] Hint Extern 1 (in_width _ (proxy_set_u _ _)) => apply proxy_set_u_range; lia : kismet.
#[export] Hint Extern 1 (in_width _ (proxy_dec _ _ _)) => apply proxy_dec_range; lia : kismet.
#[export] Hint Extern 1 (in_width _ (proxy_set_time _)) => apply wrap_range; lia : kismet.
#[export] Hint Extern 1 (in_width _ (proxy_set_bool _)) => apply of_bool_range : kismet.

(** ** Lemmas on signatures and clones *)

Lemma adler32_loop_bounds s a b :
  0 <= a < adler_mod -> 0 <= b < adler_mod ->
  let r := adler32_loop s a b in 0 <= r.1 < adler_mod /\ 0 <= r.2 < adler_mod.
Proof.
  revert a b. induction s as [|c s IH]; intros a b Ha Hb; simpl; [lia |].
  apply IH; apply Z.mod_pos_bound; unfold adler_mod; lia.
Qed.

(** The signature is a 32-bit value, as [uint32_t get_signature()]. *)
Lemma adler32_checksum_range s : in_width 32 (adler32_checksum s).
Proof.
  unfold adler32_checksum.
  pose proof (adler32_loop_bounds s 1 0) as Hb. unfold adler_mod in *.
  destruct (adler32_loop s 1 0) as [a b]. simpl in Hb.
  destruct Hb as [Ha Hb']; [lia | lia |]. unfold in_width. simpl. lia.
Qed.

Lemma clone_vector_idem {T} `{TrackerComponentLaws T} (v : list T) :
  clone_vector (clone_vector v) = clone_vector v.
Proof.
  unfold clone_vector. rewrite map_map.
  apply map_ext. intros. apply clone_type_idem.
Qed.

Lemma clone_vector_length {T} `{TrackerComponent T} (v : list T) :
  length (clone_vector v) = length v.
Proof. apply length_map. Qed.
