(* ===== verification/Eapol.v ===== *)
(** * EAPOL key records and condensed nonce records

    [dot11_tracked_eapol] (lines 46-122 of [phy_80211_components.h]) is one
    observed WPA key message; [dot11_tracked_nonce] (lines 124-187) is its
    condensed view, filled by [set_from_eapol].  Each class is a Module
    with its record, its proxy accessors, its copy constructor and its
    [TrackerComponent] instance. *)

From S2P Require Import Prelude Tracker.

Module eapol.

(** The fields of lines 112-121; [eapol_packet_id] is a registry id. *)
Record dot11_tracked_eapol := mk_eapol {
  eapol_time : double;
  eapol_dir : Z;
  eapol_replay_counter : Z;
  eapol_msg_num : Z;
  eapol_install : Z;
  eapol_nonce : string;
  eapol_rsn_pmkid : string;
  eapol_packet : kis_tracked_packet;
}.

(** [create_eapol_packet()]: a fresh record, every field at its default. *)
Definition new_eapol : dot11_tracked_eapol :=
  mk_eapol 0 0 0 0 0 "" "" empty_packet.

(** [dot11_tracked_eapol()], [(int in_id)] and [(int in_id, e)] (lines 48-64). *)
Definition make_default : tracked_elem dot11_tracked_eapol := construct_default new_eapol.
Definition make_with_id (in_id : Z) : tracked_elem dot11_tracked_eapol := construct_with_id new_eapol in_id.
Definition make_from_map (in_id : Z) (e : option dot11_tracked_eapol) : tracked_elem dot11_tracked_eapol :=
  construct_from_map new_eapol in_id e.

(** The [__Proxy] setters of lines 93-105. *)
Definition set_eapol_time (e : dot11_tracked_eapol) (v : double) :=
  {| e with eapol_time := v |}.
Definition set_eapol_dir (e : dot11_tracked_eapol) (v : Z) :=
  {| e with eapol_dir := proxy_set_u 8 v |}.
Definition set_eapol_replay_counter (e : dot11_tracked_eapol) (v : Z) :=
  {| e with eapol_replay_counter := proxy_set_u 64 v |}.
Definition set_eapol_msg_num (e : dot11_tracked_eapol) (v : Z) :=
  {| e with eapol_msg_num := proxy_set_u 8 v |}.
Definition set_eapol_install (e : dot11_tracked_eapol) (b : bool) :=
  {| e with eapol_install := proxy_set_bool b |}.
Definition get_eapol_install (e : dot11_tracked_eapol) : bool :=
  proxy_get_bool (eapol_install e).
Definition set_eapol_nonce_bytes (e : dot11_tracked_eapol) (n : string) :=
  {| e with eapol_nonce := n |}.
Definition set_rsnpmkid_bytes (e : dot11_tracked_eapol) (n : string) :=
  {| e with eapol_rsn_pmkid := n |}.
Definition set_eapol_packet (e : dot11_tracked_eapol) (p : kis_tracked_packet) :=
  {| e with eapol_packet := p |}.

(** The copy constructor of lines 66-81: every field is cloned. *)
Definition clone_eapol (p : dot11_tracked_eapol) : dot11_tracked_eapol :=
  mk_eapol (eapol_time p) (eapol_dir p) (eapol_replay_counter p)
    (eapol_msg_num p) (eapol_install p) (eapol_nonce p)
    (eapol_rsn_pmkid p) (eapol_packet p).

(** Lines 83-91. *)
#[global] Instance eapol_component : TrackerComponent dot11_tracked_eapol := {
  tracker_signature := adler32_checksum "dot11_tracked_eapol";
  clone_type := clone_eapol;
}.

(** Well-formedness: each integer field within its C type (the
    [double] time is unconstrained). *)
Definition eapol_wf (e : dot11_tracked_eapol) : Prop :=
  in_width 8 (eapol_dir e) /\
  in_width 64 (eapol_replay_counter e) /\ in_width 8 (eapol_msg_num e) /\
  (eapol_install e = 0 \/ eapol_install e = 1).

End eapol.

Module nonce.

(** The fields of lines 182-186. *)
Record dot11_tracked_nonce := mk_nonce {
  eapol_time : double;
  eapol_msg_num : Z;
  eapol_install : Z;
  eapol_nonce : string;
  eapol_replay_counter : Z;
}.

(** [create_tracked_nonce()]. *)
Definition new_nonce : dot11_tracked_nonce := mk_nonce 0 0 0 "" 0.

(** [dot11_tracked_nonce()], [(int in_id)] and [(int in_id, e)] (lines 126-142). *)
Definition make_default : tracked_elem dot11_tracked_nonce := construct_default new_nonce.
Definition make_with_id (in_id : Z) : tracked_elem dot11_tracked_nonce := construct_with_id new_nonce in_id.
Definition make_from_map (in_id : Z) (e : option dot11_tracked_nonce) : tracked_elem dot11_tracked_nonce :=
  construct_from_map new_nonce in_id e.

(** The accessors of lines 164-175. *)
Definition set_eapol_time (n : dot11_tracked_nonce) (v : double) :=
  {| n with eapol_time := v |}.
Definition set_eapol_msg_num (n : dot11_tracked_nonce) (v : Z) :=
  {| n with eapol_msg_num := proxy_set_u 8 v |}.
Definition set_eapol_install (n : dot11_tracked_nonce) (b : bool) :=
  {| n with eapol_install := proxy_set_bool b |}.
Definition set_eapol_replay_counter (n : dot11_tracked_nonce) (v : Z) :=
  {| n with eapol_replay_counter := proxy_set_u 64 v |}.
Definition set_eapol_nonce_bytes (n : dot11_tracked_nonce) (s : string) :=
  {| n with eapol_nonce := s |}.
Definition get_eapol_nonce_bytes (n : dot11_tracked_nonce) : string := eapol_nonce n.

(** [set_from_eapol] (declared line 177, defined in the .cc): the
    condensed view copies the time, message number, replay counter,
    install flag and nonce through the getters and setters. *)
Definition set_from_eapol (n : dot11_tracked_nonce) (e : eapol.dot11_tracked_eapol)
  : dot11_tracked_nonce :=
  let n := set_eapol_time n (eapol.eapol_time e) in
  let n := set_eapol_msg_num n (eapol.eapol_msg_num e) in
  let n := set_eapol_replay_counter n (eapol.eapol_replay_counter e) in
  let n := set_eapol_install n (eapol.get_eapol_install e) in
  set_eapol_nonce_bytes n (eapol.eapol_nonce e).

(** The copy constructor of lines 144-152. *)
Definition clone_nonce (p : dot11_tracked_nonce) : dot11_tracked_nonce :=
  mk_nonce (eapol_time p) (eapol_msg_num p) (eapol_install p)
    (eapol_nonce p) (eapol_replay_counter p).

(** Lines 154-162. *)
#[global] Instance nonce_component : TrackerComponent dot11_tracked_nonce := {
  tracker_signature := adler32_checksum "dot11_tracked_nonce";
  clone_type := clone_nonce;
}.

Definition nonce_wf (n : dot11_tracked_nonce) : Prop :=
  in_width 8 (eapol_msg_num n) /\
  (eapol_install n = 0 \/ eapol_install n = 1) /\
  in_width 64 (eapol_replay_counter n).

(** The condensed view of a key record, independent of the nonce
    record it overwrites. *)
Definition condense (e : eapol.dot11_tracked_eapol) : dot11_tracked_nonce :=
  set_from_eapol new_nonce e.

End nonce.

(** ** Properties *)

Lemma install_canonical_to_bool z : z = 0 \/ z = 1 -> of_bool (to_bool z) = z.
Proof. intros [-> | ->]; reflexivity. Qed.

#[export] Instance eapol_laws : TrackerComponentLaws eapol.dot11_tracked_eapol.
Proof. constructor. intros []. reflexivity. Qed.

#[export] Instance nonce_laws : TrackerComponentLaws nonce.dot11_tracked_nonce.
Proof. constructor. intros []. reflexivity. Qed.

(** [set_from_eapol] overwrites every field of the nonce record: the
    result depends on the key record only. *)
Lemma set_from_eapol_overwrites (n n' : nonce.dot11_tracked_nonce) e :
  nonce.set_from_eapol n e = nonce.set_from_eapol n' e.
Proof. destruct n, n'. reflexivity. Qed.

(** (C27) The condensed record of a well-formed key record carries exactly its
    time, message number, install flag, nonce and replay counter. *)
Lemma set_from_eapol_copies (n : nonce.dot11_tracked_nonce) (e : eapol.dot11_tracked_eapol) :
  eapol.eapol_wf e ->
  let r := nonce.set_from_eapol n e in
  nonce.eapol_time r = eapol.eapol_time e /\
  nonce.eapol_msg_num r = eapol.eapol_msg_num e /\
  nonce.eapol_install r = eapol.eapol_install e /\
  nonce.eapol_nonce r = eapol.eapol_nonce e /\
  nonce.eapol_replay_counter r = eapol.eapol_replay_counter e.
Proof.
  intros (Hd & Hr & Hm & Hi). simpl.
  unfold proxy_set_u, proxy_set_bool, eapol.get_eapol_install, proxy_get_bool.
  rewrite !wrap_small by assumption.
  rewrite install_canonical_to_bool by assumption.
  repeat split.
Qed.

Lemma set_from_eapol_wf n e :
  eapol.eapol_wf e -> nonce.nonce_wf (nonce.set_from_eapol n e).
Proof.
  intros (_ & Hr & Hm & Hi). unfold nonce.nonce_wf. simpl. split_wf; solve_width.
  destruct (eapol.get_eapol_install e); [right | left]; reflexivity.
Qed.

Lemma set_from_eapol_copies_witness :
  eapol.eapol_wf (eapol.set_eapol_msg_num (eapol.set_eapol_install eapol.new_eapol true) 2) /\
  nonce.eapol_msg_num (nonce.set_from_eapol nonce.new_nonce
    (eapol.set_eapol_msg_num (eapol.set_eapol_install eapol.new_eapol true) 2)) = 2.
Proof.
  assert (H : eapol.eapol_wf (eapol.set_eapol_msg_num (eapol.set_eapol_install eapol.new_eapol true) 2))
    by (unfold eapol.eapol_wf, in_width; vm_compute; split_wf; try congruence; right; reflexivity).
  split; [exact H |].
  destruct (set_from_eapol_copies nonce.new_nonce _ H) as (_ & -> & _). reflexivity.
Defined.
