(* ===== verification/Client.v ===== *)
(** * Client association records ([dot11_client], lines 839-1011)

    One record per BSSID the device has behaved as a client of.  The
    fixed fields are plain values; the fields declared with
    [__ProxyDynamic]/[__ProxyDynamicTrackable] are [option]s, absent until
    first set or read.  The copy constructor (lines 859-891) clones the
    fixed fields and copies only the registry ids of the dynamic ones, so
    the clone has every dynamic field absent. *)

From S2P Require Import Prelude Tracker.

Module client.

(** The fields of lines 973-1010. *)
Record dot11_client := mk_client {
  bssid : mac_addr;
  bssid_key : device_key;
  first_time : Z;
  last_time : Z;
  client_type : Z;
  dhcp_host : option string;
  dhcp_vendor : option string;
  tx_cryptset : Z;
  rx_cryptset : Z;
  eap_identity : option string;
  cdp_device : option string;
  cdp_port : option string;
  decrypted : Z;
  ipdata : option ext_record;
  datasize : Z;
  datasize_retry : Z;
  num_fragments : Z;
  num_retries : Z;
  location : option ext_record;
}.

(** [new_client()] (lines 1178-1180): every fixed field at its default,
    every dynamic field absent. *)
Definition new_client : dot11_client :=
  mk_client 0 (0, 0) 0 0 0 None None 0 0 None None None 0 None 0 0 0 0 None.

(** [dot11_client()], [(int in_id)] and [(int in_id, e)] (lines 841-857). *)
Definition make_default : tracked_elem dot11_client := construct_default new_client.
Definition make_with_id (in_id : Z) : tracked_elem dot11_client := construct_with_id new_client in_id.
Definition make_from_map (in_id : Z) (e : option dot11_client) : tracked_elem dot11_client :=
  construct_from_map new_client in_id e.

(** [__Proxy] accessors (lines 903-937). *)
Definition set_bssid (c : dot11_client) (m : mac_addr) := {| c with bssid := m |}.
Definition set_bssid_key (c : dot11_client) (k : device_key) := {| c with bssid_key := k |}.
Definition set_client_type (c : dot11_client) (v : Z) :=
  {| c with client_type := proxy_set_u 32 v |}.
Definition set_first_time (c : dot11_client) (t : Z) :=
  {| c with first_time := proxy_set_time t |}.
Definition get_first_time (c : dot11_client) : Z := proxy_get_time (first_time c).
Definition set_last_time (c : dot11_client) (t : Z) :=
  {| c with last_time := proxy_set_time t |}.
Definition get_last_time (c : dot11_client) : Z := proxy_get_time (last_time c).
Definition set_tx_cryptset (c : dot11_client) (v : Z) :=
  {| c with tx_cryptset := proxy_set_u 64 v |}.
Definition set_rx_cryptset (c : dot11_client) (v : Z) :=
  {| c with rx_cryptset := proxy_set_u 64 v |}.
Definition set_decrypted (c : dot11_client) (b : bool) :=
  {| c with decrypted := proxy_set_bool b |}.
Definition get_decrypted (c : dot11_client) : bool := proxy_get_bool (decrypted c).

(** [__ProxyIncDec] counters (lines 925-935). *)
Definition inc_datasize (c : dot11_client) (i : Z) :=
  {| c with datasize := proxy_inc 64 (datasize c) i |}.
Definition dec_datasize (c : dot11_client) (i : Z) :=
  {| c with datasize := proxy_dec 64 (datasize c) i |}.
Definition inc_datasize_retry (c : dot11_client) (i : Z) :=
  {| c with datasize_retry := proxy_inc 64 (datasize_retry c) i |}.
Definition dec_datasize_retry (c : dot11_client) (i : Z) :=
  {| c with datasize_retry := proxy_dec 64 (datasize_retry c) i |}.
Definition inc_num_fragments (c : dot11_client) (i : Z) :=
  {| c with num_fragments := proxy_inc 64 (num_fragments c) i |}.
Definition dec_num_fragments (c : dot11_client) (i : Z) :=
  {| c with num_fragments := proxy_dec 64 (num_fragments c) i |}.
Definition inc_num_retries (c : dot11_client) (i : Z) :=
  {| c with num_retries := proxy_inc 64 (num_retries c) i |}.
Definition dec_num_retries (c : dot11_client) (i : Z) :=
  {| c with num_retries := proxy_dec 64 (num_retries c) i |}.

(** [__ProxyDynamic] strings (lines 910-919): the setter materialises. *)
Definition set_dhcp_host (c : dot11_client) (s : string) := {| c with dhcp_host := Some s |}.
Definition set_dhcp_vendor (c : dot11_client) (s : string) := {| c with dhcp_vendor := Some s |}.
Definition set_eap_identity (c : dot11_client) (s : string) := {| c with eap_identity := Some s |}.
Definition set_cdp_device (c : dot11_client) (s : string) := {| c with cdp_device := Some s |}.
Definition set_cdp_port (c : dot11_client) (s : string) := {| c with cdp_port := Some s |}.
(** ... and the getter materialises the empty string when absent. *)
Definition get_eap_identity (c : dot11_client) : string * dot11_client :=
  let '(v, o) := dyn_get "" (eap_identity c) in (v, {| c with eap_identity := o |}).
Definition set_location (c : dot11_client) (l : ext_record) := {| c with location := Some l |}.
Definition set_ipdata (c : dot11_client) (l : ext_record) := {| c with ipdata := Some l |}.

(** The copy constructor (lines 859-891). *)
Definition clone_client (p : dot11_client) : dot11_client :=
  mk_client (bssid p) (bssid_key p) (first_time p) (last_time p) (client_type p)
    None None (tx_cryptset p) (rx_cryptset p) None None None (decrypted p) None
    (datasize p) (datasize_retry p) (num_fragments p) (num_retries p) None.

(** Lines 893-901. *)
#[global] Instance client_component : TrackerComponent dot11_client := {
  tracker_signature := adler32_checksum "dot11_client";
  clone_type := clone_client;
}.

(** The operations the frame-processing path applies to a client. *)
Inductive client_op :=
| CSetBssid (m : mac_addr) | CSetBssidKey (k : device_key)
| CSetClientType (v : Z) | CSetFirstTime (t : Z) | CSetLastTime (t : Z)
| CSetTxCrypt (v : Z) | CSetRxCrypt (v : Z) | CSetDecrypted (b : bool)
| CIncDatasize (i : Z) | CIncDatasizeRetry (i : Z)
| CIncFragments (i : Z) | CIncRetries (i : Z)
| CDecDatasize (i : Z) | CDecDatasizeRetry (i : Z)
| CDecFragments (i : Z) | CDecRetries (i : Z)
| CSetDhcpHost (s : string) | CSetDhcpVendor (s : string)
| CSetEapIdentity (s : string) | CSetCdpDevice (s : string) | CSetCdpPort (s : string)
| CSetLocation (l : ext_record) | CSetIpdata (l : ext_record).

Definition client_step (c : dot11_client) (op : client_op) : dot11_client :=
  match op with
  | CSetBssid m => set_bssid c m
  | CSetBssidKey k => set_bssid_key c k
  | CSetClientType v => set_client_type c v
  | CSetFirstTime t => set_first_time c t
  | CSetLastTime t => set_last_time c t
  | CSetTxCrypt v => set_tx_cryptset c v
  | CSetRxCrypt v => set_rx_cryptset c v
  | CSetDecrypted b => set_decrypted c b
  | CIncDatasize i => inc_datasize c i
  | CIncDatasizeRetry i => inc_datasize_retry c i
  | CIncFragments i => inc_num_fragments c i
  | CIncRetries i => inc_num_retries c i
  | CDecDatasize i => dec_datasize c i
  | CDecDatasizeRetry i => dec_datasize_retry c i
  | CDecFragments i => dec_num_fragments c i
  | CDecRetries i => dec_num_retries c i
  | CSetDhcpHost s => set_dhcp_host c s
  | CSetDhcpVendor s => set_dhcp_vendor c s
  | CSetEapIdentity s => set_eap_identity c s
  | CSetCdpDevice s => set_cdp_device c s
  | CSetCdpPort s => set_cdp_port c s
  | CSetLocation l => set_location c l
  | CSetIpdata l => set_ipdata c l
  end.

Definition client_run (c : dot11_client) (ops : list client_op) : dot11_client :=
  fold_left client_step ops c.

(** Every integer field within its C type. *)
Definition client_wf (c : dot11_client) : Prop :=
  in_width 64 (first_time c) /\ in_width 64 (last_time c) /\
  in_width 32 (client_type c) /\ in_width 64 (tx_cryptset c) /\
  in_width 64 (rx_cryptset c) /\ in_width 8 (decrypted c) /\
  in_width 64 (datasize c) /\ in_width 64 (datasize_retry c) /\
  in_width 64 (num_fragments c) /\ in_width 64 (num_retries c).

End client.

Import client.

(** ** Properties *)

Lemma new_client_wf : client_wf new_client.
Proof. unfold client_wf; split_wf; simpl; solve_width. Qed.

Lemma client_step_wf c op : client_wf c -> client_wf (client_step c op).
Proof.
  intros (H1 & H2 & H3 & H4 & H5 & H6 & H7 & H8 & H9 & H10).
  destruct op; unfold client_wf; simpl; split_wf; solve_width; auto with kismet.
Qed.

(** Any sequence of calls on a well-formed client record keeps
    every integer field within the width of its C type. *)
Theorem client_run_wf c ops : client_wf c -> client_wf (client_run c ops).
Proof.
  unfold client_run. revert c. induction ops as [|op ops IH]; intros c Hc; [exact Hc |].
  simpl. apply IH, client_step_wf, Hc.
Qed.

(** A byte counter of a client wraps at 64 bits: it is the sum of the
    increments modulo [2^64]. *)
Lemma client_inc_datasize_wraps c i :
  datasize (inc_datasize c i) = wrap 64 (datasize c + i).
Proof. apply proxy_inc_wrap. lia. Qed.

Lemma inc_datasize_overflow c :
  datasize c = UINT_MAX 64 -> datasize (inc_datasize c 1) = 0.
Proof. intros H. simpl. rewrite H. reflexivity. Qed.

(** A [time_t] survives its [uint64_t] storage: reading back what was
    stored gives the same signed time, negative times included. *)
Lemma client_first_time_roundtrip c t :
  in_swidth 64 t -> get_first_time (set_first_time c t) = t.
Proof. intros Ht. apply swrap_wrap; [lia | exact Ht]. Qed.

(** The clone keeps every fixed field and drops every dynamic one. *)
Lemma clone_client_drops_dynamic p :
  let q := clone_client p in
  dhcp_host q = None /\ dhcp_vendor q = None /\ eap_identity q = None /\
  cdp_device q = None /\ cdp_port q = None /\ ipdata q = None /\ location q = None.
Proof. repeat split. Qed.

#[global] Instance client_laws : TrackerComponentLaws dot11_client.
Proof. constructor. intros []. reflexivity. Qed.

Lemma client_run_wf_witness :
  client_wf new_client /\
  client_wf (client_run new_client [CIncDatasize 1500; CSetFirstTime (-1); CSetDecrypted true]).
Proof. split; [apply new_client_wf | apply client_run_wf, new_client_wf]. Defined.
