(* ===== verification/IeTag.v ===== *)
(** * IE tag records and 802.11d range records

    [dot11_11d_tracked_range_info] (lines 286-340) is one 802.11d
    (start channel, channel count, max power) triple;
    [dot11_tracked_ietag] (lines 342-401) is one raw information element
    kept in an advertised SSID's tag-content map.

    Every C++ field is a [shared_ptr] that the constructors fill.  The
    copy constructor of [dot11_tracked_ietag] (lines 362-370) assigns five
    of the six fields: [tag_oui_manuf] is left a null pointer in the
    clone.  We model that field as [option string], [None] being the null
    pointer that [get_tag_oui_manuf] would dereference. *)

From S2P Require Import Prelude Tracker.

Module range_info.

Record dot11_11d_tracked_range_info := mk_range {
  startchan : Z;
  numchan : Z;
  txpower : Z;
}.

Definition new_range_info : dot11_11d_tracked_range_info := mk_range 0 0 0.

(** [dot11_11d_tracked_range_info()], [(int in_id)] and [(int in_id, e)] (lines 288-304). *)
Definition make_default : tracked_elem dot11_11d_tracked_range_info := construct_default new_range_info.
Definition make_with_id (in_id : Z) : tracked_elem dot11_11d_tracked_range_info := construct_with_id new_range_info in_id.
Definition make_from_map (in_id : Z) (e : option dot11_11d_tracked_range_info) : tracked_elem dot11_11d_tracked_range_info :=
  construct_from_map new_range_info in_id e.

(** Lines 326-328: [numchan] is set from [unsigned int], [txpower] is an
    [int32_t] set from [int]. *)
Definition set_startchan (r : dot11_11d_tracked_range_info) (v : Z) :=
  {| r with startchan := proxy_set_u 32 v |}.
Definition set_numchan (r : dot11_11d_tracked_range_info) (v : Z) :=
  {| r with numchan := proxy_set_u 32 v |}.
Definition set_txpower (r : dot11_11d_tracked_range_info) (v : Z) :=
  {| r with txpower := proxy_set_s 32 v |}.

(** The copy constructor of lines 306-314 copies all three fields. *)
Definition clone_range_info (p : dot11_11d_tracked_range_info) :=
  mk_range (startchan p) (numchan p) (txpower p).

#[global] Instance range_info_component : TrackerComponent dot11_11d_tracked_range_info := {
  tracker_signature := adler32_checksum "dot11_11d_tracked_range_info";
  clone_type := clone_range_info;
}.

Definition range_info_wf (r : dot11_11d_tracked_range_info) : Prop :=
  in_width 32 (startchan r) /\ in_width 32 (numchan r) /\ in_swidth 32 (txpower r).

End range_info.

Module ietag.

(** Lines 395-400. *)
Record dot11_tracked_ietag := mk_ietag {
  unique_tag_id : Z;
  tag_number : Z;
  tag_oui : Z;
  tag_oui_manuf : option string;
  tag_vendor_or_sub : Z;
  complete_tag_data : string;
}.

(** The [(int in_id)] constructor: every field allocated. *)
Definition new_ietag : dot11_tracked_ietag := mk_ietag 0 0 0 (Some "") 0 "".

(** [dot11_tracked_ietag()], [(int in_id)] and [(int in_id, e)] (lines 344-360). *)
Definition make_default : tracked_elem dot11_tracked_ietag := construct_default new_ietag.
Definition make_with_id (in_id : Z) : tracked_elem dot11_tracked_ietag := construct_with_id new_ietag in_id.
Definition make_from_map (in_id : Z) (e : option dot11_tracked_ietag) : tracked_elem dot11_tracked_ietag :=
  construct_from_map new_ietag in_id e.

(** Lines 383-388. *)
Definition set_unique_tag_id (t : dot11_tracked_ietag) (v : Z) :=
  {| t with unique_tag_id := proxy_set_u 32 v |}.
Definition set_tag_number (t : dot11_tracked_ietag) (v : Z) :=
  {| t with tag_number := proxy_set_u 8 v |}.
Definition set_tag_oui (t : dot11_tracked_ietag) (v : Z) :=
  {| t with tag_oui := proxy_set_u 32 v |}.
(** [set_tag_oui_manuf] writes through the pointer: on a null pointer
    the C++ dereference is undefined, modelled as [None]. *)
Definition set_tag_oui_manuf (t : dot11_tracked_ietag) (s : string)
  : option dot11_tracked_ietag :=
  match tag_oui_manuf t with
  | Some _ => Some {| t with tag_oui_manuf := Some s |}
  | None => None
  end.
Definition get_tag_oui_manuf (t : dot11_tracked_ietag) : option string := tag_oui_manuf t.
Definition set_tag_vendor_or_sub (t : dot11_tracked_ietag) (v : Z) :=
  {| t with tag_vendor_or_sub := proxy_set_s 16 v |}.
Definition set_complete_tag_data (t : dot11_tracked_ietag) (s : string) :=
  {| t with complete_tag_data := s |}.

(** The copy constructor of lines 362-370: [tag_oui_manuf] is not
    assigned. *)
Definition clone_ietag (p : dot11_tracked_ietag) : dot11_tracked_ietag :=
  mk_ietag (unique_tag_id p) (tag_number p) (tag_oui p) None
    (tag_vendor_or_sub p) (complete_tag_data p).

(** Lines 373-381. *)
#[global] Instance ietag_component : TrackerComponent dot11_tracked_ietag := {
  tracker_signature := adler32_checksum "dot11_tracked_ietag";
  clone_type := clone_ietag;
}.

(** A tag as the frame parser hands it over (section 6 of the spec):
    tag number, OUI and vendor sub-type for vendor tags, raw bytes. *)
Record parsed_tag := mk_parsed_tag {
  ptag_num : Z;
  ptag_oui : Z;
  ptag_sub : Z;
  ptag_data : string;
}.

(** [set_from_tag]: copy a parsed tag into a fresh record. *)
Definition set_from_tag (t : dot11_tracked_ietag) (p : parsed_tag) : dot11_tracked_ietag :=
  let t := set_tag_number t (ptag_num p) in
  let t := set_tag_oui t (ptag_oui p) in
  let t := set_tag_vendor_or_sub t (ptag_sub p) in
  set_complete_tag_data t (ptag_data p).

End ietag.

Import ietag.

#[global] Instance range_info_laws : TrackerComponentLaws range_info.dot11_11d_tracked_range_info.
Proof. constructor. intros []. reflexivity. Qed.

#[global] Instance ietag_laws : TrackerComponentLaws dot11_tracked_ietag.
Proof. constructor. intros []. reflexivity. Qed.

(** (C23) Likewise the copy constructor of [dot11_tracked_ietag] never
    assigns [tag_oui_manuf]: a tag made from a parsed tag has it, its
    clone has a null pointer there. *)
Theorem ietag_clone_drops_oui_manuf p s :
  let t := ietag.set_from_tag ietag.new_ietag p in
  is_Some (ietag.set_tag_oui_manuf t s) /\
  ietag.get_tag_oui_manuf (ietag.clone_ietag t) = None /\
  ietag.set_tag_oui_manuf (ietag.clone_ietag t) s = None.
Proof. simpl. split_wf; [eexists; reflexivity | ..]; reflexivity. Qed.

