(* ===== verification/Ssid.v ===== *)
(** * SSID identity records

    [dot11_probed_ssid] (lines 403-536) is an SSID a device probed for;
    [dot11_advertised_ssid] (lines 544-831) is an SSID a device advertised
    in beacons or probe responses (the device keeps one map of each kind,
    plus a responded-SSID map of the advertised type).  Fixed fields are
    values; [__ProxyDynamic] fields are [option]s; [maxrate], a fixed field
    that the copy constructor does not assign, is an [option] whose [None]
    is the null pointer of the clone.  [probed_step] and [adv_step]
    dispatch every state-changing call of each record; every call keeps
    each integer field within its C width. *)

From S2P Require Import Prelude Tracker IeTag.

Module probed.

(** Lines 496-535. *)
Record dot11_probed_ssid := mk_probed {
  ssid : string;
  ssid_len : Z;
  bssid : mac_addr;
  first_time : Z;
  last_time : Z;
  dot11r_mobility : Z;
  dot11r_mobility_domain_id : Z;
  location : option ext_record;
  crypt_set : Z;
  wpa_mfp_required : Z;
  wpa_mfp_supported : Z;
  ie_tag_list : option (list Z);
  wps_state : option Z;
  wps_manuf : option string;
  wps_device_name : option string;
  wps_model_name : option string;
  wps_model_number : option string;
  wps_serial_number : option string;
  wps_uuid_e : option string;
}.

(** [new_probed_ssid()] (lines 1204-1206). *)
Definition new_probed_ssid : dot11_probed_ssid :=
  mk_probed "" 0 0 0 0 0 0 None 0 0 0 None None None None None None None None.

(** [dot11_probed_ssid()], [(int in_id)] and [(int in_id, e)] (lines 405-421). *)
Definition make_default : tracked_elem dot11_probed_ssid := construct_default new_probed_ssid.
Definition make_with_id (in_id : Z) : tracked_elem dot11_probed_ssid := construct_with_id new_probed_ssid in_id.
Definition make_from_map (in_id : Z) (e : option dot11_probed_ssid) : tracked_elem dot11_probed_ssid :=
  construct_from_map new_probed_ssid in_id e.

(** Lines 468-491. *)
Definition set_ssid (p : dot11_probed_ssid) (s : string) := {| p with ssid := s |}.
Definition set_ssid_len (p : dot11_probed_ssid) (v : Z) :=
  {| p with ssid_len := proxy_set_u 32 v |}.
Definition set_bssid (p : dot11_probed_ssid) (m : mac_addr) := {| p with bssid := m |}.
Definition set_first_time (p : dot11_probed_ssid) (t : Z) :=
  {| p with first_time := proxy_set_time t |}.
Definition set_last_time (p : dot11_probed_ssid) (t : Z) :=
  {| p with last_time := proxy_set_time t |}.
Definition set_dot11r_mobility (p : dot11_probed_ssid) (b : bool) :=
  {| p with dot11r_mobility := proxy_set_bool b |}.
Definition set_dot11r_mobility_domain_id (p : dot11_probed_ssid) (v : Z) :=
  {| p with dot11r_mobility_domain_id := proxy_set_u 16 v |}.
Definition set_crypt_set (p : dot11_probed_ssid) (v : Z) :=
  {| p with crypt_set := proxy_set_u 64 v |}.
Definition set_wpa_mfp_required (p : dot11_probed_ssid) (b : bool) :=
  {| p with wpa_mfp_required := proxy_set_bool b |}.
Definition set_wpa_mfp_supported (p : dot11_probed_ssid) (b : bool) :=
  {| p with wpa_mfp_supported := proxy_set_bool b |}.
Definition set_wps_state (p : dot11_probed_ssid) (v : Z) :=
  {| p with wps_state := Some (proxy_set_u 32 v) |}.
Definition set_wps_manuf (p : dot11_probed_ssid) (s : string) :=
  {| p with wps_manuf := Some s |}.
Definition set_wps_device_name (p : dot11_probed_ssid) (s : string) :=
  {| p with wps_device_name := Some s |}.
Definition set_ie_tag_list (p : dot11_probed_ssid) (l : list Z) :=
  {| p with ie_tag_list := Some l |}.
Definition set_wps_model_name (p : dot11_probed_ssid) (s : string) :=
  {| p with wps_model_name := Some s |}.
Definition set_wps_model_number (p : dot11_probed_ssid) (s : string) :=
  {| p with wps_model_number := Some s |}.
Definition set_wps_serial_number (p : dot11_probed_ssid) (s : string) :=
  {| p with wps_serial_number := Some s |}.
Definition set_wps_uuid_e (p : dot11_probed_ssid) (s : string) :=
  {| p with wps_uuid_e := Some s |}.
(** [__ProxyDynamicTrackable(location, ...)] (line 474). *)
Definition set_location (p : dot11_probed_ssid) (l : ext_record) :=
  {| p with location := Some l |}.

(** The copy constructor (lines 423-456): fixed fields cloned, dynamic
    fields left absent (only their ids are copied). *)
Definition clone_probed (p : dot11_probed_ssid) : dot11_probed_ssid :=
  mk_probed (ssid p) (ssid_len p) (bssid p) (first_time p) (last_time p)
    (dot11r_mobility p) (dot11r_mobility_domain_id p) None (crypt_set p)
    (wpa_mfp_required p) (wpa_mfp_supported p) None None None None None None None None.

(** Lines 458-466. *)
#[global] Instance probed_component : TrackerComponent dot11_probed_ssid := {
  tracker_signature := adler32_checksum "dot11_probed_ssid";
  clone_type := clone_probed;
}.

Definition probed_wf (p : dot11_probed_ssid) : Prop :=
  in_width 32 (ssid_len p) /\ in_width 64 (first_time p) /\
  in_width 64 (last_time p) /\ in_width 8 (dot11r_mobility p) /\
  in_width 16 (dot11r_mobility_domain_id p) /\ in_width 64 (crypt_set p) /\
  in_width 8 (wpa_mfp_required p) /\ in_width 8 (wpa_mfp_supported p).

(** The calls the frame handlers make on a probed SSID record. *)
Inductive probed_op :=
| PSetSsid (s : string) | PSetSsidLen (v : Z) | PSetBssid (m : mac_addr)
| PSetFirstTime (t : Z) | PSetLastTime (t : Z) | PSetDot11rMobility (b : bool)
| PSetDot11rMobilityDomainId (v : Z) | PSetCryptSet (v : Z)
| PSetWpaMfpRequired (b : bool) | PSetWpaMfpSupported (b : bool)
| PSetIeTagList (l : list Z) | PSetWpsState (v : Z) | PSetWpsManuf (s : string)
| PSetWpsDeviceName (s : string) | PSetWpsModelName (s : string)
| PSetWpsModelNumber (s : string) | PSetWpsSerialNumber (s : string)
| PSetWpsUuidE (s : string) | PSetLocation (l : ext_record).

Definition probed_step (p : dot11_probed_ssid) (op : probed_op) : dot11_probed_ssid :=
  match op with
  | PSetSsid s => set_ssid p s
  | PSetSsidLen v => set_ssid_len p v
  | PSetBssid m => set_bssid p m
  | PSetFirstTime t => set_first_time p t
  | PSetLastTime t => set_last_time p t
  | PSetDot11rMobility b => set_dot11r_mobility p b
  | PSetDot11rMobilityDomainId v => set_dot11r_mobility_domain_id p v
  | PSetCryptSet v => set_crypt_set p v
  | PSetWpaMfpRequired b => set_wpa_mfp_required p b
  | PSetWpaMfpSupported b => set_wpa_mfp_supported p b
  | PSetIeTagList l => set_ie_tag_list p l
  | PSetWpsState v => set_wps_state p v
  | PSetWpsManuf s => set_wps_manuf p s
  | PSetWpsDeviceName s => set_wps_device_name p s
  | PSetWpsModelName s => set_wps_model_name p s
  | PSetWpsModelNumber s => set_wps_model_number p s
  | PSetWpsSerialNumber s => set_wps_serial_number p s
  | PSetWpsUuidE s => set_wps_uuid_e p s
  | PSetLocation l => set_location p l
  end.

End probed.

Module advertised.

(** Lines 737-830. *)
Record dot11_advertised_ssid := mk_advertised {
  ssid : string;
  ssid_len : Z;
  ssid_hash : Z;
  owe_ssid : option string;
  owe_ssid_len : option Z;
  owe_bssid : option mac_addr;
  ssid_beacon : Z;
  ssid_probe_response : Z;
  channel : string;
  ht_mode : string;
  ht_center_1 : Z;
  ht_center_2 : Z;
  first_time : Z;
  last_time : Z;
  beacon_info : option string;
  ssid_cloaked : Z;
  crypt_set : Z;
  wpa_mfp_required : Z;
  wpa_mfp_supported : Z;
  maxrate : option double;
  beaconrate : Z;
  beacons_sec : Z;
  ietag_checksum : Z;
  dot11d_country : option string;
  dot11d_vec : option (list range_info.dot11_11d_tracked_range_info);
  wps_state : option Z;
  wps_manuf : option string;
  wps_device_name : option string;
  wps_model_name : option string;
  wps_model_number : option string;
  wps_serial_number : option string;
  wps_uuid_e : option string;
  location : option ext_record;
  dot11r_mobility : Z;
  dot11r_mobility_domain_id : Z;
  dot11e_qbss : Z;
  dot11e_qbss_stations : Z;
  dot11e_qbss_channel_load : double;
  ccx_txpower : Z;
  cisco_client_mfp : Z;
  ie_tag_list : option (list Z);
  ie_tag_content : option (gmap Z ietag.dot11_tracked_ietag);
}.

(** [new_advertised_ssid()] / [new_responded_ssid()] (lines 1186-1197). *)
Definition new_advertised_ssid : dot11_advertised_ssid :=
  mk_advertised "" 0 0 None None None 0 0 "" "" 0 0 0 0 None 0 0 0 0 (Some 0) 0 0 0
    None None None None None None None None None None 0 0 0 0 0 0 0 None None.

(** [dot11_advertised_ssid()], [(int in_id)] and [(int in_id, e)] (lines 546-562).
    The re-typing of [dot11d_vec] by the override of [reserve_fields]
    is modelled in [Deserialise]. *)
Definition make_default : tracked_elem dot11_advertised_ssid := construct_default new_advertised_ssid.
Definition make_with_id (in_id : Z) : tracked_elem dot11_advertised_ssid := construct_with_id new_advertised_ssid in_id.
Definition make_from_map (in_id : Z) (e : option dot11_advertised_ssid) : tracked_elem dot11_advertised_ssid :=
  construct_from_map new_advertised_ssid in_id e.

(** [__Proxy] setters of lines 639-711, with the casts of their types. *)
Definition set_ssid (a : dot11_advertised_ssid) (s : string) := {| a with ssid := s |}.
Definition set_ssid_len (a : dot11_advertised_ssid) (v : Z) :=
  {| a with ssid_len := proxy_set_u 32 v |}.
Definition set_ssid_hash (a : dot11_advertised_ssid) (v : Z) :=
  {| a with ssid_hash := proxy_set_u 64 v |}.
Definition set_ssid_beacon (a : dot11_advertised_ssid) (b : bool) :=
  {| a with ssid_beacon := proxy_set_bool b |}.
Definition set_ssid_probe_response (a : dot11_advertised_ssid) (b : bool) :=
  {| a with ssid_probe_response := proxy_set_bool b |}.
Definition set_channel (a : dot11_advertised_ssid) (s : string) := {| a with channel := s |}.
Definition set_first_time (a : dot11_advertised_ssid) (t : Z) :=
  {| a with first_time := proxy_set_time t |}.
Definition set_last_time (a : dot11_advertised_ssid) (t : Z) :=
  {| a with last_time := proxy_set_time t |}.
Definition get_last_time (a : dot11_advertised_ssid) : Z := proxy_get_time (last_time a).
Definition set_ssid_cloaked (a : dot11_advertised_ssid) (b : bool) :=
  {| a with ssid_cloaked := proxy_set_bool b |}.
Definition set_crypt_set (a : dot11_advertised_ssid) (v : Z) :=
  {| a with crypt_set := proxy_set_u 64 v |}.
Definition set_beaconrate (a : dot11_advertised_ssid) (v : Z) :=
  {| a with beaconrate := proxy_set_u 32 v |}.
Definition set_beacons_sec (a : dot11_advertised_ssid) (v : Z) :=
  {| a with beacons_sec := proxy_set_u 32 v |}.
Definition inc_beacons_sec (a : dot11_advertised_ssid) (i : Z) :=
  {| a with beacons_sec := proxy_inc 32 (beacons_sec a) i |}.
Definition dec_beacons_sec (a : dot11_advertised_ssid) (i : Z) :=
  {| a with beacons_sec := proxy_dec 32 (beacons_sec a) i |}.
Definition set_ietag_checksum (a : dot11_advertised_ssid) (v : Z) :=
  {| a with ietag_checksum := proxy_set_u 32 v |}.
Definition set_dot11e_qbss_stations (a : dot11_advertised_ssid) (v : Z) :=
  {| a with dot11e_qbss_stations := proxy_set_u 16 v |}.
(** [__Proxy(ccx_txpower, uint8_t, unsigned int, unsigned int, ...)]: an
    [unsigned int] stored in a [uint8_t]. *)
Definition set_ccx_txpower (a : dot11_advertised_ssid) (v : Z) :=
  {| a with ccx_txpower := proxy_set_u 8 v |}.
Definition get_ccx_txpower (a : dot11_advertised_ssid) : Z := ccx_txpower a.
(** [maxrate] is written through its pointer: undefined on the clone's
    null pointer. *)
Definition set_maxrate (a : dot11_advertised_ssid) (v : double) : option dot11_advertised_ssid :=
  match maxrate a with
  | Some _ => Some {| a with maxrate := Some v |}
  | None => None
  end.
Definition set_owe_ssid_len (a : dot11_advertised_ssid) (v : Z) :=
  {| a with owe_ssid_len := Some (proxy_set_u 32 v) |}.
Definition set_dot11d_country (a : dot11_advertised_ssid) (s : string) :=
  {| a with dot11d_country := Some s |}.
Definition set_wps_state (a : dot11_advertised_ssid) (v : Z) :=
  {| a with wps_state := Some (proxy_set_u 32 v) |}.

(** The remaining accessors of lines 644-709. *)
Definition set_owe_ssid (a : dot11_advertised_ssid) (s : string) :=
  {| a with owe_ssid := Some s |}.
Definition set_owe_bssid (a : dot11_advertised_ssid) (m : mac_addr) :=
  {| a with owe_bssid := Some m |}.
Definition set_ht_mode (a : dot11_advertised_ssid) (s : string) := {| a with ht_mode := s |}.
Definition set_ht_center_1 (a : dot11_advertised_ssid) (v : Z) :=
  {| a with ht_center_1 := proxy_set_u 64 v |}.
Definition set_ht_center_2 (a : dot11_advertised_ssid) (v : Z) :=
  {| a with ht_center_2 := proxy_set_u 64 v |}.
Definition set_beacon_info (a : dot11_advertised_ssid) (s : string) :=
  {| a with beacon_info := Some s |}.
Definition set_wpa_mfp_required (a : dot11_advertised_ssid) (b : bool) :=
  {| a with wpa_mfp_required := proxy_set_bool b |}.
Definition set_wpa_mfp_supported (a : dot11_advertised_ssid) (b : bool) :=
  {| a with wpa_mfp_supported := proxy_set_bool b |}.
Definition set_wps_manuf (a : dot11_advertised_ssid) (s : string) :=
  {| a with wps_manuf := Some s |}.
Definition set_wps_device_name (a : dot11_advertised_ssid) (s : string) :=
  {| a with wps_device_name := Some s |}.
Definition set_wps_model_name (a : dot11_advertised_ssid) (s : string) :=
  {| a with wps_model_name := Some s |}.
Definition set_wps_model_number (a : dot11_advertised_ssid) (s : string) :=
  {| a with wps_model_number := Some s |}.
Definition set_wps_serial_number (a : dot11_advertised_ssid) (s : string) :=
  {| a with wps_serial_number := Some s |}.
Definition set_wps_uuid_e (a : dot11_advertised_ssid) (s : string) :=
  {| a with wps_uuid_e := Some s |}.
Definition set_location (a : dot11_advertised_ssid) (l : ext_record) :=
  {| a with location := Some l |}.
Definition set_dot11r_mobility (a : dot11_advertised_ssid) (b : bool) :=
  {| a with dot11r_mobility := proxy_set_bool b |}.
Definition set_dot11r_mobility_domain_id (a : dot11_advertised_ssid) (v : Z) :=
  {| a with dot11r_mobility_domain_id := proxy_set_u 16 v |}.
Definition set_dot11e_qbss (a : dot11_advertised_ssid) (b : bool) :=
  {| a with dot11e_qbss := proxy_set_bool b |}.
Definition set_dot11e_qbss_channel_load (a : dot11_advertised_ssid) (v : double) :=
  {| a with dot11e_qbss_channel_load := v |}.
Definition set_cisco_client_mfp (a : dot11_advertised_ssid) (b : bool) :=
  {| a with cisco_client_mfp := proxy_set_bool b |}.
Definition set_ie_tag_list (a : dot11_advertised_ssid) (l : list Z) :=
  {| a with ie_tag_list := Some l |}.

(** An 802.11d entry as the parser hands it over. *)
Record dot11_packinfo_dot11d_entry := mk_dot11d_entry {
  d_startchan : Z; d_numchan : Z; d_txpower : Z;
}.

(** [set_dot11d_vec] (declared line 681): the list is replaced by one
    range record per parsed entry, in order. *)
Definition set_dot11d_vec (a : dot11_advertised_ssid) (v : list dot11_packinfo_dot11d_entry) :=
  let mk e := range_info.set_txpower (range_info.set_numchan
                (range_info.set_startchan range_info.new_range_info (d_startchan e))
                (d_numchan e)) (d_txpower e) in
  {| a with dot11d_vec := Some (map mk v) |}.

(** [set_ietag_content_from_packet] (declared line 713): the tag-order
    list and the tag-number-keyed content map are replaced wholesale by
    those of the parsed frame; the map keeps one tag per number. *)
Definition ietag_content_of (tags : list ietag.parsed_tag) : gmap Z ietag.dot11_tracked_ietag :=
  fold_left (fun m t => <[ietag.ptag_num t := ietag.set_from_tag ietag.new_ietag t]> m) tags ∅.

Definition set_ietag_content_from_packet (a : dot11_advertised_ssid) (tags : list ietag.parsed_tag) :=
  {| a with ie_tag_list := Some (map ietag.ptag_num tags);
            ie_tag_content := Some (ietag_content_of tags) |}.

(** The copy constructor (lines 564-627): [maxrate] is not assigned and
    the dynamic fields are left absent. *)
Definition clone_advertised (p : dot11_advertised_ssid) : dot11_advertised_ssid :=
  mk_advertised (ssid p) (ssid_len p) (ssid_hash p) None None None (ssid_beacon p)
    (ssid_probe_response p) (channel p) (ht_mode p) (ht_center_1 p) (ht_center_2 p)
    (first_time p) (last_time p) None (ssid_cloaked p) (crypt_set p)
    (wpa_mfp_required p) (wpa_mfp_supported p) None (beaconrate p) (beacons_sec p)
    (ietag_checksum p) None None None None None None None None None None
    (dot11r_mobility p) (dot11r_mobility_domain_id p) (dot11e_qbss p)
    (dot11e_qbss_stations p) (dot11e_qbss_channel_load p) (ccx_txpower p)
    (cisco_client_mfp p) None None.

(** The spec's deep clone (section 4.5) would keep the optional fields;
    this says a record holds none of them, nor a [maxrate] cell. *)
Definition optional_absent (a : dot11_advertised_ssid) : Prop :=
  owe_ssid a = None /\ owe_ssid_len a = None /\ owe_bssid a = None /\ beacon_info a = None /\
  maxrate a = None /\ dot11d_country a = None /\ dot11d_vec a = None /\ wps_state a = None /\
  wps_manuf a = None /\ wps_device_name a = None /\ wps_model_name a = None /\
  wps_model_number a = None /\ wps_serial_number a = None /\ wps_uuid_e a = None /\
  location a = None /\ ie_tag_list a = None /\ ie_tag_content a = None.

(** Lines 629-637. *)
#[global] Instance advertised_component : TrackerComponent dot11_advertised_ssid := {
  tracker_signature := adler32_checksum "dot11_advertised_ssid";
  clone_type := clone_advertised;
}.

(** Every integer field within the width of its C type. *)
Definition advertised_wf (a : dot11_advertised_ssid) : Prop :=
  in_width 32 (ssid_len a) /\ in_width 64 (ssid_hash a) /\
  in_width 8 (ssid_beacon a) /\ in_width 8 (ssid_probe_response a) /\
  in_width 64 (ht_center_1 a) /\ in_width 64 (ht_center_2 a) /\
  in_width 64 (first_time a) /\ in_width 64 (last_time a) /\
  in_width 8 (ssid_cloaked a) /\ in_width 64 (crypt_set a) /\
  in_width 8 (wpa_mfp_required a) /\ in_width 8 (wpa_mfp_supported a) /\
  in_width 32 (beaconrate a) /\ in_width 32 (beacons_sec a) /\
  in_width 32 (ietag_checksum a) /\ in_width 8 (dot11r_mobility a) /\
  in_width 16 (dot11r_mobility_domain_id a) /\ in_width 8 (dot11e_qbss a) /\
  in_width 16 (dot11e_qbss_stations a) /\ in_width 8 (ccx_txpower a) /\
  in_width 8 (cisco_client_mfp a).

(** The calls the beacon and probe-response handlers make on an
    advertised SSID record.  Only [set_maxrate] can fail: it writes
    through [maxrate], null in a clone. *)
Inductive adv_op :=
| ASetSsid (s : string) | ASetSsidLen (v : Z) | ASetSsidHash (v : Z)
| ASetOweSsid (s : string) | ASetOweSsidLen (v : Z) | ASetOweBssid (m : mac_addr)
| ASetSsidBeacon (b : bool) | ASetSsidProbeResponse (b : bool) | ASetChannel (s : string)
| ASetHtMode (s : string) | ASetHtCenter1 (v : Z) | ASetHtCenter2 (v : Z)
| ASetFirstTime (t : Z) | ASetLastTime (t : Z) | ASetBeaconInfo (s : string)
| ASetSsidCloaked (b : bool) | ASetCryptSet (v : Z)
| ASetWpaMfpRequired (b : bool) | ASetWpaMfpSupported (b : bool) | ASetMaxrate (v : double)
| ASetBeaconrate (v : Z) | ASetBeaconsSec (v : Z) | AIncBeaconsSec (i : Z) | ADecBeaconsSec (i : Z)
| ASetIetagChecksum (v : Z) | ASetDot11dCountry (s : string)
| ASetDot11dVec (v : list dot11_packinfo_dot11d_entry)
| ASetWpsState (v : Z) | ASetWpsManuf (s : string) | ASetWpsDeviceName (s : string)
| ASetWpsModelName (s : string) | ASetWpsModelNumber (s : string)
| ASetWpsSerialNumber (s : string) | ASetWpsUuidE (s : string) | ASetLocation (l : ext_record)
| ASetDot11rMobility (b : bool) | ASetDot11rMobilityDomainId (v : Z) | ASetDot11eQbss (b : bool)
| ASetDot11eQbssStations (v : Z) | ASetDot11eQbssChannelLoad (v : double)
| ASetCcxTxpower (v : Z) | ASetCiscoClientMfp (b : bool) | ASetIeTagList (l : list Z)
| ASetIetagContent (tags : list ietag.parsed_tag).

(** One call; [None] is the write through a null [maxrate]. *)
Definition adv_step (a : dot11_advertised_ssid) (op : adv_op) : option dot11_advertised_ssid :=
  match op with
  | ASetSsid s => Some (set_ssid a s)
  | ASetSsidLen v => Some (set_ssid_len a v)
  | ASetSsidHash v => Some (set_ssid_hash a v)
  | ASetOweSsid s => Some (set_owe_ssid a s)
  | ASetOweSsidLen v => Some (set_owe_ssid_len a v)
  | ASetOweBssid m => Some (set_owe_bssid a m)
  | ASetSsidBeacon b => Some (set_ssid_beacon a b)
  | ASetSsidProbeResponse b => Some (set_ssid_probe_response a b)
  | ASetChannel s => Some (set_channel a s)
  | ASetHtMode s => Some (set_ht_mode a s)
  | ASetHtCenter1 v => Some (set_ht_center_1 a v)
  | ASetHtCenter2 v => Some (set_ht_center_2 a v)
  | ASetFirstTime t => Some (set_first_time a t)
  | ASetLastTime t => Some (set_last_time a t)
  | ASetBeaconInfo s => Some (set_beacon_info a s)
  | ASetSsidCloaked b => Some (set_ssid_cloaked a b)
  | ASetCryptSet v => Some (set_crypt_set a v)
  | ASetWpaMfpRequired b => Some (set_wpa_mfp_required a b)
  | ASetWpaMfpSupported b => Some (set_wpa_mfp_supported a b)
  | ASetMaxrate v => set_maxrate a v
  | ASetBeaconrate v => Some (set_beaconrate a v)
  | ASetBeaconsSec v => Some (set_beacons_sec a v)
  | AIncBeaconsSec i => Some (inc_beacons_sec a i)
  | ADecBeaconsSec i => Some (dec_beacons_sec a i)
  | ASetIetagChecksum v => Some (set_ietag_checksum a v)
  | ASetDot11dCountry s => Some (set_dot11d_country a s)
  | ASetDot11dVec v => Some (set_dot11d_vec a v)
  | ASetWpsState v => Some (set_wps_state a v)
  | ASetWpsManuf s => Some (set_wps_manuf a s)
  | ASetWpsDeviceName s => Some (set_wps_device_name a s)
  | ASetWpsModelName s => Some (set_wps_model_name a s)
  | ASetWpsModelNumber s => Some (set_wps_model_number a s)
  | ASetWpsSerialNumber s => Some (set_wps_serial_number a s)
  | ASetWpsUuidE s => Some (set_wps_uuid_e a s)
  | ASetLocation l => Some (set_location a l)
  | ASetDot11rMobility b => Some (set_dot11r_mobility a b)
  | ASetDot11rMobilityDomainId v => Some (set_dot11r_mobility_domain_id a v)
  | ASetDot11eQbss b => Some (set_dot11e_qbss a b)
  | ASetDot11eQbssStations v => Some (set_dot11e_qbss_stations a v)
  | ASetDot11eQbssChannelLoad v => Some (set_dot11e_qbss_channel_load a v)
  | ASetCcxTxpower v => Some (set_ccx_txpower a v)
  | ASetCiscoClientMfp b => Some (set_cisco_client_mfp a b)
  | ASetIeTagList l => Some (set_ie_tag_list a l)
  | ASetIetagContent tags => Some (set_ietag_content_from_packet a tags)
  end.

End advertised.

(** The last parsed tag with number [n]. *)
Definition last_tag (n : Z) (tags : list ietag.parsed_tag) : option ietag.parsed_tag :=
  fold_left (fun acc t => if ietag.ptag_num t =? n then Some t else acc) tags None.

(** A WPA vendor tag (221, Microsoft OUI, type 4) with the given data. *)
Definition vendor_tag (data : string) : ietag.parsed_tag := ietag.mk_parsed_tag 221 0x0050F2 4 data.

(** ** Properties *)

Lemma new_probed_wf : probed.probed_wf probed.new_probed_ssid.
Proof. unfold probed.probed_wf. simpl. split_wf; solve_width. Qed.

Lemma probed_step_wf p op : probed.probed_wf p -> probed.probed_wf (probed.probed_step p op).
Proof.
  unfold probed.probed_wf. intros (H1 & H2 & H3 & H4 & H5 & H6 & H7 & H8).
  destruct op; simpl; split_wf; solve_width.
Qed.

Lemma new_advertised_wf : advertised.advertised_wf advertised.new_advertised_ssid.
Proof. unfold advertised.advertised_wf. simpl. split_wf; solve_width. Qed.

(** Every call keeps every integer field of an advertised SSID within
    its width; the only call that can fail is [set_maxrate] on a clone. *)
Lemma adv_step_wf a op a' :
  advertised.advertised_wf a -> advertised.adv_step a op = Some a' -> advertised.advertised_wf a'.
Proof.
  unfold advertised.advertised_wf.
  intros (H1 & H2 & H3 & H4 & H5 & H6 & H7 & H8 & H9 & H10 & H11 & H12 & H13 & H14 & H15 & H16 &
          H17 & H18 & H19 & H20 & H21) Hs.
  destruct op; simpl in Hs;
    try (unfold advertised.set_maxrate in Hs; destruct (advertised.maxrate a));
    simplify_eq; simpl; split_wf; solve_width.
Qed.

#[global] Instance probed_laws : TrackerComponentLaws probed.dot11_probed_ssid.
Proof. constructor. intros []. reflexivity. Qed.

#[global] Instance advertised_laws : TrackerComponentLaws advertised.dot11_advertised_ssid.
Proof. constructor. intros []. reflexivity. Qed.

Lemma ietag_content_fold_lookup tags (m : gmap Z ietag.dot11_tracked_ietag) acc n :
  m !! n = (ietag.set_from_tag ietag.new_ietag <$> acc) ->
  fold_left (fun m t => <[ietag.ptag_num t := ietag.set_from_tag ietag.new_ietag t]> m) tags m !! n =
  (ietag.set_from_tag ietag.new_ietag <$>
    fold_left (fun acc t => if ietag.ptag_num t =? n then Some t else acc) tags acc).
Proof.
  revert m acc. induction tags as [| t tags IH]; intros m acc Hm; simpl; [exact Hm |].
  apply IH. destruct (Z.eqb_spec (ietag.ptag_num t) n) as [<- | Hne].
  - apply lookup_insert_eq.
  - rewrite lookup_insert_ne by exact Hne. exact Hm.
Qed.

(** (C28) After [set_ietag_content_from_packet], the content map holds,
    under each tag number, the last tag of the frame with that number. *)
Theorem ietag_content_lookup a tags n :
  let a' := advertised.set_ietag_content_from_packet a tags in
  advertised.ie_tag_list a' = Some (map ietag.ptag_num tags) /\
  (match advertised.ie_tag_content a' with Some m => m !! n | None => None end) =
    (ietag.set_from_tag ietag.new_ietag <$> last_tag n tags).
Proof.
  split; [reflexivity |]. simpl. apply ietag_content_fold_lookup. reflexivity.
Qed.

(** Two frames that differ only in their first vendor tag leave the
    same record: the tag-number-keyed map keeps one tag per number, so the
    frame cannot be rebuilt from the record, which the spec (section 3)
    says the map supports. *)
Theorem ietag_content_loses_duplicates a :
  let f1 := [vendor_tag "A"; vendor_tag "B"] in
  let f2 := [vendor_tag "C"; vendor_tag "B"] in
  f1 <> f2 /\
  advertised.set_ietag_content_from_packet a f1 = advertised.set_ietag_content_from_packet a f2.
Proof. split; [discriminate | reflexivity]. Qed.

(** The copy constructor of [dot11_advertised_ssid] never assigns
    [maxrate]: on any record whose [maxrate] is allocated (every
    constructed one) [set_maxrate] works, on its clone it writes through a
    null pointer. *)
Theorem advertised_clone_drops_maxrate a v :
  is_Some (advertised.maxrate a) ->
  is_Some (advertised.set_maxrate a v) /\ advertised.set_maxrate (advertised.clone_advertised a) v = None.
Proof. intros [r Hr]. unfold advertised.set_maxrate. rewrite Hr. split; [eauto | reflexivity]. Qed.

(** (C22) The copy constructor of [dot11_advertised_ssid] keeps every
    fixed field and forgets every optional one.  A clone holds no
    optional field, and a record is its own clone exactly when it holds
    none.  So a clone of an SSID seen with WPS, 802.11d, OWE or IE-tag
    content has lost all of it, where spec 4.5 asks for a deep copy. *)
Theorem advertised_clone_forgets_optional a :
  advertised.optional_absent (advertised.clone_advertised a) /\
  (advertised.clone_advertised a = a <-> advertised.optional_absent a).
Proof.
  assert (Habs : forall b, advertised.optional_absent (advertised.clone_advertised b))
    by (intros b; unfold advertised.optional_absent; split_and!; reflexivity).
  split; [apply Habs |]. split; [intros <-; apply Habs |].
  destruct a; unfold advertised.optional_absent; simpl.
  intros (-> & -> & -> & -> & -> & -> & -> & -> & -> & -> & -> & -> & -> & -> & -> & -> & ->).
  reflexivity.
Qed.

Lemma advertised_clone_drops_maxrate_witness :
  is_Some (advertised.maxrate advertised.new_advertised_ssid) /\
  advertised.set_maxrate (advertised.clone_advertised advertised.new_advertised_ssid) 54 = None.
Proof.
  assert (H : is_Some (advertised.maxrate advertised.new_advertised_ssid)) by (eexists; reflexivity).
  split; [exact H | exact (proj2 (advertised_clone_drops_maxrate _ 54 H))].
Defined.
