(* ===== verification/Deserialise.v ===== *)
(** * Deserialisation: the [(int in_id, shared_ptr<tracker_element_map> e)]
      constructors and the [reserve_fields] overrides

    A record read back from storage arrives as a generic
    [tracker_element_map] [e].  The base [tracker_component::reserve_fields(e)]
    binds each registered field to its entry of [e].  Nested records (the
    elements of the device's maps and vectors, the 802.11d ranges of an
    advertised SSID) are still generic maps at that point.  Each
    [reserve_fields] override must then "kick" them: build a typed record
    from each generic one with [make_shared<T>(entry_id, map)] and store it
    back.

    An element is [ElemMap x] while it is a generic map holding the fields
    of [x], and [ElemTyped x] once it is a typed [T].  The loops are
    modelled as written:
    - the vector loops [for (auto k = v->begin(); k != v->end(); ++k) *k = ...]
      assign through the iterator: [iter_assign], a loop over an index
      with fuel;
    - the map loops [for (auto as : *m) { ...; as.second = assid; }] copy
      each [std::pair] and assign to the copy: [for_each_copy], which
      computes each typed record and drops it.

    The device's override (lines 1474-1535) dereferences
    [advertised_ssid_map] without the null test it makes for the other
    collections, and never visits [responded_ssid_map]. *)

From S2P Require Import Prelude Tracker Eapol Client IeTag Ssid.

(** ** Elements of a deserialised collection *)

Inductive elem (A : Type) := ElemMap (x : A) | ElemTyped (x : A).
Arguments ElemMap {A} x.
Arguments ElemTyped {A} x.

Definition elem_val {A} (e : elem A) : A := match e with ElemMap x | ElemTyped x => x end.

Definition is_typed {A} (e : elem A) : bool := match e with ElemTyped _ => true | ElemMap _ => false end.

(** [std::make_shared<T>(entry_id, std::static_pointer_cast<tracker_element_map>(x))]:
    a typed record with the fields [x] holds. *)
Definition retype {A} (e : elem A) : elem A := ElemTyped (elem_val e).

(** ** The two loop shapes *)

Section Loops.
Context {A : Type}.

(** [for (auto k = v->begin(); k != v->end(); ++k) *k = f(x);] where [x] is the element at [k], with [k]
    an index into [v].  [None] is running out of fuel. *)
Fixpoint iter_assign (fuel : nat) (f : A -> A) (v : list A) (k : nat) : option (list A) :=
  match fuel with
  | O => None
  | S fuel' =>
      match v !! k with
      | None => Some v
      | Some x => iter_assign fuel' f (<[k := f x]> v) (S k)
      end
  end.

(** [for (auto as : *m) { auto x = f(as.second); as.second = x; }]: the
    body assigns to the loop variable, a copy of the map's pair. *)
Definition for_each_copy {K} `{Countable K} (f : A -> A) (m : gmap K A) : gmap K A :=
  map_fold (fun k v acc => let copy := (k, f v) in acc) m m.

End Loops.

(** The vector loop of an override: one more unit of fuel than elements,
    for the final [k != end] test. *)
Definition kick_vec {A} (v : list (elem A)) : option (list (elem A)) :=
  iter_assign (S (length v)) retype v 0.

(** [if (v != nullptr) { loop }]. *)
Definition kick_opt_vec {A} (o : option (list (elem A))) : option (option (list (elem A))) :=
  match o with
  | Some v => Some <$> kick_vec v
  | None => Some None
  end.

(** ** [dot11_advertised_ssid::reserve_fields] (lines 718-735) *)

(** Only [dot11d_vec] holds nested records. *)
Definition reserve_fields_advertised (e_present : bool)
    (dot11d : option (list (elem range_info.dot11_11d_tracked_range_info)))
    : option (option (list (elem range_info.dot11_11d_tracked_range_info))) :=
  if e_present then kick_opt_vec dot11d else Some dot11d.

(** ** [dot11_tracked_device] read back from storage *)

(** The device's collections of nested records, and its four plain
    members (not serialised). *)
Record stored_device := mk_stored {
  sd_client_map : option (gmap mac_addr (elem client.dot11_client));
  sd_advertised_ssid_map : option (gmap Z (elem advertised.dot11_advertised_ssid));
  sd_responded_ssid_map : option (gmap Z (elem advertised.dot11_advertised_ssid));
  sd_probed_ssid_map : option (gmap Z (elem probed.dot11_probed_ssid));
  sd_wpa_key_vec : option (list (elem eapol.dot11_tracked_eapol));
  sd_wpa_nonce_vec : option (list (elem nonce.dot11_tracked_nonce));
  sd_wpa_anonce_vec : option (list (elem nonce.dot11_tracked_nonce));
  sd_last_adv_ie_csum : Z;
  sd_last_bss_invalid : Z;
  sd_bss_invalid_count : Z;
  sd_snapshot_next_beacon : bool;
}.

(** What [tracker_component::reserve_fields(nullptr)] leaves: every
    dynamic field absent. *)
Definition fresh_stored : stored_device :=
  mk_stored None None None None None None None 0 0 0 false.

(** [reserve_fields(e)] of lines 1474-1535.  [None] is undefined
    behaviour: the null [advertised_ssid_map] dereferenced at line 1480,
    or a loop out of fuel. *)
Definition reserve_fields_device (e : option stored_device) : option stored_device :=
  match e with
  | None => Some fresh_stored
  | Some sd =>
      match sd_advertised_ssid_map sd with
      | None => None
      | Some am =>
          let am' := for_each_copy retype am in
          let pm' := for_each_copy retype <$> sd_probed_ssid_map sd in
          let cm' := for_each_copy retype <$> sd_client_map sd in
          keys ← kick_opt_vec (sd_wpa_key_vec sd);
          nonces ← kick_opt_vec (sd_wpa_nonce_vec sd);
          anonces ← kick_opt_vec (sd_wpa_anonce_vec sd);
          Some {| sd with sd_advertised_ssid_map := Some am'; sd_probed_ssid_map := pm';
                          sd_client_map := cm'; sd_wpa_key_vec := keys;
                          sd_wpa_nonce_vec := nonces; sd_wpa_anonce_vec := anonces |}
      end
  end.

(** The deserialising constructor (lines 1065-1075): the four plain
    members reset, then [register_fields(); reserve_fields(e);]. *)
Definition device_of_map (e : option stored_device) : option stored_device :=
  let reset sd := {| sd with sd_last_adv_ie_csum := 0; sd_last_bss_invalid := 0;
                             sd_bss_invalid_count := 0; sd_snapshot_next_beacon := false |} in
  reserve_fields_device (reset <$> e).

(** Every element of a map re-typed in place. *)
Definition kick_map {K A} `{Countable K} (m : gmap K (elem A)) : gmap K (elem A) :=
  retype <$> m.

(** The loop the comment of line 1478 intends: every element of every
    collection re-typed in place. *)
Definition kick_all (sd : stored_device) : stored_device :=
  {| sd with sd_client_map := kick_map <$> sd_client_map sd;
             sd_advertised_ssid_map := kick_map <$> sd_advertised_ssid_map sd;
             sd_responded_ssid_map := kick_map <$> sd_responded_ssid_map sd;
             sd_probed_ssid_map := kick_map <$> sd_probed_ssid_map sd;
             sd_wpa_key_vec := (map retype) <$> sd_wpa_key_vec sd;
             sd_wpa_nonce_vec := (map retype) <$> sd_wpa_nonce_vec sd;
             sd_wpa_anonce_vec := (map retype) <$> sd_wpa_anonce_vec sd |}.

(** A device read back with one advertised SSID and one key record,
    both still generic maps. *)
Definition stored_example : stored_device :=
  mk_stored None (Some {[1 := ElemMap advertised.new_advertised_ssid]}) None None
    (Some [ElemMap eapol.new_eapol]) None None 7 0 0 true.

(** ** The loops *)

Section LoopLemmas.
Context {A : Type} (f : A -> A).

(** One pass of the iterator loop from the end of [pre]. *)
Lemma iter_assign_app fuel pre post :
  (length post < fuel)%nat ->
  iter_assign fuel f (pre ++ post) (length pre) = Some (pre ++ map f post).
Proof.
  revert pre post. induction fuel as [| fuel IH]; intros pre post Hf; [lia |].
  simpl. destruct post as [| x post].
  - rewrite !app_nil_r, lookup_ge_None_2 by lia. reflexivity.
  - rewrite lookup_app_r, Nat.sub_diag by lia. simpl.
    rewrite insert_app_r_alt, Nat.sub_diag by lia. simpl.
    replace (pre ++ f x :: post) with ((pre ++ [f x]) ++ post) by (rewrite <- app_assoc; reflexivity).
    replace (S (length pre)) with (length (pre ++ [f x])) by (rewrite length_app; simpl; lia).
    rewrite IH by (simpl in Hf; lia). rewrite <- app_assoc. reflexivity.
Qed.

(** The map loop leaves the map as it found it. *)
Lemma for_each_copy_id {K} `{Countable K} (m : gmap K A) : for_each_copy f m = m.
Proof.
  unfold for_each_copy. rewrite map_fold_foldr.
  induction (map_to_list m) as [| [k v] l IH]; [reflexivity | exact IH].
Qed.

End LoopLemmas.

Lemma kick_opt_vec_map {A} (o : option (list (elem A))) :
  kick_opt_vec o = Some (map retype <$> o).
Proof.
  destruct o as [v |]; [| reflexivity]. unfold kick_opt_vec, kick_vec.
  rewrite (iter_assign_app retype _ [] v) by (simpl; lia). reflexivity.
Qed.

(** The advertised SSID's override re-types every 802.11d range it
    reads back, and leaves a freshly built record alone. *)
Lemma reserve_fields_advertised_retypes e_present d :
  reserve_fields_advertised e_present d = Some (if e_present then map retype <$> d else d).
Proof. destruct e_present; [apply kick_opt_vec_map | reflexivity]. Qed.

(** ** The device's [reserve_fields] *)

(** (C7) On a stored device that has an [advertised_ssid_map],
    [reserve_fields] returns, and its only effect is to re-type every
    element of the three EAPOL vectors.  The client, advertised, probed
    and responded maps are left exactly as read, their elements still
    generic maps. *)
Theorem reserve_fields_device_spec sd am :
  sd_advertised_ssid_map sd = Some am ->
  reserve_fields_device (Some sd) =
  Some {| sd with sd_wpa_key_vec := map retype <$> sd_wpa_key_vec sd;
                  sd_wpa_nonce_vec := map retype <$> sd_wpa_nonce_vec sd;
                  sd_wpa_anonce_vec := map retype <$> sd_wpa_anonce_vec sd |}.
Proof.
  intros Ham. unfold reserve_fields_device. rewrite Ham, !kick_opt_vec_map. simpl.
  rewrite for_each_copy_id, <- Ham.
  destruct (sd_probed_ssid_map sd), (sd_client_map sd); simpl; rewrite ?for_each_copy_id;
    destruct sd; reflexivity.
Qed.

(** An advertised SSID read back as a generic map is still a
    generic map after [reserve_fields]: the loop of line 1480 assigns the
    typed record to a copy of the map's pair.  The intended re-typing of
    every element ([kick_all]) never happens. *)
Theorem reserve_fields_leaves_generic_entry sd am k x :
  sd_advertised_ssid_map sd = Some am -> am !! k = Some (ElemMap x) ->
  exists sd', reserve_fields_device (Some sd) = Some sd' /\
    sd_advertised_ssid_map sd' = Some am /\
    sd_advertised_ssid_map (kick_all sd) <> Some am.
Proof.
  intros Ham Hk. unfold reserve_fields_device. rewrite Ham, !kick_opt_vec_map. simpl.
  eexists. split; [reflexivity |]. simpl. rewrite for_each_copy_id. split; [reflexivity |].
  simpl. rewrite Ham. intros Heq. injection Heq as Heq.
  assert (Hl : (kick_map am : gmap Z _) !! k = am !! k) by (rewrite Heq; reflexivity).
  unfold kick_map in Hl. rewrite lookup_fmap, Hk in Hl. discriminate.
Qed.

(** (C8) Deserialising a device is undefined exactly when the stored
    record has no [advertised_ssid_map]: line 1480 dereferences it
    without the [!= nullptr] test that guards the other collections. *)
Theorem device_of_map_undefined_iff sd :
  device_of_map (Some sd) = None <-> sd_advertised_ssid_map sd = None.
Proof.
  unfold device_of_map, reserve_fields_device. simpl.
  destruct (sd_advertised_ssid_map sd) eqn:E; simpl; [| split; reflexivity].
  rewrite !kick_opt_vec_map. simpl. split; discriminate.
Qed.

(** The iterator loop terminates: with more fuel than elements
    left, it returns the elements before [k] unchanged and every later
    one transformed. *)
Theorem iter_assign_terminates {A} (f : A -> A) fuel v k :
  (length v - k < fuel)%nat ->
  iter_assign fuel f v k = Some (take k v ++ map f (drop k v)).
Proof.
  intros Hf. destruct (decide (k <= length v)%nat) as [Hk | Hk].
  - pose proof (iter_assign_app f fuel (take k v) (drop k v)) as H.
    rewrite take_drop, length_take_le in H by exact Hk.
    apply H. rewrite length_drop. lia.
  - destruct fuel as [| fuel]; [lia |]. simpl.
    rewrite lookup_ge_None_2, take_ge, drop_ge by lia. by rewrite app_nil_r.
Qed.

(** The vector loop of [reserve_fields] computes the reference
    re-typing [map retype]. *)
Theorem kick_vec_map {A} (v : list (elem A)) : kick_vec v = Some (map retype v).
Proof. unfold kick_vec. apply (iter_assign_app retype _ [] v). simpl. lia. Qed.

(** ** Witnesses *)

Lemma reserve_fields_device_spec_witness :
  sd_advertised_ssid_map stored_example = Some {[1 := ElemMap advertised.new_advertised_ssid]} /\
  sd_wpa_key_vec <$> reserve_fields_device (Some stored_example) = Some (Some [ElemTyped eapol.new_eapol]).
Proof.
  assert (H : sd_advertised_ssid_map stored_example = Some {[1 := ElemMap advertised.new_advertised_ssid]})
    by reflexivity.
  split; [exact H |]. rewrite (reserve_fields_device_spec _ _ H). reflexivity.
Defined.

Lemma reserve_fields_leaves_generic_entry_witness :
  sd_advertised_ssid_map stored_example = Some {[1 := ElemMap advertised.new_advertised_ssid]} /\
  ({[1 := ElemMap advertised.new_advertised_ssid]} : gmap Z _) !! 1 = Some (ElemMap advertised.new_advertised_ssid) /\
  exists sd', reserve_fields_device (Some stored_example) = Some sd' /\
    sd_advertised_ssid_map sd' = Some {[1 := ElemMap advertised.new_advertised_ssid]} /\
    sd_advertised_ssid_map (kick_all stored_example) <> Some {[1 := ElemMap advertised.new_advertised_ssid]}.
Proof.
  assert (H1 : sd_advertised_ssid_map stored_example = Some {[1 := ElemMap advertised.new_advertised_ssid]})
    by reflexivity.
  assert (H2 : ({[1 := ElemMap advertised.new_advertised_ssid]} : gmap Z _) !! 1 =
               Some (ElemMap advertised.new_advertised_ssid)) by reflexivity.
  split; [exact H1 | split; [exact H2 | exact (reserve_fields_leaves_generic_entry _ _ _ _ H1 H2)]].
Defined.

Lemma iter_assign_terminates_witness :
  (length [1; 2; 3] - 1 < 3)%nat /\
  iter_assign 3 (fun x => x + 10) [1; 2; 3] 1 = Some (take 1 [1; 2; 3] ++ map (fun x => x + 10) (drop 1 [1; 2; 3])).
Proof.
  assert (H : (length [1; 2; 3] - 1 < 3)%nat) by (simpl; lia).
  split; [exact H | exact (iter_assign_terminates (fun x => x + 10) 3 [1; 2; 3] 1 H)].
Defined.
