(* ===== verification/Device.v ===== *)
(** * The per-device aggregate ([dot11_tracked_device], lines 1038-1632)

    The device owns maps of client, probed, advertised and responded SSID
    records, the EAPOL histories, the snapshot slots and counters.  In
    C++ the SSID records are [shared_ptr]s: [last_adv_ssid] (line 1607)
    and the two [tracker_element_alias] fields point at the very records
    held by the maps.  We keep those records in a heap ([ssid_heap], a
    [gmap] from locations) and the maps and pointers hold locations, so
    that an update through one pointer is seen through the other, and a
    record erased from its map stays alive while a pointer holds it.
    The file ends with properties of single operations: truncation,
    round trip and wrap-around of fields, and what the copy constructor
    drops. *)

From S2P Require Import Prelude Tracker Eapol Client IeTag Ssid.

(** ** The heap of shared SSID records *)

Definition loc := positive.

Inductive ssid_obj :=
| ObjAdv (a : advertised.dot11_advertised_ssid)
| ObjProbed (p : probed.dot11_probed_ssid).

Abbreviation ssid_heap := (gmap loc ssid_obj).

Definition adv_at (h : ssid_heap) (l : loc) : option advertised.dot11_advertised_ssid :=
  match h !! l with Some (ObjAdv a) => Some a | _ => None end.

Definition probed_at (h : ssid_heap) (l : loc) : option probed.dot11_probed_ssid :=
  match h !! l with Some (ObjProbed p) => Some p | _ => None end.

(** [std::make_shared]: a fresh location, never used before. *)
Definition alloc (h : ssid_heap) (o : ssid_obj) : loc * ssid_heap :=
  let l := fresh (dom h) in (l, <[l := o]> h).

Module device.

(** The fields of lines 1537-1629 (the [int ..._id] registry ids
    omitted).  [tracker_element_mac_map] and [tracker_element_hashkey_map]
    are [gmap]s keyed by MAC address and by SSID hash. *)
Record dot11_tracked_device := mk_device {
  snapshot_next_beacon : bool;
  type_set : Z;
  client_map : option (gmap mac_addr client.dot11_client);
  num_client_aps : Z;
  advertised_ssid_map : option (gmap Z loc);
  num_advertised_ssids : Z;
  responded_ssid_map : option (gmap Z loc);
  num_responded_ssids : Z;
  probed_ssid_map : option (gmap Z loc);
  num_probed_ssids : Z;
  associated_client_map : option (gmap mac_addr device_key);
  num_associated_clients : Z;
  client_disconnects : Z;
  client_disconnects_last : Z;
  last_sequence : Z;
  bss_timestamp : Z;
  last_bss_invalid : Z;
  bss_invalid_count : Z;
  num_fragments : Z;
  num_retries : Z;
  datasize : Z;
  datasize_retry : Z;
  last_bssid : option mac_addr;
  last_beacon_timestamp : Z;
  wps_m3_count : Z;
  wps_m3_last : Z;
  wpa_key_vec : option (list eapol.dot11_tracked_eapol);
  wpa_nonce_vec : option (list nonce.dot11_tracked_nonce);
  wpa_anonce_vec : option (list nonce.dot11_tracked_nonce);
  wpa_present_handshake : Z;
  ssid_beacon_packet : option kis_tracked_packet;
  pmkid_packet : option kis_tracked_packet;
  last_adv_ie_csum : Z;
  last_adv_ssid : option loc;
  min_tx_power : Z;
  max_tx_power : Z;
  supported_channels : option (list Z);
  link_measurement_capable : Z;
  neighbor_report_capable : Z;
  extended_capabilities_list : option (list string);
  beacon_fingerprint : Z;
  probe_fingerprint : Z;
  response_fingerprint : Z;
  last_beaconed_ssid_record : option loc;
  last_probed_ssid_record : option loc;
}.

(** The constructors of lines 1041-1076: the four plain members are
    zeroed, the fixed fields are allocated at 0, the dynamic ones absent. *)
Definition new_device : dot11_tracked_device :=
  mk_device false 0 None 0 None 0 None 0 None 0 None 0 0 0 0 0 0 0 0 0 0 0 None 0
    0 0 None None None 0 None None 0 None 0 0 None 0 0 None 0 0 0 None None.

(** [dot11_tracked_device()] and [(int in_id)] (lines 1041-1063): the
    four plain members reset, then [register_fields();
    reserve_fields(NULL)]; [(int in_id, e)] is [device_of_map] in
    [Deserialise]. *)
Definition make_default : tracked_elem dot11_tracked_device := construct_default new_device.
Definition make_with_id (in_id : Z) : tracked_elem dot11_tracked_device := construct_with_id new_device in_id.

(** The device base ([kis_tracked_device_base], in
    devicetracker_component.h) as [attach_base_parent] sees it: the
    shared components it holds by element id, each a location of the
    device tracker's store. *)
Record kis_tracked_device_base := mk_device_base { base_components : gmap Z loc }.

(** [attach_base_parent(self, parent)] (lines 1168-1171):
    [parent->insert(self)] under the element id of [self], sharing the
    device at location [l].  The link is made once (spec 4.1): attaching
    where the id is already held, or an element without an id, is
    outside the caller's precondition ([None]). *)
Definition attach_base_parent (self_id : option Z) (l : loc) (parent : kis_tracked_device_base)
  : option kis_tracked_device_base :=
  i ← self_id;
  match base_components parent !! i with
  | Some _ => None
  | None => Some (mk_device_base (<[i := l]> (base_components parent)))
  end.

(** *** Type bitset (lines 1014-1033 and 1173-1174) *)
Definition DOT11_DEVICE_TYPE_UNKNOWN := 0.
Definition DOT11_DEVICE_TYPE_BEACON_AP := Z.shiftl 1 0.
Definition DOT11_DEVICE_TYPE_ADHOC := Z.shiftl 1 1.
Definition DOT11_DEVICE_TYPE_CLIENT := Z.shiftl 1 2.
Definition DOT11_DEVICE_TYPE_WIRED := Z.shiftl 1 3.
Definition DOT11_DEVICE_TYPE_WDS := Z.shiftl 1 4.
Definition DOT11_DEVICE_TYPE_TURBOCELL := Z.shiftl 1 5.
Definition DOT11_DEVICE_TYPE_INFERRED_WIRELESS := Z.shiftl 1 6.
Definition DOT11_DEVICE_TYPE_INFERRED_WIRED := Z.shiftl 1 7.
Definition DOT11_DEVICE_TYPE_PROBE_AP := Z.shiftl 1 8.

Definition set_type_set (d : dot11_tracked_device) (v : Z) :=
  {| d with type_set := proxy_set_u 64 v |}.
Definition bitset_type_set (d : dot11_tracked_device) (bs : Z) :=
  {| d with type_set := proxy_bitset 64 (type_set d) bs |}.
Definition bitcheck_type_set (d : dot11_tracked_device) (bs : Z) : Z :=
  proxy_bitcheck (type_set d) bs.

(** *** Counters and plain setters (lines 1213-1245, 1263-1264, 1299-1311) *)
Definition inc_client_disconnects (d : dot11_tracked_device) (i : Z) :=
  {| d with client_disconnects := proxy_inc 64 (client_disconnects d) i |}.
Definition dec_client_disconnects (d : dot11_tracked_device) (i : Z) :=
  {| d with client_disconnects := proxy_dec 64 (client_disconnects d) i |}.
Definition set_client_disconnects_last (d : dot11_tracked_device) (v : Z) :=
  {| d with client_disconnects_last := proxy_set_u 64 v |}.
Definition set_last_sequence (d : dot11_tracked_device) (v : Z) :=
  {| d with last_sequence := proxy_set_u 64 v |}.
Definition set_bss_timestamp (d : dot11_tracked_device) (v : Z) :=
  {| d with bss_timestamp := proxy_set_u 64 v |}.
Definition inc_num_fragments (d : dot11_tracked_device) (i : Z) :=
  {| d with num_fragments := proxy_inc 64 (num_fragments d) i |}.
Definition dec_num_fragments (d : dot11_tracked_device) (i : Z) :=
  {| d with num_fragments := proxy_dec 64 (num_fragments d) i |}.
Definition inc_num_retries (d : dot11_tracked_device) (i : Z) :=
  {| d with num_retries := proxy_inc 64 (num_retries d) i |}.
Definition dec_num_retries (d : dot11_tracked_device) (i : Z) :=
  {| d with num_retries := proxy_dec 64 (num_retries d) i |}.
Definition inc_datasize (d : dot11_tracked_device) (i : Z) :=
  {| d with datasize := proxy_inc 64 (datasize d) i |}.
Definition dec_datasize (d : dot11_tracked_device) (i : Z) :=
  {| d with datasize := proxy_dec 64 (datasize d) i |}.
Definition inc_datasize_retry (d : dot11_tracked_device) (i : Z) :=
  {| d with datasize_retry := proxy_inc 64 (datasize_retry d) i |}.
Definition dec_datasize_retry (d : dot11_tracked_device) (i : Z) :=
  {| d with datasize_retry := proxy_dec 64 (datasize_retry d) i |}.
Definition set_last_bssid (d : dot11_tracked_device) (m : mac_addr) :=
  {| d with last_bssid := Some m |}.
Definition set_last_beacon_timestamp (d : dot11_tracked_device) (t : Z) :=
  {| d with last_beacon_timestamp := proxy_set_time t |}.
Definition get_last_beacon_timestamp (d : dot11_tracked_device) : Z :=
  proxy_get_time (last_beacon_timestamp d).
Definition inc_wps_m3_count (d : dot11_tracked_device) (i : Z) :=
  {| d with wps_m3_count := proxy_inc 64 (wps_m3_count d) i |}.
Definition dec_wps_m3_count (d : dot11_tracked_device) (i : Z) :=
  {| d with wps_m3_count := proxy_dec 64 (wps_m3_count d) i |}.
Definition set_wps_m3_last (d : dot11_tracked_device) (v : Z) :=
  {| d with wps_m3_last := proxy_set_u 64 v |}.
Definition set_wpa_present_handshake (d : dot11_tracked_device) (v : Z) :=
  {| d with wpa_present_handshake := proxy_set_u 8 v |}.
(** [last_adv_ie_csum] is a plain [uint32_t] member. *)
Definition set_last_adv_ie_csum (d : dot11_tracked_device) (v : Z) :=
  {| d with last_adv_ie_csum := wrap 32 v |}.
Definition set_last_adv_ssid (d : dot11_tracked_device) (l : option loc) :=
  {| d with last_adv_ssid := l |}.
(** [__Proxy(min_tx_power, uint8_t, unsigned int, unsigned int, ...)]. *)
Definition set_min_tx_power (d : dot11_tracked_device) (v : Z) :=
  {| d with min_tx_power := proxy_set_u 8 v |}.
Definition get_min_tx_power (d : dot11_tracked_device) : Z := min_tx_power d.
Definition set_max_tx_power (d : dot11_tracked_device) (v : Z) :=
  {| d with max_tx_power := proxy_set_u 8 v |}.
Definition set_link_measurement_capable (d : dot11_tracked_device) (b : bool) :=
  {| d with link_measurement_capable := proxy_set_bool b |}.
Definition set_neighbor_report_capable (d : dot11_tracked_device) (b : bool) :=
  {| d with neighbor_report_capable := proxy_set_bool b |}.
Definition set_beacon_fingerprint (d : dot11_tracked_device) (v : Z) :=
  {| d with beacon_fingerprint := proxy_set_u 32 v |}.
Definition set_probe_fingerprint (d : dot11_tracked_device) (v : Z) :=
  {| d with probe_fingerprint := proxy_set_u 32 v |}.
Definition set_response_fingerprint (d : dot11_tracked_device) (v : Z) :=
  {| d with response_fingerprint := proxy_set_u 32 v |}.

(** *** [pre_serialize] (lines 1272-1297) *)
Definition pre_serialize (d : dot11_tracked_device) : dot11_tracked_device :=
  {| d with num_client_aps := proxy_set_u 64 (opt_size (client_map d));
            num_advertised_ssids := proxy_set_u 64 (opt_size (advertised_ssid_map d));
            num_responded_ssids := proxy_set_u 64 (opt_size (responded_ssid_map d));
            num_probed_ssids := proxy_set_u 64 (opt_size (probed_ssid_map d));
            num_associated_clients := proxy_set_u 64 (opt_size (associated_client_map d)) |}.

(** *** Snapshot queries (lines 1313-1318) *)
Definition get_snap_next_beacon (d : dot11_tracked_device) : bool :=
  snapshot_next_beacon d && negb (dyn_has (ssid_beacon_packet d)).
Definition set_snap_next_beacon (d : dot11_tracked_device) (b : bool) :=
  {| d with snapshot_next_beacon := b |}.
Definition get_beacon_packet_present (d : dot11_tracked_device) : bool :=
  dyn_has (ssid_beacon_packet d).
Definition get_pmkid_needed (d : dot11_tracked_device) : bool :=
  negb (dyn_has (pmkid_packet d)).
Definition get_pmkid_present (d : dot11_tracked_device) : bool :=
  dyn_has (pmkid_packet d).

(** [__ProxyDynamicTrackable(ssid_beacon_packet, ...)] (line 1252): the
    getter materialises an empty packet, the setter stores its argument
    (a null [shared_ptr] clears the field). *)
Definition get_ssid_beacon_packet (d : dot11_tracked_device) : kis_tracked_packet * dot11_tracked_device :=
  let '(p, o) := dyn_get empty_packet (ssid_beacon_packet d) in
  (p, {| d with ssid_beacon_packet := o |}).
Definition set_ssid_beacon_packet (d : dot11_tracked_device) (p : option kis_tracked_packet) :=
  {| d with ssid_beacon_packet := p |}.
Definition get_pmkid_packet (d : dot11_tracked_device) : kis_tracked_packet * dot11_tracked_device :=
  let '(p, o) := dyn_get empty_packet (pmkid_packet d) in
  (p, {| d with pmkid_packet := o |}).
Definition set_pmkid_packet (d : dot11_tracked_device) (p : option kis_tracked_packet) :=
  {| d with pmkid_packet := p |}.

(** The [tracker_element_alias] setters of lines 1319-1323: the alias
    holds the location of a shared SSID record, or nothing. *)
Definition set_last_beaconed_ssid_record (d : dot11_tracked_device) (l : option loc) :=
  {| d with last_beaconed_ssid_record := l |}.
Definition set_last_probed_ssid_record (d : dot11_tracked_device) (l : option loc) :=
  {| d with last_probed_ssid_record := l |}.

(** *** EAPOL histories (lines 1247-1261): [get_wpa_key_vec()] materialises
    the vector, the caller appends with [push_back]. *)
Definition push_wpa_key (d : dot11_tracked_device) (e : eapol.dot11_tracked_eapol) :=
  {| d with wpa_key_vec := Some (default [] (wpa_key_vec d) ++ [e]) |}.
Definition push_wpa_nonce (d : dot11_tracked_device) (n : nonce.dot11_tracked_nonce) :=
  {| d with wpa_nonce_vec := Some (default [] (wpa_nonce_vec d) ++ [n]) |}.
Definition push_wpa_anonce (d : dot11_tracked_device) (n : nonce.dot11_tracked_nonce) :=
  {| d with wpa_anonce_vec := Some (default [] (wpa_anonce_vec d) ++ [n]) |}.

(** *** Maps.  The getters of lines 1176-1209 materialise an empty map;
    [new_client()], [new_advertised_ssid()], [new_responded_ssid()] and
    [new_probed_ssid()] make the records the caller inserts.  The
    get-or-create step composing them (the caller's code) looks the key
    up and inserts a new record only when it is absent. *)
Definition get_or_create_ref (m : option (gmap Z loc)) (h : ssid_heap) (o : ssid_obj) (k : Z)
  : loc * gmap Z loc * ssid_heap :=
  let m := default ∅ m in
  match m !! k with
  | Some l => (l, m, h)
  | None => let '(l, h') := alloc h o in (l, <[k := l]> m, h')
  end.

Definition get_or_create_in {V} (m : option (gmap Z V)) (new : V) (k : Z) : gmap Z V :=
  let m := default ∅ m in
  match m !! k with
  | Some _ => m
  | None => <[k := new]> m
  end.

Definition get_or_create_client (d : dot11_tracked_device) (b : mac_addr) :=
  {| d with client_map := Some (get_or_create_in (client_map d) client.new_client b) |}.

Definition update_client (d : dot11_tracked_device) (b : mac_addr) (op : client.client_op) :=
  {| d with client_map := alter (fun c => client.client_step c op) b <$> client_map d |}.

Definition add_associated_client (d : dot11_tracked_device) (m : mac_addr) (k : device_key) :=
  {| d with associated_client_map := Some (<[m := k]> (default ∅ (associated_client_map d))) |}.

(** [get_signature()] (lines 1158-1160). *)
Definition device_signature : Z := adler32_checksum "dot11_tracked_device".

(** *** The copy constructor (lines 1077-1156).  The four plain
    members are reset, the fixed fields cloned, the dynamic fields (maps,
    histories, packets, aliases) left absent since only their ids are
    copied, and [last_adv_ssid] deep-cloned by
    [tracker_element_clone_adaptor] into a new record of its own. *)
Definition clone_device (h : ssid_heap) (p : dot11_tracked_device) : dot11_tracked_device * ssid_heap :=
  let '(last, h') :=
    match last_adv_ssid p with
    | Some l =>
        match adv_at h l with
        | Some a => let '(l', h') := alloc h (ObjAdv (advertised.clone_advertised a)) in (Some l', h')
        | None => (None, h)
        end
    | None => (None, h)
    end in
  (mk_device false (type_set p) None (num_client_aps p) None (num_advertised_ssids p)
     None (num_responded_ssids p) None (num_probed_ssids p) None (num_associated_clients p)
     (client_disconnects p) (client_disconnects_last p) (last_sequence p) (bss_timestamp p)
     0 0 (num_fragments p) (num_retries p) (datasize p) (datasize_retry p) None
     (last_beacon_timestamp p) (wps_m3_count p) (wps_m3_last p) None None None
     (wpa_present_handshake p) None None 0 last (min_tx_power p) (max_tx_power p) None
     (link_measurement_capable p) (neighbor_report_capable p) None (beacon_fingerprint p)
     (probe_fingerprint p) (response_fingerprint p) None None, h').

(** *** Ownership of the shared SSID records.  Every holder of a
    location is a [std::shared_ptr]: the entries of the three SSID maps
    (members at lines 1548-1558), [last_adv_ssid] (line 1608) and the two
    aliases (lines 1628 and 1631).  [holders d l] is the number of them
    that hold [l]: the share of the record's use count the device owns. *)
Definition map_holds (o : option (gmap Z loc)) (l : loc) : nat :=
  match o with Some m => size (filter (fun kv : Z * loc => kv.2 = l) m) | None => 0%nat end.

Definition ptr_holds (o : option loc) (l : loc) : nat :=
  if decide (o = Some l) then 1%nat else 0%nat.

Definition holders (d : dot11_tracked_device) (l : loc) : nat :=
  (map_holds (advertised_ssid_map d) l + map_holds (responded_ssid_map d) l +
   map_holds (probed_ssid_map d) l + ptr_holds (last_adv_ssid d) l +
   ptr_holds (last_beaconed_ssid_record d) l + ptr_holds (last_probed_ssid_record d) l)%nat.

(** A [shared_ptr] to [o] is dropped (a map entry erased, a pointer
    overwritten): when the device [d] left by the call holds the record no
    more, its use count reaches zero and the record is destroyed. *)
Definition release_loc (d : dot11_tracked_device) (h : ssid_heap) (o : option loc) : ssid_heap :=
  match o with
  | Some l => if decide (holders d l = 0%nat) then delete l h else h
  | None => h
  end.

(** The record a map holds under key [k] ([find(k)->second]). *)
Definition key_loc (o : option (gmap Z loc)) (k : Z) : option loc :=
  match o with Some m => m !! k | None => None end.

(** [clone_type()] (lines 1162-1165): [new this_t(this)], a device built
    by the copy constructor from this one. *)
Definition clone_type_device (h : ssid_heap) (d : dot11_tracked_device) : dot11_tracked_device * ssid_heap :=
  clone_device h d.

End device.

Import device.

Arguments device.release_loc : simpl never.

(** ** Properties of single operations *)

Lemma alloc_fresh h o : (alloc h o).1 ∉ dom h.
Proof. apply is_fresh. Qed.

(** (C25) [min_tx_power] is a [uint8_t] set from [unsigned int]: the
    stored power is the value modulo 256, so a power of 256 or more does
    not read back. *)
Theorem min_tx_power_truncates d v :
  0 <= v -> get_min_tx_power (set_min_tx_power d v) = v mod 256 /\
  (get_min_tx_power (set_min_tx_power d v) = v <-> v < 256).
Proof.
  intros Hv. unfold get_min_tx_power, set_min_tx_power, proxy_set_u, wrap. simpl.
  change (2 ^ 8) with 256. split; [reflexivity |]. split.
  - intros H. pose proof (Z.mod_pos_bound v 256 ltac:(lia)). lia.
  - intros H. apply Z.mod_small. lia.
Qed.

(** (C26) The [time_t] of the last beacon reads back as stored, negative
    times included, through its [uint64_t] field. *)
Theorem last_beacon_timestamp_roundtrip d t :
  in_swidth 64 t -> get_last_beacon_timestamp (set_last_beacon_timestamp d t) = t.
Proof. intros Ht. apply swrap_wrap; [lia | exact Ht]. Qed.

(** The device byte counter wraps at [2^64] ([uint64_t +=]); below
    the wrap it adds exactly the increment. *)
Theorem inc_datasize_wraps d i :
  datasize (inc_datasize d i) = wrap 64 (datasize d + i) /\
  (0 <= i -> in_width 64 (datasize d + i) -> datasize (inc_datasize d i) = datasize d + i) /\
  (datasize d = UINT_MAX 64 -> datasize (inc_datasize d 1) = 0).
Proof.
  split_wf; simpl.
  - apply proxy_inc_wrap. lia.
  - intros. apply proxy_inc_nowrap; [lia | assumption | assumption].
  - intros ->. reflexivity.
Qed.

(** (C21) A cloned device has none of the original's collections,
    histories or captured frames: after [pre_serialize] its counts are 0,
    it needs a PMKID frame again, and its snapshot request and last IE
    checksum are reset.  The spec wants the clone to rebuild every owned
    sub-record. *)
Theorem clone_device_drops_collections h p :
  let q := (clone_device h p).1 in
  num_client_aps (pre_serialize q) = 0 /\ num_advertised_ssids (pre_serialize q) = 0 /\
  num_responded_ssids (pre_serialize q) = 0 /\ num_probed_ssids (pre_serialize q) = 0 /\
  num_associated_clients (pre_serialize q) = 0 /\
  wpa_key_vec q = None /\ wpa_nonce_vec q = None /\ wpa_anonce_vec q = None /\
  get_beacon_packet_present q = false /\ get_pmkid_needed q = true /\
  snapshot_next_beacon q = false /\ last_adv_ie_csum q = 0.
Proof.
  unfold clone_device. destruct (last_adv_ssid p) as [l |]; [destruct (adv_at h l) |];
    [destruct (alloc _ _) |..]; split_wf; reflexivity.
Qed.

(** ** Witnesses *)

Lemma min_tx_power_truncates_witness :
  0 <= 300 /\ get_min_tx_power (set_min_tx_power new_device 300) = 300 mod 256 /\
  (get_min_tx_power (set_min_tx_power new_device 300) = 300 <-> 300 < 256).
Proof.
  assert (H : 0 <= 300) by lia. split; [exact H | exact (min_tx_power_truncates new_device 300 H)].
Defined.

Lemma last_beacon_timestamp_roundtrip_witness :
  in_swidth 64 (-5) /\
  get_last_beacon_timestamp (set_last_beacon_timestamp new_device (-5)) = -5.
Proof.
  assert (H : in_swidth 64 (-5)) by (unfold in_swidth; simpl; lia).
  split; [exact H | exact (last_beacon_timestamp_roundtrip new_device (-5) H)].
Defined.

Lemma inc_datasize_wraps_witness :
  (0 <= 1500 /\ in_width 64 (datasize new_device + 1500)) /\
  datasize (inc_datasize new_device 1500) = datasize new_device + 1500.
Proof.
  assert (H1 : 0 <= 1500) by lia.
  assert (H2 : in_width 64 (datasize new_device + 1500)) by (unfold in_width; simpl; lia).
  split; [split; assumption |].
  destruct (inc_datasize_wraps new_device 1500) as (_ & H & _). exact (H H1 H2).
Defined.

