(* ===== verification/DeviceOps.v ===== *)
(** * Device operations as a step function

    The frame-processing path mutates one device at a time (single writer,
    spec section 5).  Each constructor of [dev_op] is one call on the
    device's interface of [phy_80211_components.h]; [dev_step] applies it
    to the device and the heap of shared SSID records, and [dev_run] to a
    sequence of calls.  [dev_run_invariant] turns a property that every
    allowed call preserves into a property of every run; [DeviceProps],
    [DeviceHeap] and [Handshake] use it.  The file ends with properties of
    single calls: a second get-or-create of an SSID key changes nothing,
    the packet getters cancel the snapshots, and the [type_set] setter
    clears bits. *)

From S2P Require Import Prelude Tracker Eapol Client IeTag Ssid Device.
Import device.

Record dev_state := mk_state {
  st_dev : dot11_tracked_device;
  st_heap : ssid_heap;
}.

Inductive dev_op :=
| SetTypeSet (v : Z) | BitsetTypeSet (bs : Z)
| IncClientDisconnects (i : Z) | DecClientDisconnects (i : Z) | SetClientDisconnectsLast (v : Z)
| SetLastSequence (v : Z) | SetBssTimestamp (v : Z)
| IncNumFragments (i : Z) | IncNumRetries (i : Z)
| IncDatasize (i : Z) | IncDatasizeRetry (i : Z)
| DecNumFragments (i : Z) | DecNumRetries (i : Z)
| DecDatasize (i : Z) | DecDatasizeRetry (i : Z)
| SetLastBssid (m : mac_addr) | SetLastBeaconTimestamp (t : Z)
| IncWpsM3Count (i : Z) | DecWpsM3Count (i : Z) | SetWpsM3Last (v : Z) | SetWpaPresentHandshake (v : Z)
| PushWpaKey (e : eapol.dot11_tracked_eapol)
| PushWpaNonce (n : nonce.dot11_tracked_nonce)
| PushWpaANonce (n : nonce.dot11_tracked_nonce)
| SetSsidBeaconPacket (p : option kis_tracked_packet) | GetSsidBeaconPacket
| SetPmkidPacket (p : option kis_tracked_packet) | GetPmkidPacket
| SetSnapNextBeacon (b : bool)
| SetLastAdvIeCsum (v : Z) | SetLastAdvSsid (l : option loc)
| SetMinTxPower (v : Z) | SetMaxTxPower (v : Z)
| SetLinkMeasurementCapable (b : bool) | SetNeighborReportCapable (b : bool)
| SetBeaconFingerprint (v : Z) | SetProbeFingerprint (v : Z) | SetResponseFingerprint (v : Z)
| GetOrCreateClient (b : mac_addr) | UpdateClient (b : mac_addr) (op : client.client_op)
| EraseClient (b : mac_addr)
| GetOrCreateAdvertised (k : Z) | GetOrCreateResponded (k : Z) | GetOrCreateProbed (k : Z)
| EraseAdvertised (k : Z) | EraseResponded (k : Z) | EraseProbed (k : Z)
| AddAssociatedClient (m : mac_addr) (k : device_key) | EraseAssociatedClient (m : mac_addr)
| UpdateAdvertised (l : loc) (f : advertised.dot11_advertised_ssid -> advertised.dot11_advertised_ssid)
| UpdateProbed (l : loc) (f : probed.dot11_probed_ssid -> probed.dot11_probed_ssid)
| SetLastBeaconedSsidRecord (l : option loc) | SetLastProbedSsidRecord (l : option loc)
| PreSerialize.

(** Writing through a shared pointer: the record at [l] changes for every
    holder of [l]. *)
Definition heap_update_adv (h : ssid_heap) (l : loc) (f : advertised.dot11_advertised_ssid -> advertised.dot11_advertised_ssid) :=
  match h !! l with Some (ObjAdv a) => <[l := ObjAdv (f a)]> h | _ => h end.
Definition heap_update_probed (h : ssid_heap) (l : loc) (f : probed.dot11_probed_ssid -> probed.dot11_probed_ssid) :=
  match h !! l with Some (ObjProbed p) => <[l := ObjProbed (f p)]> h | _ => h end.

Definition with_dev (st : dev_state) (d : dot11_tracked_device) : dev_state :=
  mk_state d (st_heap st).

Definition dev_step (st : dev_state) (op : dev_op) : dev_state :=
  let d := st_dev st in
  let h := st_heap st in
  match op with
  | SetTypeSet v => with_dev st (set_type_set d v)
  | BitsetTypeSet bs => with_dev st (bitset_type_set d bs)
  | IncClientDisconnects i => with_dev st (inc_client_disconnects d i)
  | DecClientDisconnects i => with_dev st (dec_client_disconnects d i)
  | SetClientDisconnectsLast v => with_dev st (set_client_disconnects_last d v)
  | SetLastSequence v => with_dev st (set_last_sequence d v)
  | SetBssTimestamp v => with_dev st (set_bss_timestamp d v)
  | IncNumFragments i => with_dev st (inc_num_fragments d i)
  | IncNumRetries i => with_dev st (inc_num_retries d i)
  | IncDatasize i => with_dev st (inc_datasize d i)
  | IncDatasizeRetry i => with_dev st (inc_datasize_retry d i)
  | DecNumFragments i => with_dev st (dec_num_fragments d i)
  | DecNumRetries i => with_dev st (dec_num_retries d i)
  | DecDatasize i => with_dev st (dec_datasize d i)
  | DecDatasizeRetry i => with_dev st (dec_datasize_retry d i)
  | SetLastBssid m => with_dev st (set_last_bssid d m)
  | SetLastBeaconTimestamp t => with_dev st (set_last_beacon_timestamp d t)
  | IncWpsM3Count i => with_dev st (inc_wps_m3_count d i)
  | DecWpsM3Count i => with_dev st (dec_wps_m3_count d i)
  | SetWpsM3Last v => with_dev st (set_wps_m3_last d v)
  | SetWpaPresentHandshake v => with_dev st (set_wpa_present_handshake d v)
  | PushWpaKey e => with_dev st (push_wpa_key d e)
  | PushWpaNonce n => with_dev st (push_wpa_nonce d n)
  | PushWpaANonce n => with_dev st (push_wpa_anonce d n)
  | SetSsidBeaconPacket p => with_dev st (set_ssid_beacon_packet d p)
  | GetSsidBeaconPacket => with_dev st (get_ssid_beacon_packet d).2
  | SetPmkidPacket p => with_dev st (set_pmkid_packet d p)
  | GetPmkidPacket => with_dev st (get_pmkid_packet d).2
  | SetSnapNextBeacon b => with_dev st (set_snap_next_beacon d b)
  | SetLastAdvIeCsum v => with_dev st (set_last_adv_ie_csum d v)
  | SetLastAdvSsid l =>
      let d' := set_last_adv_ssid d l in mk_state d' (release_loc d' h (last_adv_ssid d))
  | SetMinTxPower v => with_dev st (set_min_tx_power d v)
  | SetMaxTxPower v => with_dev st (set_max_tx_power d v)
  | SetLinkMeasurementCapable b => with_dev st (set_link_measurement_capable d b)
  | SetNeighborReportCapable b => with_dev st (set_neighbor_report_capable d b)
  | SetBeaconFingerprint v => with_dev st (set_beacon_fingerprint d v)
  | SetProbeFingerprint v => with_dev st (set_probe_fingerprint d v)
  | SetResponseFingerprint v => with_dev st (set_response_fingerprint d v)
  | GetOrCreateClient b => with_dev st (get_or_create_client d b)
  | UpdateClient b cop => with_dev st (update_client d b cop)
  | EraseClient b => with_dev st {| d with client_map := delete b <$> client_map d |}
  | GetOrCreateAdvertised k =>
      let '(_, m, h') := get_or_create_ref (advertised_ssid_map d) h
                           (ObjAdv advertised.new_advertised_ssid) k in
      mk_state {| d with advertised_ssid_map := Some m |} h'
  | GetOrCreateResponded k =>
      let '(_, m, h') := get_or_create_ref (responded_ssid_map d) h
                           (ObjAdv advertised.new_advertised_ssid) k in
      mk_state {| d with responded_ssid_map := Some m |} h'
  | GetOrCreateProbed k =>
      let '(_, m, h') := get_or_create_ref (probed_ssid_map d) h
                           (ObjProbed probed.new_probed_ssid) k in
      mk_state {| d with probed_ssid_map := Some m |} h'
  | EraseAdvertised k =>
      let d' := {| d with advertised_ssid_map := delete k <$> advertised_ssid_map d |} in
      mk_state d' (release_loc d' h (key_loc (advertised_ssid_map d) k))
  | EraseResponded k =>
      let d' := {| d with responded_ssid_map := delete k <$> responded_ssid_map d |} in
      mk_state d' (release_loc d' h (key_loc (responded_ssid_map d) k))
  | EraseProbed k =>
      let d' := {| d with probed_ssid_map := delete k <$> probed_ssid_map d |} in
      mk_state d' (release_loc d' h (key_loc (probed_ssid_map d) k))
  | AddAssociatedClient m k => with_dev st (add_associated_client d m k)
  | EraseAssociatedClient m =>
      with_dev st {| d with associated_client_map := delete m <$> associated_client_map d |}
  | UpdateAdvertised l f => mk_state d (heap_update_adv h l f)
  | UpdateProbed l f => mk_state d (heap_update_probed h l f)
  | SetLastBeaconedSsidRecord l =>
      let d' := set_last_beaconed_ssid_record d l in
      mk_state d' (release_loc d' h (last_beaconed_ssid_record d))
  | SetLastProbedSsidRecord l =>
      let d' := set_last_probed_ssid_record d l in
      mk_state d' (release_loc d' h (last_probed_ssid_record d))
  | PreSerialize => with_dev st (pre_serialize d)
  end.

Definition dev_run (st : dev_state) (ops : list dev_op) : dev_state :=
  fold_left dev_step ops st.

Definition init_state : dev_state := mk_state new_device ∅.

Lemma dev_run_app st ops1 ops2 : dev_run st (ops1 ++ ops2) = dev_run (dev_run st ops1) ops2.
Proof. apply fold_left_app. Qed.

(** Properties preserved by every step are preserved by every run. *)
Section RunInvariant.
Variable P : dev_state -> Prop.
Variable ok : dev_op -> Prop.
Hypothesis step_P : forall st op, ok op -> P st -> P (dev_step st op).

Lemma dev_run_invariant st ops : Forall ok ops -> P st -> P (dev_run st ops).
Proof.
  revert st. induction ops as [|op ops IH]; intros st Hok Hst; [exact Hst |].
  inversion Hok; subst. simpl. apply IH; [assumption |]. apply step_P; assumption.
Qed.
End RunInvariant.

(** ** Identity by key, the getters and the type setter *)

Lemma get_or_create_ref_again m h o k :
  let '(l, m', h') := get_or_create_ref m h o k in
  get_or_create_ref (Some m') h' o k = (l, m', h').
Proof.
  unfold get_or_create_ref. destruct (default ∅ m !! k) eqn:E; simpl.
  - rewrite E. reflexivity.
  - destruct (alloc h o) as [l h'] eqn:Ea. simpl. rewrite lookup_insert_eq. reflexivity.
Qed.

(** (C2) Observing the same advertised SSID key twice updates the one
    record: the second get-or-create leaves the device and the heap as the
    first left them (no second record is allocated). *)
Theorem get_or_create_advertised_idem st k :
  dev_step (dev_step st (GetOrCreateAdvertised k)) (GetOrCreateAdvertised k) =
  dev_step st (GetOrCreateAdvertised k).
Proof.
  destruct st as [d h]. simpl.
  pose proof (get_or_create_ref_again (device.advertised_ssid_map d) h
                (ObjAdv advertised.new_advertised_ssid) k) as Ha.
  destruct (get_or_create_ref _ _ _ _) as [[l m'] h']. simpl. rewrite Ha. reflexivity.
Qed.

(** (C4) Reading the beacon slot through its getter materialises an empty
    packet: a pending beacon snapshot is then cancelled although no frame
    was captured; likewise reading the PMKID slot makes the PMKID no
    longer needed. *)
Theorem getter_cancels_snapshot st :
  get_snap_next_beacon (st_dev (dev_step st GetSsidBeaconPacket)) = false /\
  get_pmkid_needed (st_dev (dev_step st GetPmkidPacket)) = false.
Proof.
  destruct st as [d h]. simpl. unfold get_ssid_beacon_packet, get_pmkid_packet, dyn_get.
  split; [destruct (ssid_beacon_packet d) | destruct (pmkid_packet d)]; simpl;
    unfold get_snap_next_beacon, get_pmkid_needed; simpl; rewrite ?andb_false_r; reflexivity.
Qed.

(** The [__Proxy(type_set, ...)] setter of line 1173 does clear
    bits: a device that has beaconed stops being a beacon AP. *)
Theorem set_type_set_clears_bits :
  let st := dev_step init_state (BitsetTypeSet DOT11_DEVICE_TYPE_BEACON_AP) in
  bitcheck_type_set (st_dev st) DOT11_DEVICE_TYPE_BEACON_AP = DOT11_DEVICE_TYPE_BEACON_AP /\
  bitcheck_type_set (st_dev (dev_step st (SetTypeSet 0))) DOT11_DEVICE_TYPE_BEACON_AP = 0.
Proof. split; reflexivity. Qed.

