(* ===== verification/DeviceProps.v ===== *)
(** * Properties of the device aggregate

    - an abstract device that keeps only the key sets of the five
      collections, and the refinement of it by [dev_step];
    - [pre_serialize] sets each [num_*] counter to the size of its
      collection, for any history of insertions and removals;
    - SSID identity is by key: a second get-or-create of the same key
      changes nothing;
    - the snapshot protocol and the type bitset over operation sequences. *)

From S2P Require Import Prelude Tracker Eapol Client IeTag Ssid Device DeviceOps.
Import device.

(** ** Abstract specification: the device as five key sets *)

Record abs_device := mk_abs {
  a_clients : gset Z;
  a_adv : gset Z;
  a_resp : gset Z;
  a_probed : gset Z;
  a_assoc : gset Z;
}.

Definition opt_dom {V} (o : option (gmap Z V)) : gset Z :=
  match o with Some m => dom m | None => ∅ end.

Definition abstr (st : dev_state) : abs_device :=
  let d := st_dev st in
  mk_abs (opt_dom (client_map d)) (opt_dom (advertised_ssid_map d))
    (opt_dom (responded_ssid_map d)) (opt_dom (probed_ssid_map d))
    (opt_dom (associated_client_map d)).

(** What each operation does to the key sets: get-or-create adds the key,
    erase removes it, every other operation leaves them alone. *)
Definition abs_step (a : abs_device) (op : dev_op) : abs_device :=
  match op with
  | GetOrCreateClient b => {| a with a_clients := a_clients a ∪ {[b]} |}
  | EraseClient b => {| a with a_clients := a_clients a ∖ {[b]} |}
  | GetOrCreateAdvertised k => {| a with a_adv := a_adv a ∪ {[k]} |}
  | EraseAdvertised k => {| a with a_adv := a_adv a ∖ {[k]} |}
  | GetOrCreateResponded k => {| a with a_resp := a_resp a ∪ {[k]} |}
  | EraseResponded k => {| a with a_resp := a_resp a ∖ {[k]} |}
  | GetOrCreateProbed k => {| a with a_probed := a_probed a ∪ {[k]} |}
  | EraseProbed k => {| a with a_probed := a_probed a ∖ {[k]} |}
  | AddAssociatedClient m _ => {| a with a_assoc := a_assoc a ∪ {[m]} |}
  | EraseAssociatedClient m => {| a with a_assoc := a_assoc a ∖ {[m]} |}
  | _ => a
  end.

Definition abs_run (a : abs_device) (ops : list dev_op) : abs_device :=
  fold_left abs_step ops a.

(** ** Predicates on devices and calls *)

(** Every collection has fewer than [2^64] entries, so its [size_t] size
    fits the [uint64_t] counter. *)
Definition sizes_fit (d : dot11_tracked_device) : Prop :=
  opt_size (client_map d) < 2 ^ 64 /\ opt_size (advertised_ssid_map d) < 2 ^ 64 /\
  opt_size (responded_ssid_map d) < 2 ^ 64 /\ opt_size (probed_ssid_map d) < 2 ^ 64 /\
  opt_size (associated_client_map d) < 2 ^ 64.

(** The only call that empties the beacon slot is
    [set_ssid_beacon_packet(nullptr)]. *)
Definition clears_beacon (op : dev_op) : bool :=
  match op with SetSsidBeaconPacket None => true | _ => false end.

(** The only call that overwrites the bitset is [set_type_set]. *)
Definition overwrites_type_set (op : dev_op) : bool :=
  match op with SetTypeSet _ => true | _ => false end.

(** Every integer field of the device within the width of its C type. *)
Definition dev_wf (d : dot11_tracked_device) : Prop :=
  in_width 64 (type_set d) /\ in_width 64 (num_client_aps d) /\
  in_width 64 (num_advertised_ssids d) /\ in_width 64 (num_responded_ssids d) /\
  in_width 64 (num_probed_ssids d) /\ in_width 64 (num_associated_clients d) /\
  in_width 64 (client_disconnects d) /\ in_width 64 (client_disconnects_last d) /\
  in_width 64 (last_sequence d) /\ in_width 64 (bss_timestamp d) /\
  in_width 64 (num_fragments d) /\ in_width 64 (num_retries d) /\
  in_width 64 (datasize d) /\ in_width 64 (datasize_retry d) /\
  in_width 64 (last_beacon_timestamp d) /\ in_width 64 (wps_m3_count d) /\
  in_width 64 (wps_m3_last d) /\ in_width 8 (wpa_present_handshake d) /\
  in_width 32 (last_adv_ie_csum d) /\ in_width 8 (min_tx_power d) /\
  in_width 8 (max_tx_power d) /\ in_width 8 (link_measurement_capable d) /\
  in_width 8 (neighbor_report_capable d) /\ in_width 32 (beacon_fingerprint d) /\
  in_width 32 (probe_fingerprint d) /\ in_width 32 (response_fingerprint d).

(** ** Lemmas on the lazily created maps *)

Lemma opt_dom_insert {V} (o : option (gmap Z V)) k v :
  dom (<[k := v]> (default ∅ o)) = opt_dom o ∪ {[k]}.
Proof. destruct o; simpl; rewrite dom_insert_L; [set_solver | rewrite dom_empty_L; set_solver]. Qed.

Lemma opt_dom_delete {V} (o : option (gmap Z V)) k :
  opt_dom (delete k <$> o) = opt_dom o ∖ {[k]}.
Proof. destruct o; simpl; [apply dom_delete_L | set_solver]. Qed.

Lemma opt_dom_default {V} (o : option (gmap Z V)) : dom (default ∅ o) = opt_dom o.
Proof. destruct o; simpl; [done | apply dom_empty_L]. Qed.

Lemma get_or_create_ref_dom m h o k :
  dom (get_or_create_ref m h o k).1.2 = opt_dom m ∪ {[k]}.
Proof.
  unfold get_or_create_ref. destruct (default ∅ m !! k) eqn:E; simpl.
  - rewrite opt_dom_default. apply elem_of_dom_2 in E. rewrite opt_dom_default in E. set_solver.
  - apply opt_dom_insert.
Qed.

Lemma get_or_create_in_dom {V} (m : option (gmap Z V)) v k :
  dom (get_or_create_in m v k) = opt_dom m ∪ {[k]}.
Proof.
  unfold get_or_create_in. destruct (default ∅ m !! k) eqn:E; simpl.
  - rewrite opt_dom_default. apply elem_of_dom_2 in E. rewrite opt_dom_default in E. set_solver.
  - apply opt_dom_insert.
Qed.

Lemma opt_dom_alter {V} (o : option (gmap Z V)) (g : V -> V) k :
  opt_dom (alter g k <$> o) = opt_dom o.
Proof. destruct o; simpl; [apply dom_alter_L | done]. Qed.

#[export] Hint Rewrite @opt_dom_insert @opt_dom_delete @opt_dom_default
  get_or_create_ref_dom @get_or_create_in_dom @opt_dom_alter : kismet_rw.

(** Every step of the device moves its key sets as the
    abstract step says. *)
Theorem dev_step_refines st op : abstr (dev_step st op) = abs_step (abstr st) op.
Proof.
  destruct st as [d h]. destruct op; try reflexivity; simpl;
    try (unfold get_ssid_beacon_packet, get_pmkid_packet, dyn_get; case_match; reflexivity);
    try match goal with
    | |- context [get_or_create_ref ?m ?h ?o ?k] =>
        pose proof (get_or_create_ref_dom m h o k) as Hd;
        destruct (get_or_create_ref m h o k) as [[? ?] ?]; simpl in Hd
    end;
    unfold abstr; simpl; autorewrite with kismet_rw; try rewrite Hd; reflexivity.
Qed.

Corollary dev_run_refines st ops : abstr (dev_run st ops) = abs_run (abstr st) ops.
Proof.
  revert st. induction ops as [|op ops IH]; intros st; [done |].
  simpl. rewrite IH, dev_step_refines. reflexivity.
Qed.

(** ** [pre_serialize] *)

Lemma set_size_u64 {V} (o : option (gmap Z V)) :
  opt_size o < 2 ^ 64 -> proxy_set_u 64 (opt_size o) = opt_size o.
Proof. intros. apply wrap_small. split; [apply opt_size_nonneg | assumption]. Qed.

Lemma opt_size_dom {V} (o : option (gmap Z V)) : opt_size o = Z.of_nat (size (opt_dom o)).
Proof. destruct o; simpl; [rewrite size_dom; reflexivity | reflexivity]. Qed.

(** After [pre_serialize] each of the five counters is the size of
    its collection, an absent collection counting 0. *)
Theorem pre_serialize_counts d :
  sizes_fit d ->
  let d' := pre_serialize d in
  num_client_aps d' = opt_size (client_map d) /\
  num_advertised_ssids d' = opt_size (advertised_ssid_map d) /\
  num_responded_ssids d' = opt_size (responded_ssid_map d) /\
  num_probed_ssids d' = opt_size (probed_ssid_map d) /\
  num_associated_clients d' = opt_size (associated_client_map d).
Proof. intros (H1 & H2 & H3 & H4 & H5). simpl. rewrite !set_size_u64 by assumption. auto. Qed.

(** (C1) Refinement: for any history of insertions and removals, the refreshed
    counters are the sizes of the abstract key sets that history builds. *)
Theorem refresh_counts_after_history st ops :
  sizes_fit (st_dev (dev_run st ops)) ->
  let d := st_dev (dev_run st (ops ++ [PreSerialize])) in
  let a := abs_run (abstr st) ops in
  num_client_aps d = Z.of_nat (size (a_clients a)) /\
  num_advertised_ssids d = Z.of_nat (size (a_adv a)) /\
  num_responded_ssids d = Z.of_nat (size (a_resp a)) /\
  num_probed_ssids d = Z.of_nat (size (a_probed a)) /\
  num_associated_clients d = Z.of_nat (size (a_assoc a)).
Proof.
  intros Hfit. rewrite dev_run_app, <- dev_run_refines.
  destruct (dev_run st ops) as [d h]. destruct Hfit as (H1 & H2 & H3 & H4 & H5). simpl in *.
  rewrite !set_size_u64, !opt_size_dom by assumption. auto.
Qed.

(** ** Snapshot protocol *)

(** Case analysis on a step, reducing the getters and the heap
    allocations so that field projections compute. *)
Ltac dev_step_cases st op :=
  destruct st as [d h]; destruct op; simpl;
  repeat match goal with
  | |- context [get_or_create_ref ?m ?h ?o ?k] => destruct (get_or_create_ref m h o k) as [[? ?] ?]
  end;
  unfold get_ssid_beacon_packet, get_pmkid_packet, dyn_get; simpl;
  repeat case_match; simpl in *; simplify_eq.

Lemma step_keeps_beacon st op :
  clears_beacon op = false ->
  get_beacon_packet_present (st_dev st) = true ->
  get_beacon_packet_present (st_dev (dev_step st op)) = true.
Proof. unfold get_beacon_packet_present. intros Hc Hp. dev_step_cases st op; auto. by destruct p. Qed.

(** (C3) Once a beacon frame is captured, [get_snap_next_beacon] stays
    false whatever the later calls do, [set_snap_next_beacon(true)]
    included, as long as none of them clears the slot. *)
Theorem snap_next_beacon_false_after_capture st p ops :
  Forall (fun op => clears_beacon op = false) ops ->
  get_snap_next_beacon (st_dev (dev_run st (SetSsidBeaconPacket (Some p) :: ops))) = false.
Proof.
  intros Hops.
  change (dev_run st (SetSsidBeaconPacket (Some p) :: ops))
    with (dev_run (dev_step st (SetSsidBeaconPacket (Some p))) ops).
  assert (Hp : get_beacon_packet_present
                 (st_dev (dev_run (dev_step st (SetSsidBeaconPacket (Some p))) ops)) = true).
  { apply (dev_run_invariant (fun s => get_beacon_packet_present (st_dev s) = true)
             (fun op => clears_beacon op = false)); [| exact Hops | reflexivity].
    intros s op. apply step_keeps_beacon. }
  unfold get_snap_next_beacon. unfold get_beacon_packet_present in Hp.
  rewrite Hp. apply andb_false_r.
Qed.

(** ** The type bitset *)

Lemma step_keeps_type_bit st op i :
  0 <= i < 64 -> overwrites_type_set op = false ->
  Z.testbit (type_set (st_dev st)) i = true ->
  Z.testbit (type_set (st_dev (dev_step st op)) ) i = true.
Proof.
  intros Hi Ho Hb. dev_step_cases st op; auto.
  apply proxy_bitset_keeps; [lia | lia | assumption].
Qed.

(** (C24) Through [bitset_type_set] and every other call except the
    [set_type_set] setter, a capability bit once set stays set. *)
Theorem type_set_monotone st ops i :
  0 <= i < 64 ->
  Forall (fun op => overwrites_type_set op = false) ops ->
  Z.testbit (type_set (st_dev st)) i = true ->
  Z.testbit (type_set (st_dev (dev_run st ops))) i = true.
Proof.
  intros Hi Hops. apply (dev_run_invariant (fun s => Z.testbit (type_set (st_dev s)) i = true)
    (fun op => overwrites_type_set op = false)); [| exact Hops].
  intros s op Ho. apply step_keeps_type_bit; assumption.
Qed.

(** ** Type invariant: every integer field within its C width *)

Lemma new_device_wf : dev_wf new_device.
Proof. unfold dev_wf. simpl. split_wf; solve_width. Qed.

#[export] Hint Extern 1 (in_width _ (proxy_bitset _ _ _)) => apply wrap_range; lia : kismet.

(** Every call keeps every integer field of the device within the
    width of its C type. *)
Theorem dev_step_wf st op : dev_wf (st_dev st) -> dev_wf (st_dev (dev_step st op)).
Proof.
  intros Hw. dev_step_cases st op; unfold dev_wf in *; simpl in *;
    destruct Hw as (H1 & H2 & H3 & H4 & H5 & H6 & H7 & H8 & H9 & H10 & H11 & H12 & H13 &
                    H14 & H15 & H16 & H17 & H18 & H19 & H20 & H21 & H22 & H23 & H24 & H25 & H26);
    split_wf; solve_width.
Qed.

(** In every device built by any sequence of calls from the
    constructor, every integer field is within the width of its C type. *)
Theorem dev_run_wf ops : dev_wf (st_dev (dev_run init_state ops)).
Proof.
  apply (dev_run_invariant (fun s => dev_wf (st_dev s)) (fun _ => True)).
  - intros s op _. apply dev_step_wf.
  - apply Forall_true. intros; exact I.
  - apply new_device_wf.
Qed.

(** ** Witnesses: the claims above at concrete devices *)

Lemma pre_serialize_counts_witness :
  sizes_fit (st_dev (dev_run init_state
    [GetOrCreateClient 1; GetOrCreateAdvertised 10; GetOrCreateAdvertised 11])) /\
  num_advertised_ssids (pre_serialize (st_dev (dev_run init_state
    [GetOrCreateClient 1; GetOrCreateAdvertised 10; GetOrCreateAdvertised 11]))) = 2.
Proof.
  assert (H : sizes_fit (st_dev (dev_run init_state
    [GetOrCreateClient 1; GetOrCreateAdvertised 10; GetOrCreateAdvertised 11])))
    by (unfold sizes_fit; split_wf; vm_compute; reflexivity).
  split; [exact H |].
  destruct (pre_serialize_counts _ H) as (_ & -> & _). vm_compute. reflexivity.
Defined.

Lemma refresh_counts_after_history_witness :
  sizes_fit (st_dev (dev_run init_state
    [GetOrCreateAdvertised 10; GetOrCreateAdvertised 11; EraseAdvertised 10])) /\
  num_advertised_ssids (st_dev (dev_run init_state
    ([GetOrCreateAdvertised 10; GetOrCreateAdvertised 11; EraseAdvertised 10] ++ [PreSerialize]))) =
  Z.of_nat (size (a_adv (abs_run (abstr init_state)
    [GetOrCreateAdvertised 10; GetOrCreateAdvertised 11; EraseAdvertised 10]))).
Proof.
  assert (H : sizes_fit (st_dev (dev_run init_state
    [GetOrCreateAdvertised 10; GetOrCreateAdvertised 11; EraseAdvertised 10])))
    by (unfold sizes_fit; split_wf; vm_compute; reflexivity).
  split; [exact H |].
  apply (refresh_counts_after_history init_state _ H).
Defined.

Lemma snap_next_beacon_false_after_capture_witness :
  Forall (fun op => clears_beacon op = false)
    [SetSnapNextBeacon true; GetSsidBeaconPacket; IncDatasize 10] /\
  get_snap_next_beacon (st_dev (dev_run init_state
    (SetSsidBeaconPacket (Some empty_packet) ::
     [SetSnapNextBeacon true; GetSsidBeaconPacket; IncDatasize 10]))) = false.
Proof.
  assert (H : Forall (fun op => clears_beacon op = false)
    [SetSnapNextBeacon true; GetSsidBeaconPacket; IncDatasize 10]) by repeat constructor.
  split; [exact H | apply (snap_next_beacon_false_after_capture init_state empty_packet _ H)].
Defined.

Lemma type_set_monotone_witness :
  0 <= 0 < 64 /\
  Forall (fun op => overwrites_type_set op = false) [IncDatasize 3; BitsetTypeSet 4] /\
  Z.testbit (type_set (st_dev (dev_step init_state (BitsetTypeSet DOT11_DEVICE_TYPE_BEACON_AP)))) 0 = true /\
  Z.testbit (type_set (st_dev (dev_run (dev_step init_state (BitsetTypeSet DOT11_DEVICE_TYPE_BEACON_AP))
    [IncDatasize 3; BitsetTypeSet 4]))) 0 = true.
Proof.
  assert (H1 : 0 <= 0 < 64) by lia.
  assert (H2 : Forall (fun op => overwrites_type_set op = false) [IncDatasize 3; BitsetTypeSet 4])
    by repeat constructor.
  assert (H3 : Z.testbit (type_set (st_dev (dev_step init_state
    (BitsetTypeSet DOT11_DEVICE_TYPE_BEACON_AP)))) 0 = true) by reflexivity.
  split; [exact H1 | split; [exact H2 | split; [exact H3 |]]].
  exact (type_set_monotone _ _ 0 H1 H2 H3).
Defined.

