(* ===== verification/DeviceHeap.v ===== *)
(** * Shared SSID records: ownership, aliasing and the clone

    The device's advertised/responded/probed maps, [last_adv_ssid] and the
    two alias fields hold [shared_ptr]s (locations of [ssid_heap]).  A
    record is destroyed when the last pointer of the device that holds it
    is dropped ([holders], [release_loc] in [Device]; [dev_step] releases
    on every erase and every pointer overwrite).
    - [ptrs_ok]: every pointer the device holds resolves to a live record
      of its class; every call preserves it, because a record is freed
      only once no pointer of the device holds it.
    - aliasing: the caller's beacon path ([adv_select]) makes
      [last_adv_ssid] share the map's record, so a write through it is
      seen through the map.
    - erasing a map entry destroys the record exactly when no other
      pointer holds it; [last_adv_ssid] keeps it alive (an owning
      pointer, where the spec calls it a weak reference).
    - the copy constructor (lines 1077-1156): the clone's [last_adv_ssid]
      is a deep copy at a fresh location.
    The caller's own temporary [shared_ptr]s (held while a frame is
    processed) are not modelled: between calls the device's pointers
    are the only holders. *)

From S2P Require Import Prelude Tracker Eapol Client IeTag Ssid Device DeviceOps DeviceProps.
Import device.

Definition live_adv (h : ssid_heap) (l : loc) : Prop := exists a, h !! l = Some (ObjAdv a).
Definition live_probed (h : ssid_heap) (l : loc) : Prop := exists p, h !! l = Some (ObjProbed p).

Definition opt_ptrs (P : loc -> Prop) (o : option (gmap Z loc)) : Prop :=
  match o with Some m => map_Forall (fun _ l => P l) m | None => True end.

Definition opt_ptr (P : loc -> Prop) (o : option loc) : Prop :=
  match o with Some l => P l | None => True end.

Definition ptrs_ok (st : dev_state) : Prop :=
  opt_ptrs (live_adv (st_heap st)) (advertised_ssid_map (st_dev st)) /\
  opt_ptrs (live_adv (st_heap st)) (responded_ssid_map (st_dev st)) /\
  opt_ptrs (live_probed (st_heap st)) (probed_ssid_map (st_dev st)) /\
  opt_ptr (live_adv (st_heap st)) (last_adv_ssid (st_dev st)) /\
  opt_ptr (live_adv (st_heap st)) (last_beaconed_ssid_record (st_dev st)) /\
  opt_ptr (live_probed (st_heap st)) (last_probed_ssid_record (st_dev st)).

(** A call that hands the device a pointer must hand a live one. *)
Definition op_ok (h : ssid_heap) (op : dev_op) : Prop :=
  match op with
  | SetLastAdvSsid o | SetLastBeaconedSsidRecord o => opt_ptr (live_adv h) o
  | SetLastProbedSsidRecord o => opt_ptr (live_probed h) o
  | _ => True
  end.

(** The heap only grows, and a location keeps the class of its record. *)
Definition heap_grows (h h' : ssid_heap) : Prop :=
  (forall l, live_adv h l -> live_adv h' l) /\ (forall l, live_probed h l -> live_probed h' l).

(** Each call of a run hands only live pointers. *)
Fixpoint run_ok (st : dev_state) (ops : list dev_op) : Prop :=
  match ops with
  | [] => True
  | op :: ops' => op_ok (st_heap st) op /\ run_ok (dev_step st op) ops'
  end.

(** The advertised record the map holds under [k], and the one
    [last_adv_ssid] points at. *)

Definition adv_by_key (st : dev_state) (k : Z) : option advertised.dot11_advertised_ssid :=
  match key_loc (advertised_ssid_map (st_dev st)) k with
  | Some l => adv_at (st_heap st) l
  | None => None
  end.

Definition adv_by_last (st : dev_state) : option advertised.dot11_advertised_ssid :=
  match last_adv_ssid (st_dev st) with Some l => adv_at (st_heap st) l | None => None end.

(** The caller's beacon path (its code, from spec 4.1): get-or-create
    the advertised record of SSID key [k], then remember it with
    [set_last_adv_ssid] (lines 1268-1270). *)
Definition adv_select (st : dev_state) (k : Z) : dev_state :=
  let st1 := dev_step st (GetOrCreateAdvertised k) in
  dev_step st1 (SetLastAdvSsid (key_loc (advertised_ssid_map (st_dev st1)) k)).

Lemma heap_grows_refl h : heap_grows h h.
Proof. split; auto. Qed.

Lemma opt_ptrs_mono (P Q : loc -> Prop) o :
  (forall l, P l -> Q l) -> opt_ptrs P o -> opt_ptrs Q o.
Proof. destruct o; simpl; [intros HPQ H; eapply map_Forall_impl; eauto | auto]. Qed.

Lemma opt_ptr_mono (P Q : loc -> Prop) o :
  (forall l, P l -> Q l) -> opt_ptr P o -> opt_ptr Q o.
Proof. destruct o; simpl; auto. Qed.

Lemma alloc_grows h o : heap_grows h (alloc h o).2.
Proof.
  unfold alloc. simpl. pose proof (is_fresh (dom h)) as Hf.
  split; intros l [x Hx]; exists x; rewrite lookup_insert_ne; auto;
    intros <-; apply Hf, elem_of_dom; eauto.
Qed.

Lemma heap_update_adv_grows h l f : heap_grows h (heap_update_adv h l f).
Proof.
  unfold heap_update_adv. destruct (h !! l) as [[a | p] |] eqn:E; try apply heap_grows_refl.
  split; intros l' [x Hx]; unfold live_adv, live_probed; rewrite lookup_insert;
    case_decide; subst; eauto; congruence.
Qed.

Lemma heap_update_probed_grows h l f : heap_grows h (heap_update_probed h l f).
Proof.
  unfold heap_update_probed. destruct (h !! l) as [[a | p] |] eqn:E; try apply heap_grows_refl.
  split; intros l' [x Hx]; unfold live_adv, live_probed; rewrite lookup_insert;
    case_decide; subst; eauto; congruence.
Qed.

(** Get-or-create keeps the map's pointers live and adds a live one. *)
Lemma get_or_create_ref_ok (P : ssid_heap -> loc -> Prop) m h o k :
  (forall h' l, heap_grows h h' -> P h l -> P h' l) ->
  P (alloc h o).2 (alloc h o).1 ->
  opt_ptrs (P h) m ->
  let '(l, m', h') := get_or_create_ref m h o k in
  heap_grows h h' /\ map_Forall (fun _ l => P h' l) m'.
Proof.
  intros HP Hnew Hm. unfold get_or_create_ref.
  assert (Hd : map_Forall (fun _ l => P h l) (default ∅ m)).
  { destruct m; simpl; [exact Hm | apply map_Forall_empty]. }
  destruct (default ∅ m !! k); [split; [apply heap_grows_refl | exact Hd] |].
  destruct (alloc h o) as [l h'] eqn:Ea. simpl in Hnew.
  assert (Hg : heap_grows h h') by (pose proof (alloc_grows h o) as G; rewrite Ea in G; exact G).
  split; [exact Hg |]. apply map_Forall_insert_2; [exact Hnew |].
  eapply map_Forall_impl; [exact Hd |]. intros ? l' Hl. eapply HP; eauto.
Qed.

(** Carries a pointer fact to a grown heap. *)
Ltac ptr_mono :=
  first [ eapply opt_ptrs_mono; [eassumption | eassumption]
        | eapply opt_ptr_mono; [eassumption | eassumption]
        | eassumption ].

Lemma ptrs_ok_weaken d h h' : heap_grows h h' -> ptrs_ok (mk_state d h) -> ptrs_ok (mk_state d h').
Proof.
  intros [Ga Gp] (H1 & H2 & H3 & H4 & H5 & H6). unfold ptrs_ok; simpl in *. split_wf; ptr_mono.
Qed.

Lemma opt_ptrs_delete (P : loc -> Prop) o k : opt_ptrs P o -> opt_ptrs P (delete k <$> o).
Proof. destruct o; simpl; [apply map_Forall_delete | auto]. Qed.

Lemma live_adv_grow h h' l : heap_grows h h' -> live_adv h l -> live_adv h' l.
Proof. intros [G _]. apply G. Qed.
Lemma live_probed_grow h h' l : heap_grows h h' -> live_probed h l -> live_probed h' l.
Proof. intros [_ G]. apply G. Qed.

Lemma alloc_live_adv h a : live_adv (alloc h (ObjAdv a)).2 (alloc h (ObjAdv a)).1.
Proof. exists a. simpl. apply lookup_insert_eq. Qed.
Lemma alloc_live_probed h p : live_probed (alloc h (ObjProbed p)).2 (alloc h (ObjProbed p)).1.
Proof. exists p. simpl. apply lookup_insert_eq. Qed.

(** ** Releasing a pointer *)

Lemma map_holds_ne o k l : key_loc o k = Some l -> map_holds o l <> 0%nat.
Proof.
  destruct o as [m |]; simpl; [| discriminate]. intros Hk Hs.
  apply map_size_empty_iff in Hs.
  assert (Hf : filter (fun kv : Z * loc => kv.2 = l) m !! k = Some l)
    by (apply map_lookup_filter_Some; auto).
  rewrite Hs, lookup_empty in Hf. discriminate.
Qed.

Lemma ptr_holds_ne o l : o = Some l -> ptr_holds o l = 1%nat.
Proof. intros ->. unfold ptr_holds. by rewrite decide_True. Qed.

(** A record some pointer of [d] still holds survives the release. *)
Lemma release_loc_lookup d h o l : holders d l <> 0%nat -> release_loc d h o !! l = h !! l.
Proof.
  intros Hl. unfold release_loc. destruct o as [l' |]; [| reflexivity].
  case_decide as Hz; [| reflexivity].
  rewrite lookup_delete_ne; [reflexivity | intros ->; contradiction].
Qed.

Lemma release_loc_freed d h l : holders d l = 0%nat -> release_loc d h (Some l) !! l = None.
Proof. intros Hz. unfold release_loc. rewrite decide_True by exact Hz. apply lookup_delete_eq. Qed.

Lemma opt_ptrs_held (P Q : loc -> Prop) o :
  (forall k l, key_loc o k = Some l -> P l -> Q l) -> opt_ptrs P o -> opt_ptrs Q o.
Proof. destruct o as [m |]; simpl; [| auto]. intros HPQ Hm k l Hk. exact (HPQ k l Hk (Hm k l Hk)). Qed.

Lemma opt_ptr_held (P Q : loc -> Prop) o :
  (forall l, o = Some l -> P l -> Q l) -> opt_ptr P o -> opt_ptr Q o.
Proof. destruct o as [l |]; simpl; [| auto]. intros HPQ. exact (HPQ l eq_refl). Qed.

(** A pointer the device holds counts as a holder. *)
Ltac holders_nz :=
  unfold holders, set_last_adv_ssid;
  cbn [advertised_ssid_map responded_ssid_map probed_ssid_map last_adv_ssid
       last_beaconed_ssid_record last_probed_ssid_record];
  match goal with
  | H : key_loc ?o ?k = Some ?l |- _ => pose proof (map_holds_ne o k l H)
  | H : ?o = Some ?l |- _ => rewrite (ptr_holds_ne o l H)
  | |- context [ptr_holds (Some ?l) ?l] => rewrite (ptr_holds_ne (Some l) l eq_refl)
  end; lia.

(** Dropping a pointer keeps every pointer the device still holds valid. *)
Lemma ptrs_ok_release d h o : ptrs_ok (mk_state d h) -> ptrs_ok (mk_state d (release_loc d h o)).
Proof.
  intros (H1 & H2 & H3 & H4 & H5 & H6). unfold ptrs_ok; simpl in *.
  split_wf; [eapply opt_ptrs_held | eapply opt_ptrs_held | eapply opt_ptrs_held
            | eapply opt_ptr_held | eapply opt_ptr_held | eapply opt_ptr_held]; try eassumption;
    intros ? * Hk [x Hx]; exists x; rewrite release_loc_lookup by holders_nz; exact Hx.
Qed.

(** No call leaves the device holding a dangling or mistyped pointer to
    an SSID record. *)
Theorem dev_step_ptrs_ok st op :
  op_ok (st_heap st) op -> ptrs_ok st -> ptrs_ok (dev_step st op).
Proof.
  intros Hok Hp. destruct st as [d h].
  destruct op; simpl in Hok |- *; try apply ptrs_ok_release;
    try (destruct Hp as (H1 & H2 & H3 & H4 & H5 & H6); unfold ptrs_ok; simpl;
         unfold get_ssid_beacon_packet, get_pmkid_packet, dyn_get; repeat case_match; simpl;
         split_wf; solve [auto using opt_ptrs_delete]).
  all: try (eapply ptrs_ok_weaken; [apply heap_update_adv_grows || apply heap_update_probed_grows | exact Hp]).
  all: destruct Hp as (H1 & H2 & H3 & H4 & H5 & H6); simpl in *.
  - pose proof (get_or_create_ref_ok live_adv (advertised_ssid_map d) h
      (ObjAdv advertised.new_advertised_ssid) k (live_adv_grow h) (alloc_live_adv h _) H1) as G.
    destruct (get_or_create_ref _ _ _ _) as [[l m] h'], G as [Hg Hm].
    destruct Hg as [Ga Gp]. unfold ptrs_ok; simpl. split_wf; ptr_mono.
  - pose proof (get_or_create_ref_ok live_adv (responded_ssid_map d) h
      (ObjAdv advertised.new_advertised_ssid) k (live_adv_grow h) (alloc_live_adv h _) H2) as G.
    destruct (get_or_create_ref _ _ _ _) as [[l m] h'], G as [Hg Hm].
    destruct Hg as [Ga Gp]. unfold ptrs_ok; simpl. split_wf; ptr_mono.
  - pose proof (get_or_create_ref_ok live_probed (probed_ssid_map d) h
      (ObjProbed probed.new_probed_ssid) k (live_probed_grow h) (alloc_live_probed h _) H3) as G.
    destruct (get_or_create_ref _ _ _ _) as [[l m] h'], G as [Hg Hm].
    destruct Hg as [Ga Gp]. unfold ptrs_ok; simpl. split_wf; ptr_mono.
Qed.

(** (C17) Along any run whose calls hand the device only live pointers,
    every pointer the device holds stays live and of its class. *)
Theorem dev_run_ptrs_ok st ops : run_ok st ops -> ptrs_ok st -> ptrs_ok (dev_run st ops).
Proof.
  revert st. induction ops as [| op ops IH]; intros st [Hop Hrest] Hp || intros st _ Hp; [exact Hp |].
  simpl. apply IH; [exact Hrest | apply dev_step_ptrs_ok; assumption].
Qed.

(** ** Aliasing through [last_adv_ssid] *)

Lemma adv_at_update h l f : adv_at (heap_update_adv h l f) l = f <$> adv_at h l.
Proof.
  unfold adv_at, heap_update_adv. destruct (h !! l) as [[a | p] |] eqn:E; rewrite ?E; try reflexivity.
  rewrite lookup_insert_eq. reflexivity.
Qed.

Lemma get_or_create_ref_lookup m h o k :
  let '(l, m', h') := get_or_create_ref m h o k in m' !! k = Some l.
Proof.
  unfold get_or_create_ref. destruct (default ∅ m !! k) eqn:E; [exact E |].
  destruct (alloc h o). apply lookup_insert_eq.
Qed.

(** (C18) The caller's beacon path makes [last_adv_ssid] share the
    map's record: after [adv_select st k] the map entry of [k] and
    [last_adv_ssid] are one live location, so a write through the
    pointer is the write seen through the map. *)
Theorem adv_select_aliases st k f :
  ptrs_ok st ->
  let st1 := adv_select st k in
  exists l, key_loc (advertised_ssid_map (st_dev st1)) k = Some l /\
    last_adv_ssid (st_dev st1) = Some l /\ is_Some (adv_by_last st1) /\
    adv_by_key (dev_step st1 (UpdateAdvertised l f)) k = f <$> adv_by_key st1 k /\
    adv_by_last (dev_step st1 (UpdateAdvertised l f)) = adv_by_key (dev_step st1 (UpdateAdvertised l f)) k.
Proof.
  intros Hp. destruct st as [d h]. destruct Hp as (H1 & _). simpl in H1.
  unfold adv_select, adv_by_key, adv_by_last. simpl.
  pose proof (get_or_create_ref_ok live_adv (advertised_ssid_map d) h
    (ObjAdv advertised.new_advertised_ssid) k (live_adv_grow h) (alloc_live_adv h _) H1) as G.
  pose proof (get_or_create_ref_lookup (advertised_ssid_map d) h (ObjAdv advertised.new_advertised_ssid) k) as Hk.
  destruct (get_or_create_ref _ _ _ _) as [[l m] h'], G as [_ Hm]. simpl. rewrite Hk. simpl.
  destruct (Hm k l Hk) as [a Ha].
  assert (Hl : release_loc (set_last_adv_ssid {| d with advertised_ssid_map := Some m |} (Some l)) h'
                 (last_adv_ssid d) !! l = Some (ObjAdv a))
    by (rewrite release_loc_lookup; [exact Ha | holders_nz]).
  exists l. simpl. rewrite ?Hk, adv_at_update. unfold adv_at. rewrite ?Hl.
  split_wf; try reflexivity. eexists; reflexivity.
Qed.

(** (C19) Erasing the advertised record of key [k] drops the map's
    [shared_ptr]: the record is destroyed exactly when no other pointer
    of the device holds it, and when [last_adv_ssid] holds it the record
    stays alive and readable through it (an owning pointer, where the
    spec calls it a weak reference invalidated with the entry). *)
Theorem erase_advertised_releases st k l :
  ptrs_ok st -> key_loc (advertised_ssid_map (st_dev st)) k = Some l ->
  let st' := dev_step st (EraseAdvertised k) in
  adv_by_key st' k = None /\
  (is_Some (adv_at (st_heap st') l) <-> holders (st_dev st') l <> 0%nat) /\
  (last_adv_ssid (st_dev st) = Some l -> adv_by_last st' = adv_by_key st k).
Proof.
  intros (H1 & _) Hk. destruct st as [d h]. simpl in *.
  destruct (advertised_ssid_map d) as [m |] eqn:Em; [| discriminate]. simpl in Hk.
  destruct (H1 k l Hk) as [a Ha].
  unfold adv_by_key, adv_by_last. simpl. rewrite Em, lookup_delete_eq, Hk. simpl.
  split; [reflexivity | split].
  - destruct (decide (holders {| d with advertised_ssid_map := Some (delete k m) |} l = 0%nat)) as [Hz | Hz].
    + unfold adv_at. rewrite release_loc_freed by exact Hz. split; [intros [? ?]; discriminate | contradiction].
    + unfold adv_at. rewrite release_loc_lookup, Ha by exact Hz. split; [intros _; exact Hz | eauto].
  - intros Hl. rewrite Hl. unfold adv_at. rewrite Hk, release_loc_lookup; [reflexivity | holders_nz].
Qed.

(** ** The copy constructor *)

(** (C20) The clone's [last_adv_ssid] is a fresh copy: writing through it
    leaves the original's record untouched. *)
Theorem clone_last_adv_isolated h p l f :
  last_adv_ssid p = Some l -> live_adv h l ->
  let '(q, h') := clone_device h p in
  exists l', last_adv_ssid q = Some l' /\ l' <> l /\
    adv_at h' l' = advertised.clone_advertised <$> adv_at h l /\
    adv_at (heap_update_adv h' l' f) l = adv_at h l.
Proof.
  intros Hl [a Ha]. unfold clone_device. rewrite Hl.
  assert (Hadv : adv_at h l = Some a) by (unfold adv_at; rewrite Ha; reflexivity).
  rewrite Hadv. pose proof (alloc_fresh h (ObjAdv (advertised.clone_advertised a))) as Hf.
  destruct (alloc h _) as [l' h'] eqn:Ea. simpl in Hf |- *.
  unfold alloc in Ea. injection Ea as <- <-.
  assert (Hne : fresh (dom h) <> l) by (intros <-; apply Hf, elem_of_dom; eauto).
  exists (fresh (dom h)). split_wf; [reflexivity | exact Hne | |].
  - unfold adv_at. rewrite lookup_insert_eq. reflexivity.
  - unfold heap_update_adv. rewrite lookup_insert_eq.
    unfold adv_at. rewrite lookup_insert_ne by exact Hne. rewrite lookup_insert_ne by exact Hne.
    rewrite Ha. reflexivity.
Qed.

(** ** Witnesses: a device that observed SSID key 7 and remembers it as
    its last advertised SSID (location 1 of the heap) *)

Lemma dev_run_ptrs_ok_witness :
  run_ok init_state [GetOrCreateAdvertised 7; SetLastAdvSsid (Some 1%positive); EraseAdvertised 7] /\
  ptrs_ok init_state /\
  ptrs_ok (dev_run init_state [GetOrCreateAdvertised 7; SetLastAdvSsid (Some 1%positive); EraseAdvertised 7]).
Proof.
  assert (H1 : run_ok init_state
    [GetOrCreateAdvertised 7; SetLastAdvSsid (Some 1%positive); EraseAdvertised 7])
    by (vm_compute; split_wf; eauto).
  assert (H2 : ptrs_ok init_state) by (vm_compute; split_wf; exact I).
  split; [exact H1 | split; [exact H2 | exact (dev_run_ptrs_ok _ _ H1 H2)]].
Defined.

(** The device after the beacon path for SSID key 7: the map and
    [last_adv_ssid] hold location 1. *)
Lemma adv_select_aliases_witness :
  ptrs_ok init_state /\
  exists l, key_loc (advertised_ssid_map (st_dev (adv_select init_state 7))) 7 = Some l /\
    last_adv_ssid (st_dev (adv_select init_state 7)) = Some l /\ is_Some (adv_by_last (adv_select init_state 7)) /\
    adv_by_key (dev_step (adv_select init_state 7) (UpdateAdvertised l (fun a => advertised.set_ccx_txpower a 20))) 7 =
      (fun a => advertised.set_ccx_txpower a 20) <$> adv_by_key (adv_select init_state 7) 7 /\
    adv_by_last (dev_step (adv_select init_state 7) (UpdateAdvertised l (fun a => advertised.set_ccx_txpower a 20))) =
      adv_by_key (dev_step (adv_select init_state 7) (UpdateAdvertised l (fun a => advertised.set_ccx_txpower a 20))) 7.
Proof.
  assert (H : ptrs_ok init_state) by (vm_compute; split_wf; exact I).
  split; [exact H | exact (adv_select_aliases init_state 7 (fun a => advertised.set_ccx_txpower a 20) H)].
Defined.

Lemma erase_advertised_releases_witness :
  ptrs_ok (adv_select init_state 7) /\
  key_loc (advertised_ssid_map (st_dev (adv_select init_state 7))) 7 = Some 1%positive /\
  last_adv_ssid (st_dev (adv_select init_state 7)) = Some 1%positive /\
  adv_by_last (dev_step (adv_select init_state 7) (EraseAdvertised 7)) = adv_by_key (adv_select init_state 7) 7.
Proof.
  assert (H0 : ptrs_ok init_state) by (vm_compute; split_wf; exact I).
  assert (Hp : ptrs_ok (adv_select init_state 7)).
  { unfold adv_select. apply dev_step_ptrs_ok; [vm_compute; eauto |].
    apply dev_step_ptrs_ok; [exact I | exact H0]. }
  assert (Hk : key_loc (advertised_ssid_map (st_dev (adv_select init_state 7))) 7 = Some 1%positive)
    by (vm_compute; reflexivity).
  assert (Hl : last_adv_ssid (st_dev (adv_select init_state 7)) = Some 1%positive)
    by (vm_compute; reflexivity).
  split; [exact Hp | split; [exact Hk | split; [exact Hl |]]].
  destruct (erase_advertised_releases _ 7 1%positive Hp Hk) as (_ & _ & H). exact (H Hl).
Defined.

Lemma clone_last_adv_isolated_witness :
  last_adv_ssid (st_dev (dev_run init_state
    [GetOrCreateAdvertised 7; SetLastAdvSsid (Some 1%positive)])) = Some 1%positive /\
  live_adv (st_heap (dev_run init_state
    [GetOrCreateAdvertised 7; SetLastAdvSsid (Some 1%positive)])) 1%positive /\
  let '(q, h') := clone_device (st_heap (dev_run init_state
    [GetOrCreateAdvertised 7; SetLastAdvSsid (Some 1%positive)]))
    (st_dev (dev_run init_state [GetOrCreateAdvertised 7; SetLastAdvSsid (Some 1%positive)])) in
  exists l', last_adv_ssid q = Some l' /\ l' <> 1%positive /\
    adv_at h' l' = advertised.clone_advertised <$> adv_at (st_heap (dev_run init_state
      [GetOrCreateAdvertised 7; SetLastAdvSsid (Some 1%positive)])) 1%positive /\
    adv_at (heap_update_adv h' l' (fun a => advertised.set_ccx_txpower a 20)) 1%positive =
    adv_at (st_heap (dev_run init_state
      [GetOrCreateAdvertised 7; SetLastAdvSsid (Some 1%positive)])) 1%positive.
Proof.
  assert (Hl : last_adv_ssid (st_dev (dev_run init_state
    [GetOrCreateAdvertised 7; SetLastAdvSsid (Some 1%positive)])) = Some 1%positive)
    by (vm_compute; reflexivity).
  assert (Hv : live_adv (st_heap (dev_run init_state
    [GetOrCreateAdvertised 7; SetLastAdvSsid (Some 1%positive)])) 1%positive)
    by (eexists; vm_compute; reflexivity).
  split; [exact Hl | split; [exact Hv |]].
  exact (clone_last_adv_isolated _ _ 1%positive (fun a => advertised.set_ccx_txpower a 20) Hl Hv).
Defined.
