(* ===== verification/Handshake.v ===== *)
(** * WPA handshake capture on the device

    The caller (outside [src/]) records an observed EAPOL key message with
    the device's own calls: it appends the key record to
    [get_wpa_key_vec()], ORs the message's bit into
    [wpa_present_handshake], and appends the condensed nonce to the
    station- or AP-nonce history the caller selects.  [record_eapol]
    composes exactly those [dev_op]s (spec section 4.3).  The spec's M3
    retransmission counter has no field in the header: the only M3
    counter, [wps_m3_count], is registered as the WPS M3 message count
    (line 1412), a message of Wi-Fi Protected Setup, not of the 4-way
    handshake, so recording a key message leaves it alone.  The
    invariant: bit [i] of the mask is set iff the history holds a message
    [i+1]. *)

From S2P Require Import Prelude Tracker Eapol Client IeTag Ssid Device DeviceOps DeviceProps.
Import device.

(** Which condensed history the caller feeds (spec: its choice). *)
Inductive nonce_sel := SelNonce | SelANonce | SelNone.

Definition hs_bit (msg : Z) : Z := Z.shiftl 1 (msg - 1).

Definition record_ops (d : dot11_tracked_device) (e : eapol.dot11_tracked_eapol) (sel : nonce_sel)
  : list dev_op :=
  let m := eapol.eapol_msg_num e in
  [PushWpaKey e; SetWpaPresentHandshake (Z.lor (wpa_present_handshake d) (hs_bit m))] ++
  match sel with
  | SelNonce => [PushWpaNonce (nonce.condense e)]
  | SelANonce => [PushWpaANonce (nonce.condense e)]
  | SelNone => []
  end.

Definition record_eapol (st : dev_state) (e : eapol.dot11_tracked_eapol) (sel : nonce_sel) : dev_state :=
  dev_run st (record_ops (st_dev st) e sel).

(** The key history as a list (an absent vector is empty). *)
Definition key_history (d : dot11_tracked_device) : list eapol.dot11_tracked_eapol :=
  default [] (wpa_key_vec d).

Definition has_msg (d : dot11_tracked_device) (n : Z) : bool :=
  existsb (fun e => eapol.eapol_msg_num e =? n) (key_history d).

(** The handshake invariant, over the 8 bits of the [uint8_t] mask. *)
Definition hs_inv (d : dot11_tracked_device) : Prop :=
  in_width 8 (wpa_present_handshake d) /\
  forall i, 0 <= i < 8 -> Z.testbit (wpa_present_handshake d) i = has_msg d (i + 1).

(** Calls that write the key history or the mask directly. *)
Definition touches_handshake (op : dev_op) : bool :=
  match op with PushWpaKey _ | SetWpaPresentHandshake _ => true | _ => false end.

(** States reachable by recordings of messages 1-4 and by any other call. *)
Inductive hs_reach : dev_state -> Prop :=
| hs_init : hs_reach init_state
| hs_record st e sel :
    hs_reach st -> 1 <= eapol.eapol_msg_num e <= 4 -> hs_reach (record_eapol st e sel)
| hs_other st op :
    hs_reach st -> touches_handshake op = false -> hs_reach (dev_step st op).

(** An M1 key record. *)
Definition m1_record : eapol.dot11_tracked_eapol := eapol.set_eapol_msg_num eapol.new_eapol 1.

(** A key record of message [n]. *)
Definition msg_record (n : Z) : eapol.dot11_tracked_eapol := eapol.set_eapol_msg_num eapol.new_eapol n.

(** ** What one recording does *)

(** The condensed histories as lists. *)
Definition nonce_history (d : dot11_tracked_device) : list nonce.dot11_tracked_nonce :=
  default [] (wpa_nonce_vec d).
Definition anonce_history (d : dot11_tracked_device) : list nonce.dot11_tracked_nonce :=
  default [] (wpa_anonce_vec d).

Lemma record_eapol_fields st e sel :
  let d' := st_dev (record_eapol st e sel) in
  key_history d' = key_history (st_dev st) ++ [e] /\
  wpa_present_handshake d' =
    proxy_set_u 8 (Z.lor (wpa_present_handshake (st_dev st)) (hs_bit (eapol.eapol_msg_num e))) /\
  nonce_history d' = nonce_history (st_dev st) ++
    (if sel is SelNonce then [nonce.condense e] else []) /\
  anonce_history d' = anonce_history (st_dev st) ++
    (if sel is SelANonce then [nonce.condense e] else []) /\
  wps_m3_count d' = wps_m3_count (st_dev st).
Proof.
  destruct st as [d h]. unfold record_eapol, record_ops, nonce_history, anonce_history.
  destruct sel; simpl; rewrite ?app_nil_r; auto.
Qed.

Lemma hs_bit_testbit m i :
  0 <= i -> 1 <= m -> Z.testbit (hs_bit m) i = (m =? i + 1).
Proof.
  intros Hi Hm. unfold hs_bit. rewrite Z.shiftl_1_l, Z.pow2_bits_eqb by lia.
  destruct (Z.eqb_spec (m - 1) i), (Z.eqb_spec m (i + 1)); lia || reflexivity.
Qed.

Lemma hs_bit_range m : 1 <= m <= 4 -> in_width 8 (hs_bit m).
Proof.
  intros Hm. unfold hs_bit, in_width. rewrite Z.shiftl_1_l.
  split; [apply Z.pow_nonneg; lia |].
  apply Z.pow_lt_mono_r; lia.
Qed.

Lemma has_msg_app d d' e n :
  key_history d' = key_history d ++ [e] ->
  has_msg d' n = has_msg d n || (eapol.eapol_msg_num e =? n).
Proof. unfold has_msg. intros ->. rewrite existsb_app. simpl. by rewrite orb_false_r. Qed.

Lemma step_keeps_handshake st op :
  touches_handshake op = false ->
  key_history (st_dev (dev_step st op)) = key_history (st_dev st) /\
  wpa_present_handshake (st_dev (dev_step st op)) = wpa_present_handshake (st_dev st).
Proof. intros Ht. dev_step_cases st op; auto. Qed.

Lemma record_mask st e :
  1 <= eapol.eapol_msg_num e <= 4 -> in_width 8 (wpa_present_handshake (st_dev st)) ->
  forall sel, wpa_present_handshake (st_dev (record_eapol st e sel)) =
    Z.lor (wpa_present_handshake (st_dev st)) (hs_bit (eapol.eapol_msg_num e)).
Proof.
  intros Hm Hw sel. destruct (record_eapol_fields st e sel) as (_ & -> & _ & _ & _).
  apply wrap_small, lor_in_width; [lia | assumption | apply hs_bit_range, Hm].
Qed.

Lemma record_preserves_inv st e sel :
  1 <= eapol.eapol_msg_num e <= 4 -> hs_inv (st_dev st) -> hs_inv (st_dev (record_eapol st e sel)).
Proof.
  intros Hm [Hw Hb]. destruct (record_eapol_fields st e sel) as (Hk & _ & _ & _ & _).
  unfold hs_inv. rewrite (record_mask st e Hm Hw sel). split.
  - apply lor_in_width; [lia | assumption | apply hs_bit_range, Hm].
  - intros i Hi. rewrite Z.lor_spec, Hb, hs_bit_testbit by lia.
    symmetry. apply has_msg_app, Hk.
Qed.

(** The handshake invariant holds in every reachable state. *)
Lemma hs_reach_inv st : hs_reach st -> hs_inv (st_dev st).
Proof.
  induction 1 as [| st e sel _ IH Hm | st op _ IH Ht].
  - split; [apply in_width_0; lia | intros i Hi; now rewrite Z.testbit_0_l].
  - apply record_preserves_inv; assumption.
  - destruct (step_keeps_handshake st op Ht) as [Hk Hp]. destruct IH as [Hw Hb].
    split; [rewrite Hp; exact Hw |]. intros i Hi. rewrite Hp, Hb by exact Hi.
    unfold has_msg. rewrite Hk. reflexivity.
Qed.

(** (C5) In every reachable state, bit [i] of [wpa_present_handshake] is
    set iff the key history holds a message numbered [i+1]. *)
Theorem handshake_mask_reflects_history st :
  hs_reach st ->
  forall i, 0 <= i < 8 ->
  Z.testbit (wpa_present_handshake (st_dev st)) i = has_msg (st_dev st) (i + 1).
Proof.
  intros Hr. apply (hs_reach_inv st Hr).
Qed.

(** (C6) Recording a key message numbered 1-4 appends exactly that
    record to the key history (nothing overwritten or evicted), sets the
    message's bit of the mask and clears none, appends its condensed form
    to the nonce history the caller selected and leaves the other one as
    it was, and does not count it as a WPS M3 message. *)
Theorem record_eapol_appends st e sel :
  1 <= eapol.eapol_msg_num e <= 4 -> in_width 8 (wpa_present_handshake (st_dev st)) ->
  let d := st_dev st in
  let d' := st_dev (record_eapol st e sel) in
  key_history d' = key_history d ++ [e] /\
  Z.testbit (wpa_present_handshake d') (eapol.eapol_msg_num e - 1) = true /\
  (forall i, Z.testbit (wpa_present_handshake d) i = true ->
             Z.testbit (wpa_present_handshake d') i = true) /\
  nonce_history d' = nonce_history d ++ (if sel is SelNonce then [nonce.condense e] else []) /\
  anonce_history d' = anonce_history d ++ (if sel is SelANonce then [nonce.condense e] else []) /\
  wps_m3_count d' = wps_m3_count d.
Proof.
  intros Hm Hw. destruct (record_eapol_fields st e sel) as (Hk & _ & Hn & Ha & Hc).
  cbn zeta. rewrite (record_mask st e Hm Hw sel).
  split_wf; [exact Hk | | | exact Hn | exact Ha | exact Hc].
  - rewrite Z.lor_spec, hs_bit_testbit by lia. apply orb_true_iff. right. apply Z.eqb_eq. lia.
  - intros i Hi. now apply lor_keeps_bits.
Qed.

(** ** Witnesses: M1 then M3 recorded on a fresh device *)

Lemma handshake_mask_reflects_history_witness :
  hs_reach (record_eapol (record_eapol init_state m1_record SelANonce)
              (eapol.set_eapol_msg_num eapol.new_eapol 3) SelNonce) /\
  Z.testbit (wpa_present_handshake (st_dev (record_eapol (record_eapol init_state m1_record SelANonce)
              (eapol.set_eapol_msg_num eapol.new_eapol 3) SelNonce))) 2 =
  has_msg (st_dev (record_eapol (record_eapol init_state m1_record SelANonce)
              (eapol.set_eapol_msg_num eapol.new_eapol 3) SelNonce)) 3.
Proof.
  assert (H : hs_reach (record_eapol (record_eapol init_state m1_record SelANonce)
              (eapol.set_eapol_msg_num eapol.new_eapol 3) SelNonce))
    by (apply hs_record; [apply hs_record; [apply hs_init | vm_compute; split; congruence] |
                      vm_compute; split; congruence]).
  split; [exact H | apply (handshake_mask_reflects_history _ H 2); lia].
Defined.

Lemma record_eapol_appends_witness :
  1 <= eapol.eapol_msg_num (msg_record 3) <= 4 /\
  in_width 8 (wpa_present_handshake (st_dev (record_eapol init_state m1_record SelANonce))) /\
  nonce_history (st_dev (record_eapol (record_eapol init_state m1_record SelANonce) (msg_record 3) SelNonce)) =
    [nonce.condense (msg_record 3)].
Proof.
  assert (Hm : 1 <= eapol.eapol_msg_num (msg_record 3) <= 4) by (vm_compute; split; congruence).
  assert (Hw : in_width 8 (wpa_present_handshake (st_dev (record_eapol init_state m1_record SelANonce))))
    by (vm_compute; split; congruence).
  split; [exact Hm | split; [exact Hw |]].
  destruct (record_eapol_appends _ _ SelNonce Hm Hw) as (_ & _ & _ & Hn & _). rewrite Hn. reflexivity.
Defined.
