(* ===== verification/Regex.v ===== *)
(** * Regular expressions of the SSID watchlist

    [dot11_tracked_ssid_alert] compiles its pattern with PCRE (lines
    280-283).  PCRE is a library the sources only call; this file
    gives the watchlist a regex engine of its own, from the spec
    (section 4.4): a pattern is parsed once (the cached compilation),
    invalid patterns are rejected, and matching is a search for the
    pattern anywhere in the SSID unless anchored by [^] / [$].
    - syntax: literals, [.], [\c] escapes, grouping, [|], [*], [+], [?],
      character classes [[...]] with ranges, a leading [^] negating and
      a leading []] or trailing [-] taken literally; [^] only as the first
      character, [$] only as the last;
    - the parser is a left-to-right stack machine, structural on the
      pattern (no fuel), with a sub-state while inside a class
      ([class_st], [class_step]), returning [inl] an error or [inr] a
      regex;
    - the matcher takes Brzozowski derivatives, structural on the SSID;
    - [re_match] is the reference semantics; [matches_correct] proves the
      matcher equals it. *)

From S2P Require Import Prelude.
From Stdlib Require Import Ascii String.

Inductive regex :=
| RNone
| REps
| RChar (c : ascii)
| RAny
| RClass (ci neg : bool) (items : list (ascii * ascii))
| RAlt (r1 r2 : regex)
| RSeq (r1 r2 : regex)
| RStar (r : regex).

(** A character class: ranges of characters, the class negated by a
    leading [^], letters of either case when compiled caseless. *)
Definition in_range (c : ascii) (r : ascii * ascii) : bool :=
  (nat_of_ascii r.1 <=? nat_of_ascii c)%nat && (nat_of_ascii c <=? nat_of_ascii r.2)%nat.

Definition ascii_lower (c : ascii) : ascii :=
  let n := nat_of_ascii c in
  if (65 <=? n)%nat && (n <=? 90)%nat then ascii_of_nat (n + 32) else c.
Definition ascii_upper (c : ascii) : ascii :=
  let n := nat_of_ascii c in
  if (97 <=? n)%nat && (n <=? 122)%nat then ascii_of_nat (n - 32) else c.

Definition class_mem (ci neg : bool) (items : list (ascii * ascii)) (c : ascii) : bool :=
  xorb neg (existsb (in_range c) items ||
            ci && (existsb (in_range (ascii_lower c)) items || existsb (in_range (ascii_upper c)) items)).

(** ** Reference semantics *)

Inductive re_match : regex -> list ascii -> Prop :=
| m_eps : re_match REps []
| m_char c : re_match (RChar c) [c]
| m_any c : re_match RAny [c]
| m_class ci neg items c : class_mem ci neg items c = true -> re_match (RClass ci neg items) [c]
| m_alt_l r1 r2 s : re_match r1 s -> re_match (RAlt r1 r2) s
| m_alt_r r1 r2 s : re_match r2 s -> re_match (RAlt r1 r2) s
| m_seq r1 r2 s1 s2 : re_match r1 s1 -> re_match r2 s2 -> re_match (RSeq r1 r2) (s1 ++ s2)
| m_star_nil r : re_match (RStar r) []
| m_star_app r s1 s2 : re_match r s1 -> re_match (RStar r) s2 -> re_match (RStar r) (s1 ++ s2).

(** ** Derivative matcher *)

Fixpoint nullable (r : regex) : bool :=
  match r with
  | RNone | RChar _ | RAny | RClass _ _ _ => false
  | REps | RStar _ => true
  | RAlt r1 r2 => nullable r1 || nullable r2
  | RSeq r1 r2 => nullable r1 && nullable r2
  end.

Fixpoint deriv (c : ascii) (r : regex) : regex :=
  match r with
  | RNone | REps => RNone
  | RChar d => if ascii_dec c d then REps else RNone
  | RAny => REps
  | RClass ci neg items => if class_mem ci neg items c then REps else RNone
  | RAlt r1 r2 => RAlt (deriv c r1) (deriv c r2)
  | RSeq r1 r2 =>
      if nullable r1 then RAlt (RSeq (deriv c r1) r2) (deriv c r2)
      else RSeq (deriv c r1) r2
  | RStar r1 => RSeq (deriv c r1) (RStar r1)
  end.

Fixpoint matches (r : regex) (s : list ascii) : bool :=
  match s with
  | [] => nullable r
  | c :: s' => matches (deriv c r) s'
  end.

(** ** Parsing patterns *)

Inductive regex_error :=
| ErrUnbalanced         (** a [)] without its [(] *)
| ErrMissingParen       (** a [(] never closed *)
| ErrNothingToRepeat    (** a quantifier with no atom before it *)
| ErrTrailingEscape     (** a [\] at the end *)
| ErrMisplacedAnchor    (** [^] after the start or [$] before the end *)
| ErrMissingBracket     (** a [[] never closed *)
| ErrRangeOrder.        (** [x-y] in a class or [{n,m}] with [y < x] or [m < n] *)

(** One open group: its finished alternatives and the atoms of the
    current alternative, both most recent first. *)
Record frame := mk_frame { fr_alts : list regex; fr_seq : list regex }.

Definition empty_frame : frame := mk_frame [] [].

Definition seq_of (atoms : list regex) : regex :=
  fold_left (fun acc a => RSeq a acc) atoms REps.

Definition alt_of (f : frame) : regex :=
  fold_left (fun acc a => RAlt a acc) (fr_alts f) (seq_of (fr_seq f)).

(** A literal; under caseless matching both cases of a letter. *)
Definition lit (caseless : bool) (c : ascii) : regex :=
  if caseless && negb (Ascii.eqb (ascii_lower c) (ascii_upper c))
  then RAlt (RChar (ascii_lower c)) (RChar (ascii_upper c))
  else RChar c.

Definition push_atom (a : regex) (fs : list frame) : list frame :=
  match fs with
  | f :: fs' => mk_frame (fr_alts f) (a :: fr_seq f) :: fs'
  | [] => []
  end.

(** A quantifier rewrites the last atom of the current alternative. *)
Definition quantify (q : regex -> regex) (fs : list frame) : regex_error + list frame :=
  match fs with
  | mk_frame alts (a :: atoms) :: fs' => inr (mk_frame alts (q a :: atoms) :: fs')
  | _ => inl ErrNothingToRepeat
  end.

(** A class being read: its members so far (most recent first), whether
    it is negated, and where the reader is in it. *)
Record class_st := mk_class {
  cl_neg : bool;                    (** a [^] right after the [[] *)
  cl_items : list (ascii * ascii);
  cl_caret : bool;                  (** right after the [[]: [^] negates *)
  cl_open : bool;                   (** no member yet: []] is a member *)
  cl_single : bool;                 (** the last member is one character *)
  cl_dash : bool;                   (** a [-] followed that character *)
}.

Definition class_start : class_st := mk_class false [] true true false false.

(** A member character: the end of a range after [x-], else a member
    of its own. *)
Definition class_add (st : class_st) (c : ascii) : regex_error + class_st :=
  match cl_dash st, cl_items st with
  | true, (lo, _) :: items =>
      if (nat_of_ascii c <? nat_of_ascii lo)%nat then inl ErrRangeOrder
      else inr (mk_class (cl_neg st) ((lo, c) :: items) false false false false)
  | _, items => inr (mk_class (cl_neg st) ((c, c) :: items) false false true false)
  end.

Inductive class_out := ClassMore (st : class_st) (esc : bool) | ClassDone (r : regex).

(** One character inside [[...]]; [esc] when the previous one was an
    unescaped [\]. *)
Definition class_step (ci : bool) (st : class_st) (esc : bool) (c : ascii) : regex_error + class_out :=
  let member := match class_add st c with inl e => inl e | inr st' => inr (ClassMore st' false) end in
  if esc then member
  else if Ascii.eqb c "\" then inr (ClassMore st true)
  else if Ascii.eqb c "^" && cl_caret st then
    inr (ClassMore (mk_class true [] false true false false) false)
  else if Ascii.eqb c "]" && negb (cl_open st) then
    inr (ClassDone (RClass ci (cl_neg st) (if cl_dash st then ("-"%char, "-"%char) :: cl_items st else cl_items st)))
  else if Ascii.eqb c "-" && cl_single st && negb (cl_dash st) then
    inr (ClassMore {| cl_neg := cl_neg st; cl_items := cl_items st; cl_caret := false;
                      cl_open := false; cl_single := false; cl_dash := true |} false)
  else member.

(** Counted repetition [a{n}], [a{n,}], [a{n,m}]. *)
Fixpoint rep_n (n : nat) (a : regex) : regex :=
  match n with O => REps | S k => RSeq a (rep_n k a) end.

Fixpoint rep_upto (n : nat) (a : regex) : regex :=
  match n with O => REps | S k => RAlt REps (RSeq a (rep_upto k a)) end.

Definition counted (lo : nat) (hi : option nat) (a : regex) : regex :=
  RSeq (rep_n lo a) (match hi with None => RStar a | Some h => rep_upto (h - lo) a end).

Definition is_digit (d : ascii) : bool :=
  (48 <=? nat_of_ascii d)%nat && (nat_of_ascii d <=? 57)%nat.

(** A non-empty run of decimal digits. *)
Definition digits_val (ds : list ascii) : option nat :=
  match ds with
  | [] => None
  | _ => fold_left (fun acc d => n ← acc; if is_digit d then Some (10 * n + (nat_of_ascii d - 48))%nat else None)
           ds (Some 0%nat)
  end.

(** The text between [{] and [}]: [n], [n,] or [n,m]; anything else is
    not a quantifier. *)
Definition parse_bounds (acc : list ascii) : option (nat * option nat) :=
  match list_find (fun d => d = ","%char) acc with
  | None => n ← digits_val acc; Some (n, Some n)
  | Some (i, _) =>
      let lo := take i acc in
      let hi := drop (S i) acc in
      n ← digits_val lo;
      match hi with
      | [] => Some (n, None)
      | _ => m ← digits_val hi; Some (n, Some m)
      end
  end.

(** The parser's state: [ps_frames] the open groups (innermost first),
    [ps_class] the class being read, [ps_esc] whether the previous
    character was an unescaped [\], [ps_rep] the text read after a [{],
    [ps_end] whether the end anchor [$] was read. *)
Record pstate := mk_pstate {
  ps_frames : list frame;
  ps_class : option class_st;
  ps_esc : bool;
  ps_rep : option (list ascii);
  ps_end : bool;
}.

Definition at_frames (fs : list frame) : pstate := mk_pstate fs None false None false.

Definition push_literals (ci : bool) (ds : list ascii) (fs : list frame) : list frame :=
  fold_left (fun fs d => push_atom (lit ci d) fs) ds fs.

Definition then_frames (r : regex_error + list frame) : regex_error + pstate :=
  match r with inl e => inl e | inr fs => inr (at_frames fs) end.

(** One character outside classes and braces. *)
Definition main_char (ci : bool) (st : pstate) (c : ascii) : regex_error + pstate :=
  let fs := ps_frames st in
  if ps_esc st then inr (at_frames (push_atom (lit ci c) fs))
  else if Ascii.eqb c "\" then inr (mk_pstate fs None true None false)
  else if Ascii.eqb c "[" then inr (mk_pstate fs (Some class_start) false None false)
  else if Ascii.eqb c "{" then inr (mk_pstate fs None false (Some []) false)
  else if Ascii.eqb c "(" then inr (at_frames (empty_frame :: fs))
  else if Ascii.eqb c ")" then
    match fs with
    | f :: (_ :: _) as fs' => inr (at_frames (push_atom (alt_of f) fs'))
    | _ => inl ErrUnbalanced
    end
  else if Ascii.eqb c "|" then
    match fs with
    | f :: fs' => inr (at_frames (mk_frame (seq_of (fr_seq f) :: fr_alts f) [] :: fs'))
    | [] => inl ErrUnbalanced
    end
  else if Ascii.eqb c "*" then then_frames (quantify RStar fs)
  else if Ascii.eqb c "+" then then_frames (quantify (fun a => RSeq a (RStar a)) fs)
  else if Ascii.eqb c "?" then then_frames (quantify (fun a => RAlt REps a) fs)
  else if Ascii.eqb c "." then inr (at_frames (push_atom RAny fs))
  else if Ascii.eqb c "^" then inl ErrMisplacedAnchor
  else if Ascii.eqb c "$" then inr (mk_pstate fs None false None true)
  else inr (at_frames (push_atom (lit ci c) fs)).

(** One character after a [{]: digits and one comma are collected; a
    [}] ends a quantifier, or the text if it is none; any other character
    makes the [{] and what followed it literals. *)
Definition rep_char (ci : bool) (fs : list frame) (acc : list ascii) (c : ascii) : regex_error + pstate :=
  if is_digit c || (Ascii.eqb c "," && negb (existsb (Ascii.eqb ","%char) acc)) then
    inr (mk_pstate fs None false (Some (acc ++ [c])) false)
  else if Ascii.eqb c "}" then
    match parse_bounds acc with
    | Some (n, Some m) => if (m <? n)%nat then inl ErrRangeOrder else then_frames (quantify (counted n (Some m)) fs)
    | Some (n, None) => then_frames (quantify (counted n None) fs)
    | None => inr (at_frames (push_literals ci ("{"%char :: acc ++ ["}"%char]) fs))
    end
  else main_char ci (at_frames (push_literals ci ("{"%char :: acc) fs)) c.

Definition parse_step (ci : bool) (st : pstate) (c : ascii) : regex_error + pstate :=
  if ps_end st then inl ErrMisplacedAnchor else
  match ps_class st with
  | Some cl =>
      match class_step ci cl (ps_esc st) c with
      | inl e => inl e
      | inr (ClassMore cl' esc') => inr (mk_pstate (ps_frames st) (Some cl') esc' None false)
      | inr (ClassDone r) => inr (at_frames (push_atom r (ps_frames st)))
      end
  | None =>
      match ps_rep st with
      | Some acc => rep_char ci (ps_frames st) acc c
      | None => main_char ci st c
      end
  end.

Definition parse_finish (ci : bool) (st : pstate) : regex_error + (regex * bool) :=
  if ps_esc st then inl ErrTrailingEscape else
  if ps_class st is Some _ then inl ErrMissingBracket else
  let fs := match ps_rep st with
            | Some acc => push_literals ci ("{"%char :: acc) (ps_frames st)
            | None => ps_frames st
            end in
  match fs with
  | [f] => inr (alt_of f, ps_end st)
  | [] => inl ErrUnbalanced
  | _ => inl ErrMissingParen
  end.

(** The parser: one step per character, structural on the pattern. *)
Fixpoint parse_chars (ci : bool) (st : pstate) (s : list ascii) : regex_error + (regex * bool) :=
  match s with
  | [] => parse_finish ci st
  | c :: s' =>
      match parse_step ci st c with
      | inl e => inl e
      | inr st' => parse_chars ci st' s'
      end
  end.

(** A compiled pattern: start anchor, body, end anchor. *)
Record compiled := mk_compiled { anchor_start : bool; body : regex; anchor_end : bool }.

Definition compile_regex (caseless : bool) (p : string) : regex_error + compiled :=
  let cs := list_ascii_of_string p in
  let '(a0, rest) := match cs with
                     | c :: cs' => if Ascii.eqb c "^" then (true, cs') else (false, cs)
                     | [] => (false, [])
                     end in
  match parse_chars caseless (at_frames [empty_frame]) rest with
  | inl e => inl e
  | inr (r, a1) => inr (mk_compiled a0 r a1)
  end.

(** PCRE's search semantics: an unanchored side may skip any text. *)
Definition search_re (c : compiled) : regex :=
  RSeq (if anchor_start c then REps else RStar RAny)
       (RSeq (body c) (if anchor_end c then REps else RStar RAny)).

Definition regex_matches (c : compiled) (ssid : string) : bool :=
  matches (search_re c) (list_ascii_of_string ssid).

(** ** Correctness of the matcher *)

Lemma nullable_correct r : nullable r = true <-> re_match r [].
Proof.
  induction r; simpl; split; intros H;
    try discriminate; try (inversion H; fail); try reflexivity;
    try (constructor; fail).
  - apply orb_true_iff in H as [H | H]; [apply m_alt_l, IHr1 | apply m_alt_r, IHr2]; exact H.
  - apply orb_true_iff. inversion H; subst; [left; apply IHr1 | right; apply IHr2]; assumption.
  - apply andb_true_iff in H as [H1 H2].
    change (@nil ascii) with ([] ++ [] : list ascii). constructor; [apply IHr1 | apply IHr2]; assumption.
  - apply andb_true_iff. inversion H; subst.
    match goal with Hx : _ ++ _ = [] |- _ => apply app_eq_nil in Hx as [-> ->] end.
    split; [apply IHr1 | apply IHr2]; assumption.
Qed.

(** A non-empty word in a star starts with a non-empty chunk. *)
Lemma star_cons_inv r c s :
  re_match (RStar r) (c :: s) ->
  exists s1 s2, s = s1 ++ s2 /\ re_match r (c :: s1) /\ re_match (RStar r) s2.
Proof.
  intros H. remember (RStar r) as rs eqn:Er. remember (c :: s) as w eqn:Ew.
  revert s Ew. induction H as [| | | | | | | | r' s1 s2 H1 IH1 H2 IH2]; intros s0 Ew;
    try discriminate.
  injection Er as ->. destruct s1 as [| c1 s1].
  - simpl in Ew. apply IH2; [reflexivity | exact Ew].
  - injection Ew as Hc Hs. subst. exists s1, s2. auto.
Qed.

Lemma seq_inv r1 r2 w :
  re_match (RSeq r1 r2) w -> exists s1 s2, w = s1 ++ s2 /\ re_match r1 s1 /\ re_match r2 s2.
Proof. intros H. inversion H; subst. eauto. Qed.

Lemma alt_inv r1 r2 w : re_match (RAlt r1 r2) w -> re_match r1 w \/ re_match r2 w.
Proof. intros H. inversion H; subst; auto. Qed.

Lemma deriv_correct c r s : re_match (deriv c r) s <-> re_match r (c :: s).
Proof.
  revert s. induction r; intros s; simpl.
  - split; intros H; inversion H.
  - split; intros H; inversion H.
  - destruct (ascii_dec c c0) as [-> | Hne]; split; intros H; inversion H; subst; try constructor.
    contradiction.
  - split; intros H; inversion H; subst; constructor.
  - destruct (class_mem ci neg items c) eqn:E; split; intros H; inversion H; subst;
      try constructor; congruence.
  - split; intros H; apply alt_inv in H as [H | H];
      [apply m_alt_l, IHr1 | apply m_alt_r, IHr2 | apply m_alt_l, IHr1 | apply m_alt_r, IHr2];
      assumption.
  - split; intros H.
    + assert (Hs : forall w, re_match (RSeq (deriv c r1) r2) w -> re_match (RSeq r1 r2) (c :: w)).
      { intros w Hw. apply seq_inv in Hw as (s1 & s2 & -> & H1 & H2).
        rewrite app_comm_cons. constructor; [apply IHr1 |]; assumption. }
      destruct (nullable r1) eqn:Hn; [apply alt_inv in H as [H | H] |]; auto.
      change (c :: s) with ([] ++ c :: s).
      constructor; [apply nullable_correct | apply IHr2]; assumption.
    + apply seq_inv in H as (s1 & s2 & Heq & H1 & H2). destruct s1 as [| c1 s1].
      * simpl in Heq. subst. assert (Hn : nullable r1 = true) by (apply nullable_correct; assumption).
        rewrite Hn. apply m_alt_r, IHr2. assumption.
      * injection Heq as Hc Hs. subst.
        assert (Hd : re_match (RSeq (deriv c1 r1) r2) (s1 ++ s2)) by (constructor; [apply IHr1 |]; assumption).
        destruct (nullable r1); [apply m_alt_l |]; exact Hd.
  - split; intros H.
    + apply seq_inv in H as (s1 & s2 & -> & H1 & H2).
      rewrite app_comm_cons. constructor; [apply IHr |]; assumption.
    + apply star_cons_inv in H as (s1 & s2 & -> & H1 & H2). constructor; [apply IHr |]; assumption.
Qed.

(** The derivative matcher decides the reference semantics. *)
Theorem matches_correct r s : matches r s = true <-> re_match r s.
Proof.
  revert r. induction s as [| c s IH]; intros r; simpl.
  - apply nullable_correct.
  - rewrite IH. apply deriv_correct.
Qed.

(** ** Counted repetition *)

(** [a{n}] matches exactly the concatenations of [n] words of [a]. *)
Lemma rep_n_correct n a w :
  re_match (rep_n n a) w <-> exists ws, List.length ws = n /\ Forall (re_match a) ws /\ w = List.concat ws.
Proof.
  revert w. induction n as [| n IH]; intros w; simpl; split.
  - intros H. inversion H. by exists [].
  - intros ([| ? ?] & Hl & _ & ->); [constructor | discriminate].
  - intros H. apply seq_inv in H as (w1 & w2 & -> & H1 & H2).
    apply IH in H2 as (ws & Hl & Hf & ->). exists (w1 :: ws). simpl. auto.
  - intros ([| w1 ws] & Hl & Hf & ->); [discriminate |].
    inversion Hf; subst. simpl. constructor; [done |]. apply IH. exists ws. auto.
Qed.

(** [(a?){m}] nested: between none and [m] words of [a]. *)
Lemma rep_upto_correct m a w :
  re_match (rep_upto m a) w <-> exists ws, (List.length ws <= m)%nat /\ Forall (re_match a) ws /\ w = List.concat ws.
Proof.
  revert w. induction m as [| m IH]; intros w; simpl; split.
  - intros H. inversion H. exists []. simpl. auto with lia.
  - intros ([| ? ?] & Hl & _ & ->); [constructor | simpl in Hl; lia].
  - intros H. apply alt_inv in H as [H | H].
    + inversion H. exists []. simpl. auto with lia.
    + apply seq_inv in H as (w1 & w2 & -> & H1 & H2).
      apply IH in H2 as (ws & Hl & Hf & ->). exists (w1 :: ws). simpl. auto with lia.
  - intros ([| w1 ws] & Hl & Hf & ->); [apply m_alt_l; constructor |].
    inversion Hf; subst. apply m_alt_r. simpl. constructor; [done |].
    apply IH. exists ws. simpl in Hl. auto with lia.
Qed.

(** [a*] matches exactly the concatenations of words of [a]. *)
Lemma star_correct a w :
  re_match (RStar a) w <-> exists ws, Forall (re_match a) ws /\ w = List.concat ws.
Proof.
  split.
  - intros H. remember (RStar a) as r eqn:Er. induction H; try discriminate; injection Er as ->.
    + by exists [].
    + destruct (IHre_match2 eq_refl) as (ws & Hf & ->). exists (s1 :: ws). auto.
  - intros (ws & Hf & ->). induction Hf as [| w ws Hw _ IH]; simpl; constructor; assumption.
Qed.

Lemma concat_app_split {X} (ws : list (list X)) n :
  List.concat ws = List.concat (take n ws) ++ List.concat (drop n ws).
Proof. by rewrite <- concat_app, take_drop. Qed.

(** [a{n,m}] with [n <= m] and [a{n,}]: between [n] and [m] words of [a],
    or at least [n]. *)
Lemma counted_correct n hi a w :
  (forall m, hi = Some m -> (n <= m)%nat) ->
  re_match (counted n hi a) w <->
  exists ws, (n <= List.length ws)%nat /\ (forall m, hi = Some m -> (List.length ws <= m)%nat) /\
    Forall (re_match a) ws /\ w = List.concat ws.
Proof.
  intros Hhi. unfold counted. split.
  - intros H. apply seq_inv in H as (w1 & w2 & -> & H1 & H2).
    apply rep_n_correct in H1 as (ws1 & Hl1 & Hf1 & ->).
    destruct hi as [m |].
    + apply rep_upto_correct in H2 as (ws2 & Hl2 & Hf2 & ->). specialize (Hhi m eq_refl).
      exists (ws1 ++ ws2). rewrite length_app, concat_app.
      split_and!; [lia | intros ? [= <-]; lia | by apply Forall_app | done].
    + apply star_correct in H2 as (ws2 & Hf2 & ->).
      exists (ws1 ++ ws2). rewrite length_app, concat_app.
      split_and!; [lia | done | by apply Forall_app | done].
  - intros (ws & Hn & Hm & Hf & ->). rewrite (concat_app_split ws n).
    rewrite <- (take_drop n ws) in Hf. apply Forall_app in Hf as [Hf1 Hf2].
    constructor; [apply rep_n_correct; exists (take n ws); split_and!; [rewrite length_take; lia | done | done] |].
    destruct hi as [m |].
    + apply rep_upto_correct. exists (drop n ws). specialize (Hm m eq_refl).
      split_and!; [rewrite length_drop; lia | done | done].
    + apply star_correct. by exists (drop n ws).
Qed.

(** ** Search semantics *)

Lemma any_star_all w : re_match (RStar RAny) w.
Proof.
  induction w as [| c w IH]; [constructor |].
  change (c :: w) with ([c] ++ w). constructor; [constructor | exact IH].
Qed.

Lemma anchor_side_match (a : bool) w :
  re_match (if a then REps else RStar RAny) w <-> (a = true -> w = []).
Proof.
  destruct a; split; intros H.
  - inversion H. reflexivity.
  - rewrite H by reflexivity. constructor.
  - discriminate.
  - apply any_star_all.
Qed.

(** The search regex of a compiled pattern accepts an SSID iff the
    pattern's body matches some infix of it, which starts at the beginning
    when the pattern is anchored by [^] and ends at the end when it is
    anchored by [$]. *)
Theorem search_re_semantics c ssid :
  re_match (search_re c) (list_ascii_of_string ssid) <->
  exists pre mid post,
    list_ascii_of_string ssid = pre ++ mid ++ post /\ re_match (body c) mid /\
    (anchor_start c = true -> pre = []) /\ (anchor_end c = true -> post = []).
Proof.
  unfold search_re. split.
  - intros H. apply seq_inv in H as (pre & w & Hw & Hpre & H).
    apply seq_inv in H as (mid & post & -> & Hmid & Hpost).
    exists pre, mid, post. rewrite anchor_side_match in Hpre, Hpost. auto.
  - intros (pre & mid & post & -> & Hmid & Hs & He).
    constructor; [apply anchor_side_match, Hs |].
    constructor; [exact Hmid | apply anchor_side_match, He].
Qed.
