(* ===== verification/Watchlist.v ===== *)
(** * The SSID watchlist matcher ([dot11_tracked_ssid_alert], lines 189-284)

    State: a group name, the pattern text ([ssid_regex]), the exempt MACs
    ([allowed_macs_vec]) and the compiled pattern ([ssid_re] with
    [ssid_study], one [pcre_ptr] here).  The constructors and destructor
    are modelled with their preprocessor guards as written: lines 193 and
    205 test [HAVE_LIBPCRE], but lines 216, 227 and 240 test
    [HAVE_LIBCPRE], a macro no configuration defines.  So the
    deserialising and copy constructors leave [ssid_re] uninitialised
    ([PcreUninit]) and the destructor never frees a compiled pattern.
    [set_regex], [set_allowed_macs] and [compare_ssid] are defined in the
    .cc; they follow the spec (section 4.4).  Here each call is atomic;
    [MatcherLock] shows that calls interleaved under [ssid_mutex] behave
    as whole calls in some order. *)

From S2P Require Import Prelude Tracker Regex.
From Stdlib Require Import Ascii String.

(** [config.h] of a PCRE build defines [HAVE_LIBPCRE] only. *)
Definition HAVE_LIBPCRE : bool := true.
Definition HAVE_LIBCPRE : bool := false.

(** The [pcre *] member: null, a compiled pattern, or never written. *)
Inductive pcre_ptr := PcreNull | PcreCompiled (c : compiled) | PcreUninit.

Module alert.

Record dot11_tracked_ssid_alert := mk_alert {
  ssid_group_name : string;
  ssid_regex : string;
  allowed_macs_vec : list mac_addr;
  ssid_re : pcre_ptr;
}.

(** [dot11_tracked_ssid_alert()] and [(int in_id)] (lines 191-212). *)
Definition new_alert : dot11_tracked_ssid_alert :=
  mk_alert "" "" [] (if HAVE_LIBPCRE then PcreNull else PcreUninit).

(** [(int in_id, shared_ptr<tracker_element_map> e)] (lines 214-223):
    the fields come from the stored map [e]. *)
Definition alert_of_map (group regex : string) (macs : list mac_addr) : dot11_tracked_ssid_alert :=
  mk_alert group regex macs (if HAVE_LIBCPRE then PcreNull else PcreUninit).

(** The copy constructor (lines 225-237). *)
Definition clone_alert (p : dot11_tracked_ssid_alert) : dot11_tracked_ssid_alert :=
  mk_alert (ssid_group_name p) (ssid_regex p) (allowed_macs_vec p)
    (if HAVE_LIBCPRE then PcreNull else PcreUninit).

(** The destructor (lines 239-246): the compiled patterns it frees. *)
Definition destroy_alert (a : dot11_tracked_ssid_alert) : list compiled :=
  if HAVE_LIBCPRE then
    match ssid_re a with PcreCompiled c => [c] | _ => [] end
  else [].

(** Lines 248-256. *)
#[global] Instance alert_component : TrackerComponent dot11_tracked_ssid_alert := {
  tracker_signature := adler32_checksum "dot11_tracked_ssid_alert";
  clone_type := clone_alert;
}.

(** [set_group_name] (line 258). *)
Definition set_group_name (a : dot11_tracked_ssid_alert) (s : string) :=
  {| a with ssid_group_name := s |}.

(** [get_regex] (line 261, [__ProxyGet]). *)
Definition get_regex (a : dot11_tracked_ssid_alert) : string := ssid_regex a.

(** [set_regex] (line 262): validate and compile; an invalid pattern is
    reported and the matcher is left as it was. *)
Definition set_regex (a : dot11_tracked_ssid_alert) (s : string)
  : dot11_tracked_ssid_alert * option regex_error :=
  match compile_regex true s with
  | inl e => (a, Some e)
  | inr c => ({| a with ssid_regex := s; ssid_re := PcreCompiled c |}, None)
  end.

(** [set_allowed_macs] (line 266). *)
Definition set_allowed_macs (a : dot11_tracked_ssid_alert) (macs : list mac_addr) :=
  {| a with allowed_macs_vec := macs |}.

(** The setter [__ProxyTrackable(allowed_macs_vec, ...)] generates
    (line 264): the vector replaced as a whole, without the mutex. *)
Definition set_tracker_allowed_macs_vec (a : dot11_tracked_ssid_alert) (v : list mac_addr) :=
  {| a with allowed_macs_vec := v |}.

Definition mac_exempt (a : dot11_tracked_ssid_alert) (mac : mac_addr) : bool :=
  existsb (Z.eqb mac) (allowed_macs_vec a).

(** [compare_ssid] (line 268): [None] is the undefined behaviour of
    using an uninitialised [pcre *]; without a pattern nothing matches. *)
Definition compare_ssid (a : dot11_tracked_ssid_alert) (ssid : string) (mac : mac_addr) : option bool :=
  match ssid_re a with
  | PcreUninit => None
  | PcreNull => Some false
  | PcreCompiled c => Some (negb (mac_exempt a mac) && regex_matches c ssid)
  end.

(** The calls of the configuration and alerting layers. *)
Inductive alert_op :=
| ASetRegex (s : string) | ASetAllowedMacs (macs : list mac_addr) | ASetGroupName (s : string)
| ASetTrackerAllowedMacsVec (v : list mac_addr).

Definition alert_step (a : dot11_tracked_ssid_alert) (op : alert_op) : dot11_tracked_ssid_alert :=
  match op with
  | ASetRegex s => (set_regex a s).1
  | ASetAllowedMacs m => set_allowed_macs a m
  | ASetGroupName s => set_group_name a s
  | ASetTrackerAllowedMacsVec v => set_tracker_allowed_macs_vec a v
  end.

(** The cached compilation is the compilation of the stored pattern. *)
Definition cache_coherent (a : dot11_tracked_ssid_alert) : Prop :=
  forall c, ssid_re a = PcreCompiled c -> compile_regex true (ssid_regex a) = inr c.

End alert.

Import alert.

(** The spec's worked example: pattern [^Linksys$], one exempt MAC. *)
Definition linksys_alert : dot11_tracked_ssid_alert :=
  set_allowed_macs (set_regex new_alert "^Linksys$").1 [0xAABBCCDDEEFF].

Lemma mac_exempt_spec a m : mac_exempt a m = true <-> In m (allowed_macs_vec a).
Proof.
  unfold mac_exempt. rewrite existsb_exists. split.
  - intros (x & Hx & Heq). apply Z.eqb_eq in Heq. subst. exact Hx.
  - intros H. exists m. split; [exact H | apply Z.eqb_refl].
Qed.

(** With a compiled pattern, [compare_ssid] is true iff the pattern
    matches the SSID and the MAC is not exempt. *)
Theorem compare_ssid_spec a c ssid mac :
  ssid_re a = PcreCompiled c ->
  compare_ssid a ssid mac = Some true <->
  regex_matches c ssid = true /\ ~ In mac (allowed_macs_vec a).
Proof.
  intros Hc. unfold compare_ssid. rewrite Hc, <- mac_exempt_spec. split.
  - intros H. injection H as H. apply andb_true_iff in H as [H1 H2].
    split; [exact H2 | apply negb_true_iff in H1; congruence].
  - intros [H1 H2]. apply not_true_is_false in H2. rewrite H1, H2. reflexivity.
Qed.

(** (C14) End to end: with a compiled pattern, [compare_ssid] accepts an
    SSID from a non-exempt MAC iff the pattern's body matches an infix of
    the SSID, a prefix when the pattern starts with [^] and a suffix when
    it ends with [$]. *)
Theorem compare_ssid_semantics a c ssid mac :
  ssid_re a = PcreCompiled c ->
  compare_ssid a ssid mac = Some true <->
  ~ In mac (allowed_macs_vec a) /\
  exists pre mid post,
    list_ascii_of_string ssid = pre ++ mid ++ post /\ re_match (body c) mid /\
    (anchor_start c = true -> pre = []) /\ (anchor_end c = true -> post = []).
Proof.
  intros Hc. unfold compare_ssid. rewrite Hc, <- search_re_semantics, <- matches_correct.
  unfold regex_matches. rewrite <- mac_exempt_spec.
  destruct (mac_exempt a mac), (matches _ _); simpl; intuition congruence.
Qed.

(** An exempt MAC never matches, whatever the pattern and SSID. *)
Theorem compare_ssid_exempt a ssid mac :
  In mac (allowed_macs_vec a) -> ssid_re a <> PcreUninit ->
  compare_ssid a ssid mac = Some false.
Proof.
  intros Hin Hu. apply mac_exempt_spec in Hin. unfold compare_ssid.
  destruct (ssid_re a); [reflexivity | rewrite Hin; reflexivity | congruence].
Qed.

(** An invalid pattern is reported and leaves the matcher
    unchanged, so every later comparison answers as before. *)
Theorem set_regex_invalid a p e :
  compile_regex true p = inl e ->
  set_regex a p = (a, Some e) /\
  forall ssid mac, compare_ssid (set_regex a p).1 ssid mac = compare_ssid a ssid mac.
Proof. intros He. unfold set_regex. rewrite He. split; reflexivity. Qed.

(** The spec's worked example: pattern [^Linksys$] (caseless),
    exempt [AA:BB:CC:DD:EE:FF]. *)
Theorem linksys_example :
  compare_ssid linksys_alert "Linksys" 0xAABBCCDDEEFF = Some false /\
  compare_ssid linksys_alert "Linksys" 0x112233445566 = Some true /\
  compare_ssid linksys_alert "NETGEAR" 0x112233445566 = Some false.
Proof. vm_compute. repeat split. Qed.

(** (C15) Because of the [HAVE_LIBCPRE] guards, a cloned (or
    deserialised) matcher compares through an uninitialised pointer until
    a new pattern is set, and destroying a matcher never frees its
    compiled pattern. *)
Theorem clone_leaves_pcre_uninitialised a ssid mac :
  compare_ssid (clone_alert a) ssid mac = None /\
  compare_ssid (alert_of_map (ssid_group_name a) (ssid_regex a) (allowed_macs_vec a)) ssid mac = None /\
  destroy_alert a = [].
Proof. repeat split. Qed.

Lemma alert_step_coherent a op : cache_coherent a -> cache_coherent (alert_step a op).
Proof.
  unfold cache_coherent. intros H c. destruct op; simpl; [| apply H | apply H | apply H].
  unfold set_regex. destruct (compile_regex true s) eqn:E; simpl; [apply H |].
  intros Hc. injection Hc as <-. exact E.
Qed.

(** (C16) Whatever sequence of reconfigurations runs, a comparison never
    uses a compiled pattern other than that of the stored pattern text. *)
Theorem cache_coherent_run ops :
  cache_coherent (fold_left alert_step ops new_alert).
Proof.
  assert (H0 : cache_coherent new_alert) by (intros c Hc; discriminate).
  revert H0. generalize new_alert. induction ops as [| op ops IH]; intros a Ha; [exact Ha |].
  simpl. apply IH, alert_step_coherent, Ha.
Qed.

(** ** Witnesses on the worked example *)

Lemma compare_ssid_spec_witness :
  exists c, ssid_re linksys_alert = PcreCompiled c /\
  (compare_ssid linksys_alert "LINKSYS" 0x112233445566 = Some true <->
   regex_matches c "LINKSYS" = true /\ ~ In 0x112233445566 (allowed_macs_vec linksys_alert)).
Proof.
  exists (match ssid_re linksys_alert with PcreCompiled c => c | _ => mk_compiled false REps false end).
  assert (Hc : ssid_re linksys_alert =
    PcreCompiled (match ssid_re linksys_alert with PcreCompiled c => c | _ => mk_compiled false REps false end))
    by (vm_compute; reflexivity).
  split; [exact Hc | exact (compare_ssid_spec _ _ "LINKSYS" 0x112233445566 Hc)].
Defined.

Lemma compare_ssid_semantics_witness :
  exists c, ssid_re linksys_alert = PcreCompiled c /\
  (compare_ssid linksys_alert "LINKSYS" 0x112233445566 = Some true <->
   ~ In 0x112233445566 (allowed_macs_vec linksys_alert) /\
   exists pre mid post,
     list_ascii_of_string "LINKSYS" = pre ++ mid ++ post /\ re_match (body c) mid /\
     (anchor_start c = true -> pre = []) /\ (anchor_end c = true -> post = [])).
Proof.
  exists (match ssid_re linksys_alert with PcreCompiled c => c | _ => mk_compiled false REps false end).
  assert (Hc : ssid_re linksys_alert =
    PcreCompiled (match ssid_re linksys_alert with PcreCompiled c => c | _ => mk_compiled false REps false end))
    by (vm_compute; reflexivity).
  split; [exact Hc | exact (compare_ssid_semantics _ _ "LINKSYS" 0x112233445566 Hc)].
Defined.

Lemma compare_ssid_exempt_witness :
  In 0xAABBCCDDEEFF (allowed_macs_vec linksys_alert) /\ ssid_re linksys_alert <> PcreUninit /\
  compare_ssid linksys_alert "Linksys" 0xAABBCCDDEEFF = Some false.
Proof.
  assert (Hin : In 0xAABBCCDDEEFF (allowed_macs_vec linksys_alert)) by (simpl; left; reflexivity).
  assert (Hu : ssid_re linksys_alert <> PcreUninit) by (vm_compute; discriminate).
  split; [exact Hin | split; [exact Hu | exact (compare_ssid_exempt _ _ _ Hin Hu)]].
Defined.

Lemma set_regex_invalid_witness :
  compile_regex true "(ab" = inl ErrMissingParen /\
  set_regex linksys_alert "(ab" = (linksys_alert, Some ErrMissingParen).
Proof.
  assert (He : compile_regex true "(ab" = inl ErrMissingParen) by (vm_compute; reflexivity).
  split; [exact He | exact (proj1 (set_regex_invalid linksys_alert _ _ He))].
Defined.
