(* ===== verification/MatcherLock.v ===== *)
(** * The watchlist matcher under concurrent reconfiguration and matching

    [dot11_tracked_ssid_alert] holds a [kis_recursive_timed_mutex
    ssid_mutex] (line 271).  [set_regex], [set_allowed_macs] and
    [compare_ssid] are defined in the .cc; as the spec requires
    (sections 4.4 and 5) each takes [ssid_mutex] for its whole body.  The
    setters the proxy macros generate take no lock: [set_group_name]
    ([__Proxy], line 258) and the replacement of the whole exempt vector
    ([__ProxyTrackable], line 264).  Each is a single store.  The spec
    adds reconfiguration callbacks that evaluate the match from a
    context already holding the mutex ([CCallbackCompare]).

    A thread runs a list of calls on one matcher.  A guarded call is the
    instruction sequence [ILock :: body ++ [IUnlock]].  The body of
    [set_regex] first compiles the pattern into a local.  It then writes
    [ssid_regex] and [ssid_re] as two separate stores, or reports the
    compile error and stores nothing.  The system is the matcher, the
    mutex and a pool of threads indexed by thread id.  [thread_step r t]
    runs the next instruction of thread [t], with a recursive mutex when
    [r] is true and a plain [std::mutex] otherwise.  [sys_step] is any
    such step: every interleaving of the threads' instructions.  Each
    instruction reads and writes fields of the matcher; two threads about
    to make conflicting accesses form a data race ([race]).

    The reference semantics is [Watchlist]'s: each call applied whole, in
    some order ([atomic_run]).  The theorems: the calls of the .cc are
    race-free and serializable; the unlocked exempt-vector setter races
    with [compare_ssid]; the recursive mutex never deadlocks, callbacks
    included; a plain mutex deadlocks a callback. *)

From S2P Require Import Prelude Tracker Regex Watchlist.
Import alert.

(** ** The mutex *)

(** [kis_recursive_timed_mutex ssid_mutex] (line 271): its owner and how
    many times the owner holds it. *)
Record kis_recursive_timed_mutex := mk_mutex {
  mtx_owner : option nat;
  mtx_depth : nat;
}.

Definition mutex_free : kis_recursive_timed_mutex := mk_mutex None 0.

(** [lock()] by thread [t]; [None] is blocking.  A recursive mutex lets
    its owner in again; a plain [std::mutex] blocks it forever. *)
Definition mutex_lock (recursive : bool) (t : nat) (m : kis_recursive_timed_mutex)
  : option kis_recursive_timed_mutex :=
  match mtx_owner m with
  | None => Some (mk_mutex (Some t) 1)
  | Some o =>
      if recursive && bool_decide (o = t) then Some (mk_mutex (Some t) (S (mtx_depth m)))
      else None
  end.

(** [unlock()] by thread [t]: the last unlock frees the mutex; an unlock
    by a thread that does not hold it is undefined ([None]). *)
Definition mutex_unlock (t : nat) (m : kis_recursive_timed_mutex) : option kis_recursive_timed_mutex :=
  match mtx_owner m with
  | Some o =>
      if bool_decide (o = t) then
        Some (if (mtx_depth m <=? 1)%nat then mutex_free else mk_mutex (Some t) (pred (mtx_depth m)))
      else None
  | None => None
  end.

(** ** Instructions and calls *)

Inductive instr :=
| ILock | IUnlock
| IWriteRegex (s : string) | IWriteRe (p : pcre_ptr)
| IWriteMacs (macs : list mac_addr) | IWriteGroup (s : string)
| IMatch (ssid : string) (mac : mac_addr) | IError (e : regex_error).

(** What a call reports to its caller: the result of [compare_ssid], or
    the exception [set_regex] throws on an invalid pattern. *)
Inductive output := OMatch (r : option bool) | OError (e : regex_error).

(** One instruction on the matcher's fields; the lock instructions do not
    touch them. *)
Definition exec_instr (i : instr) (a : dot11_tracked_ssid_alert)
  : dot11_tracked_ssid_alert * list output :=
  match i with
  | IWriteRegex s => ({| a with ssid_regex := s |}, [])
  | IWriteRe p => ({| a with ssid_re := p |}, [])
  | IWriteMacs m => (set_allowed_macs a m, [])
  | IWriteGroup s => (set_group_name a s, [])
  | IMatch ssid mac => (a, [OMatch (compare_ssid a ssid mac)])
  | IError e => (a, [OError e])
  | ILock | IUnlock => (a, [])
  end.

Fixpoint exec_instrs (ins : list instr) (a : dot11_tracked_ssid_alert)
  : dot11_tracked_ssid_alert * list output :=
  match ins with
  | [] => (a, [])
  | i :: ins' =>
      let '(a1, o1) := exec_instr i a in
      let '(a2, o2) := exec_instrs ins' a1 in (a2, o1 ++ o2)
  end.

Inductive call :=
| CSetRegex (s : string)
| CSetAllowedMacs (macs : list mac_addr)
| CSetGroupName (s : string)
| CSetTrackerAllowedMacsVec (v : list mac_addr)
| CCompareSsid (ssid : string) (mac : mac_addr)
| CCallbackCompare (ssid : string) (mac : mac_addr).

(** [CCallbackCompare]: a reconfiguration callback that evaluates
    [compare_ssid] from a context that already holds [ssid_mutex] (spec
    section 4.4), so the mutex is taken a second time by its owner. *)
Definition nested (c : call) : bool :=
  match c with CCallbackCompare _ _ => true | _ => false end.

(** The body of a call, run while [ssid_mutex] is held. *)
Definition call_body (c : call) : list instr :=
  match c with
  | CSetRegex s =>
      match compile_regex true s with
      | inl e => [IError e]
      | inr p => [IWriteRegex s; IWriteRe (PcreCompiled p)]
      end
  | CSetAllowedMacs m => [IWriteMacs m]
  | CSetGroupName s => [IWriteGroup s]
  | CSetTrackerAllowedMacsVec v => [IWriteMacs v]
  | CCompareSsid ssid mac => [IMatch ssid mac]
  | CCallbackCompare ssid mac => [ILock; IMatch ssid mac; IUnlock]
  end.

(** Which calls take [ssid_mutex]: all but the setters the proxy macros
    generate. *)
Definition guarded (c : call) : bool :=
  match c with CSetGroupName _ | CSetTrackerAllowedMacsVec _ => false | _ => true end.

Definition call_instrs (c : call) : list instr :=
  if guarded c then ILock :: call_body c ++ [IUnlock] else call_body c.

(** The calls of the .cc file: each takes [ssid_mutex] once for its
    whole body. *)
Definition locked_call (c : call) : bool := guarded c && negb (nested c).

(** ** The reference: whole calls in sequence *)

Definition atomic_call (c : call) (a : dot11_tracked_ssid_alert)
  : dot11_tracked_ssid_alert * list output :=
  match c with
  | CSetRegex s =>
      let '(a', err) := set_regex a s in
      (a', match err with Some e => [OError e] | None => [] end)
  | CSetAllowedMacs m => (set_allowed_macs a m, [])
  | CSetGroupName s => (set_group_name a s, [])
  | CSetTrackerAllowedMacsVec v => (set_tracker_allowed_macs_vec a v, [])
  | CCompareSsid ssid mac | CCallbackCompare ssid mac => (a, [OMatch (compare_ssid a ssid mac)])
  end.

Definition atomic_step (st : dot11_tracked_ssid_alert * list (nat * output)) (tc : nat * call)
  : dot11_tracked_ssid_alert * list (nat * output) :=
  let '(a', o) := atomic_call tc.2 st.1 in (a', st.2 ++ map (pair tc.1) o).

(** The calls of [log] applied whole in order, from [a0]: the final
    matcher and every output tagged with its thread. *)
Definition atomic_run (a0 : dot11_tracked_ssid_alert) (log : list (nat * call))
  : dot11_tracked_ssid_alert * list (nat * output) :=
  fold_left atomic_step log (a0, []).

(** The part of a tagged sequence that belongs to thread [t]. *)
Definition of_thread {X} (t : nat) (l : list (nat * X)) : list X :=
  map snd (filter (fun x => x.1 = t) l).

(** ** Threads and the system *)

(** A thread: the calls it has still to make, the call it is inside with
    the instructions of it left, and what its calls have returned. *)
Record thread := mk_thread {
  th_todo : list call;
  th_cur : option (call * list instr);
  th_out : list output;
}.

Record sys := mk_sys {
  sys_alert : dot11_tracked_ssid_alert;
  sys_mutex : kis_recursive_timed_mutex;
  sys_threads : list thread;
}.

Definition cont (c : call) (rem : list instr) : option (call * list instr) :=
  match rem with [] => None | _ => Some (c, rem) end.

(** The thread's next instruction, with the position after it. *)
Definition next_instr (th : thread) : option (instr * option (call * list instr) * list call) :=
  match th_cur th with
  | Some (c, i :: rem) => Some (i, cont c rem, th_todo th)
  | _ =>
      match th_todo th with
      | c :: todo =>
          match call_instrs c with
          | i :: rem => Some (i, cont c rem, todo)
          | [] => None
          end
      | [] => None
      end
  end.

(** One instruction of thread [t] on the shared state; [None] when it
    blocks on the mutex (or unlocks a mutex it does not hold). *)
Definition exec_shared (recursive : bool) (t : nat) (i : instr) (a : dot11_tracked_ssid_alert)
    (m : kis_recursive_timed_mutex) : option (dot11_tracked_ssid_alert * kis_recursive_timed_mutex * list output) :=
  match i with
  | ILock => m' ← mutex_lock recursive t m; Some (a, m', [])
  | IUnlock => m' ← mutex_unlock t m; Some (a, m', [])
  | _ => let '(a', o) := exec_instr i a in Some (a', m, o)
  end.

(** Thread [t] runs one instruction.  [None]: no such thread, the thread
    has finished, or it is blocked. *)
Definition thread_step (recursive : bool) (t : nat) (s : sys) : option sys :=
  th ← sys_threads s !! t;
  '(i, cur, todo) ← next_instr th;
  '(a', m', o) ← exec_shared recursive t i (sys_alert s) (sys_mutex s);
  Some (mk_sys a' m' (<[t := mk_thread todo cur (th_out th ++ o)]> (sys_threads s))).

(** Any thread runs one instruction: every interleaving. *)
Inductive sys_step (recursive : bool) : sys -> sys -> Prop :=
| SysStep t s s' : thread_step recursive t s = Some s' -> sys_step recursive s s'.

Definition init_sys (a0 : dot11_tracked_ssid_alert) (progs : list (list call)) : sys :=
  mk_sys a0 mutex_free (map (fun cs => mk_thread cs None []) progs).

Definition thread_done (th : thread) : bool :=
  match th_todo th, th_cur th with [], None => true | _, _ => false end.

Definition finished (s : sys) : bool := forallb thread_done (sys_threads s).

(** A round-robin scheduler: each pass offers every thread one step in
    order; a blocked thread is skipped. *)
Definition rr_fold (recursive : bool) (ts : list nat) (s : sys) : sys :=
  fold_left (fun s t => default s (thread_step recursive t s)) ts s.

Definition rr_pass (recursive : bool) (s : sys) : sys :=
  rr_fold recursive (seq 0 (length (sys_threads s))) s.

Fixpoint rr_run (recursive : bool) (fuel : nat) (s : sys) : sys :=
  match fuel with
  | O => s
  | S f => rr_run recursive f (rr_pass recursive s)
  end.

(** Instructions left to run: the measure each step decreases. *)
Definition thread_work (th : thread) : nat :=
  (default 0 (length ∘ snd <$> th_cur th) + sum_list_with (length ∘ call_instrs) (th_todo th))%nat.

Definition sys_work (s : sys) : nat := sum_list_with thread_work (sys_threads s).

(** Two threads on a fresh matcher making the calls of the .cc file: one
    sets a pattern and matches, the other matches, replaces the exempt
    MACs and sets an invalid pattern. *)
Definition locked_demo_progs : list (list call) :=
  [[CSetRegex "^Linksys$"; CCompareSsid "linksys" 0x112233445566];
   [CCompareSsid "Linksys" 0xAABBCCDDEEFF; CSetAllowedMacs [0xAABBCCDDEEFF]; CSetRegex "(Linksys"]].

Definition locked_demo_sys : sys := init_sys new_alert locked_demo_progs.

(** A reconfiguration callback matching under the lock it holds, beside a
    thread that matches and renames the group. *)
Definition callback_demo_progs : list (list call) :=
  [[CCallbackCompare "Linksys" 0x112233445566; CSetRegex "^Linksys$"];
   [CCompareSsid "Linksys" 0xAABBCCDDEEFF; CSetGroupName "home"]].

Definition callback_demo_sys : sys := init_sys new_alert callback_demo_progs.

(** ** Data races *)

(** The fields of the matcher an instruction accesses. *)
Inductive alert_field := FRegex | FRe | FMacs | FGroup.

#[global] Instance alert_field_eq_dec : EqDecision alert_field.
Proof. solve_decision. Defined.

Definition instr_reads (i : instr) : list alert_field :=
  match i with IMatch _ _ => [FRe; FMacs] | _ => [] end.

Definition instr_writes (i : instr) : list alert_field :=
  match i with
  | IWriteRegex _ => [FRegex] | IWriteRe _ => [FRe]
  | IWriteMacs _ => [FMacs] | IWriteGroup _ => [FGroup]
  | _ => []
  end.

(** Two accesses conflict when one writes a field the other reads or
    writes. *)
Definition conflict (i1 i2 : instr) : bool :=
  existsb (fun f => bool_decide (f ∈ instr_reads i2 ++ instr_writes i2)) (instr_writes i1) ||
  existsb (fun f => bool_decide (f ∈ instr_writes i2)) (instr_reads i1).

(** The instruction thread [t] runs next. *)
Definition next_of (s : sys) (t : nat) : option instr :=
  th ← sys_threads s !! t; '(i, _, _) ← next_instr th; Some i.

(** A data race (C++ [intro.races]): two threads about to make
    conflicting accesses, neither ordered after the other by the mutex.
    The behaviour of the program is then undefined. *)
Definition race (s : sys) : Prop :=
  exists t1 t2 i1 i2, t1 <> t2 /\ next_of s t1 = Some i1 /\ next_of s t2 = Some i2 /\
    conflict i1 i2 = true.

(** ** The mutex across nested calls *)

Definition depth_step (d : nat) (i : instr) : nat :=
  match i with ILock => S d | IUnlock => pred d | _ => d end.

(** How many times a thread holds the mutex after running [pre]. *)
Definition lock_depth (pre : list instr) : nat := fold_left depth_step pre 0%nat.

(** Every proper prefix holds the mutex, and the whole releases it. *)
Definition well_nested (l : list instr) : bool :=
  (lock_depth l =? 0)%nat &&
  forallb (fun n => (1 <=? lock_depth (take n l))%nat) (seq 1 (length l - 1)).

(** The thread inside a call owns the mutex, as many times as the part
    of the call it has run took it; with no thread inside, the mutex is
    free. *)
Definition mutex_inv (s : sys) : Prop :=
  (forall t th c rem, sys_threads s !! t = Some th -> th_cur th = Some (c, rem) ->
     exists pre, call_instrs c = pre ++ rem /\ pre <> [] /\ rem <> [] /\ guarded c = true /\
       sys_mutex s = mk_mutex (Some t) (lock_depth pre)) /\
  ((forall t th, sys_threads s !! t = Some th -> th_cur th = None) -> sys_mutex s = mutex_free).



(** ** The invariant of lock-guarded runs *)

(** The calls of a thread not yet applied: the call it is inside unless
    only its unlock is left, then the rest. *)
Definition pending (th : thread) : list call :=
  match th_cur th with
  | Some (c, [_]) => th_todo th
  | Some (c, _) => c :: th_todo th
  | None => th_todo th
  end.

(** Inside guarded call [c], after the lock, with [pre] of its body run
    and [rem] left. *)
Definition in_call (c : call) (rem pre : list instr) : Prop :=
  exists rb, guarded c = true /\ nested c = false /\ call_body c = pre ++ rb /\ rem = rb ++ [IUnlock].

(** What the matcher holds while the owner of the lock is inside [c]:
    the body run so far on top of the calls already applied, or these
    alone once the body is complete. *)
Definition view (rem pre : list instr) (a : dot11_tracked_ssid_alert) : dot11_tracked_ssid_alert :=
  match rem with [_] => a | _ => (exec_instrs pre a).1 end.

Definition thread_inv (progs : list (list call)) (a0 : dot11_tracked_ssid_alert)
    (log : list (nat * call)) (m : kis_recursive_timed_mutex) (t : nat) (th : thread) : Prop :=
  progs !! t = Some (of_thread t log ++ pending th) /\
  th_out th = of_thread t (atomic_run a0 log).2 /\
  (forall c rem, th_cur th = Some (c, rem) -> m = mk_mutex (Some t) 1).

Definition alert_inv (a0 : dot11_tracked_ssid_alert) (log : list (nat * call)) (s : sys) : Prop :=
  match mtx_owner (sys_mutex s) with
  | None => sys_alert s = (atomic_run a0 log).1
  | Some o => exists th c rem pre,
      sys_threads s !! o = Some th /\ th_cur th = Some (c, rem) /\ in_call c rem pre /\
      sys_alert s = view rem pre (atomic_run a0 log).1
  end.

(** The state of a run from [init_sys a0 progs] is explained by a log of
    whole calls, an interleaving of the threads' programs. *)
Definition lock_inv (progs : list (list call)) (a0 : dot11_tracked_ssid_alert) (s : sys) : Prop :=
  exists log,
    length (sys_threads s) = length progs /\
    Forall (fun x => x.1 < length progs)%nat log /\
    (forall t th, sys_threads s !! t = Some th -> thread_inv progs a0 log (sys_mutex s) t th) /\
    alert_inv a0 log s.

(** ** Lemmas on instructions and calls *)

Lemma exec_instrs_app l1 l2 a :
  exec_instrs (l1 ++ l2) a =
  ((exec_instrs l2 (exec_instrs l1 a).1).1, (exec_instrs l1 a).2 ++ (exec_instrs l2 (exec_instrs l1 a).1).2).
Proof.
  revert a. induction l1 as [| i l1 IH]; intros a; simpl.
  - destruct (exec_instrs l2 a); reflexivity.
  - destruct (exec_instr i a) as [a1 o1]. rewrite IH.
    destruct (exec_instrs l1 a1) as [a2 o2]. simpl.
    destruct (exec_instrs l2 a2). simpl. by rewrite app_assoc.
Qed.

Lemma exec_instrs_snoc l i a :
  exec_instrs (l ++ [i]) a =
  ((exec_instr i (exec_instrs l a).1).1, (exec_instrs l a).2 ++ (exec_instr i (exec_instrs l a).1).2).
Proof.
  rewrite exec_instrs_app. simpl. destruct (exec_instr i _). simpl. by rewrite app_nil_r.
Qed.

(** A body run whole is the call of [Watchlist]. *)
Lemma call_body_atomic c a : exec_instrs (call_body c) a = atomic_call c a.
Proof.
  destruct c as [s | m | s | v | ssid mac | ssid mac]; simpl; try reflexivity.
  unfold set_regex. destruct (compile_regex true s); reflexivity.
Qed.

Definition silent (i : instr) : Prop :=
  match i with IMatch _ _ | IError _ => False | _ => True end.

Lemma exec_instrs_cons i l a :
  exec_instrs (i :: l) a =
  ((exec_instrs l (exec_instr i a).1).1, (exec_instr i a).2 ++ (exec_instrs l (exec_instr i a).1).2).
Proof. simpl. destruct (exec_instr i a) as [a1 o1]. simpl. by destruct (exec_instrs l a1). Qed.

Lemma exec_instrs_silent pre a : Forall silent pre -> (exec_instrs pre a).2 = [].
Proof.
  revert a. induction pre as [| i pre IH]; intros a Hs; [reflexivity |].
  inversion Hs as [| ? ? Hi Hpre]; subst.
  rewrite exec_instrs_cons, IH by exact Hpre. by destruct i.
Qed.

(** A body stopped before its last instruction has stored only the
    pattern text. *)
Lemma call_body_proper_prefix c pre rb :
  nested c = false -> call_body c = pre ++ rb -> rb <> [] -> Forall (fun i => exists s, i = IWriteRegex s) pre.
Proof.
  intros Hn Hb Hrb.
  assert (Hl : Forall (fun i => exists s, i = IWriteRegex s) (removelast (call_body c))).
  { destruct c as [s | m | s | v | ssid mac | ssid mac]; simpl; [destruct (compile_regex true s) |..];
      repeat constructor; eauto; discriminate. }
  rewrite Hb, removelast_app in Hl by exact Hrb.
  by apply Forall_app in Hl as [? _].
Qed.

(** A body reports only at its last instruction. *)
Lemma call_body_silent c pre rb a :
  nested c = false -> call_body c = pre ++ rb -> rb <> [] -> (exec_instrs pre a).2 = [].
Proof.
  intros Hn Hb Hrb. apply exec_instrs_silent.
  eapply Forall_impl; [exact (call_body_proper_prefix c pre rb Hn Hb Hrb) |].
  by intros i [? ->].
Qed.

Lemma call_body_no_lock c i : nested c = false -> i ∈ call_body c -> i <> ILock /\ i <> IUnlock.
Proof.
  destruct c as [s | m | s | v | ssid mac | ssid mac]; simpl; [destruct (compile_regex true s) |..];
    intros Hn Hi; try discriminate Hn; repeat (apply elem_of_cons in Hi as [-> | Hi]; [done |]); apply elem_of_nil in Hi; done.
Qed.

Lemma call_body_nonempty c : call_body c <> [].
Proof. destruct c as [s | | | | |]; simpl; [destruct (compile_regex true s) |..]; discriminate. Qed.

(** The stores of the calls that take no lock. *)
Definition unguarded_write (i : instr) : Prop :=
  match i with IWriteGroup _ | IWriteMacs _ => True | _ => False end.

(** A call without the lock is one such store. *)
Lemma unguarded_call c :
  guarded c = false -> exists w, call_instrs c = [w] /\ unguarded_write w /\
    forall a, atomic_call c a = ((exec_instr w a).1, []).
Proof.
  unfold call_instrs. destruct c as [s | m | g | v | ssid mac | ssid mac]; try discriminate; intros _;
    eexists; split_and!; try reflexivity; done.
Qed.

(** Such a store commutes with stores of the pattern text. *)
Lemma exec_prefix_write pre w a :
  Forall (fun i => exists s, i = IWriteRegex s) pre -> unguarded_write w ->
  (exec_instrs pre (exec_instr w a).1).1 = (exec_instr w (exec_instrs pre a).1).1.
Proof.
  intros Hpre Hw. revert a. induction Hpre as [| i pre [s ->] _ IH]; intros a; [reflexivity |].
  rewrite !exec_instrs_cons. cbn [fst]. rewrite <- IH. f_equal.
  destruct w; try contradiction; reflexivity.
Qed.

Lemma atomic_run_snoc a0 log t c :
  atomic_run a0 (log ++ [(t, c)]) =
  ((atomic_call c (atomic_run a0 log).1).1,
   (atomic_run a0 log).2 ++ map (pair t) (atomic_call c (atomic_run a0 log).1).2).
Proof.
  unfold atomic_run. rewrite fold_left_app. simpl.
  unfold atomic_step at 1. simpl. by destruct (atomic_call c _).
Qed.

Lemma of_thread_app {X} t (l1 l2 : list (nat * X)) : of_thread t (l1 ++ l2) = of_thread t l1 ++ of_thread t l2.
Proof. unfold of_thread. by rewrite filter_app, map_app. Qed.

Lemma of_thread_pair {X} t t' (o : list X) :
  of_thread t (map (pair t') o) = if decide (t' = t) then o else [].
Proof.
  unfold of_thread. case_decide as Ht; induction o as [| x o IH]; try reflexivity; simpl.
  - rewrite filter_cons_True by done. simpl. by rewrite IH.
  - by rewrite filter_cons_False.
Qed.

#[local] Hint Rewrite @of_thread_app @of_thread_pair : kismet_rw.

Lemma sum_list_with_insert {X} (f : X -> nat) l t x y :
  l !! t = Some y -> (sum_list_with f (<[t := x]> l) + f y = sum_list_with f l + f x)%nat.
Proof.
  revert t. induction l as [| z l IH]; intros [| t] Hy; simplify_eq/=; [lia |].
  specialize (IH t Hy). lia.
Qed.

(** ** Preservation of the invariant *)

Lemma mutex_unlock_once t : mutex_unlock t (mk_mutex (Some t) 1) = Some mutex_free.
Proof. unfold mutex_unlock. simpl. by rewrite bool_decide_true. Qed.

Lemma exec_shared_body r t i a m :
  i <> ILock -> i <> IUnlock -> exec_shared r t i a m = Some ((exec_instr i a).1, m, (exec_instr i a).2).
Proof. intros H1 H2. destruct i; try done; reflexivity. Qed.

Lemma lock_inv_update progs a0 s log t th th' a' m' :
  sys_threads s !! t = Some th -> length (sys_threads s) = length progs ->
  Forall (fun x => x.1 < length progs)%nat log ->
  thread_inv progs a0 log m' t th' ->
  (forall t' th'', t' <> t -> sys_threads s !! t' = Some th'' -> thread_inv progs a0 log m' t' th'') ->
  alert_inv a0 log (mk_sys a' m' (<[t := th']> (sys_threads s))) ->
  lock_inv progs a0 (mk_sys a' m' (<[t := th']> (sys_threads s))).
Proof.
  intros Ht Hlen Hlog Hself Hothers Hal. exists log. simpl.
  split_and!; [by rewrite length_insert | exact Hlog | | exact Hal].
  intros t' th'' Ht'. destruct (decide (t' = t)) as [-> | Hne].
  - pose proof (lookup_lt_Some _ _ _ Ht). rewrite list_lookup_insert_eq in Ht' by lia. by simplify_eq.
  - rewrite list_lookup_insert_ne in Ht' by congruence. by apply Hothers.
Qed.

(** A thread other than the owner is outside every call. *)
Lemma thread_inv_not_owner progs a0 log m t th o :
  thread_inv progs a0 log m t th -> mtx_owner m = Some o -> o <> t -> th_cur th = None.
Proof.
  intros (_ & _ & Hm) Ho Hne. destruct (th_cur th) as [[c rem] |] eqn:Hc; [| done].
  rewrite (Hm c rem eq_refl) in Ho. simpl in Ho. congruence.
Qed.

Lemma thread_inv_mutex progs a0 log m m' t th :
  thread_inv progs a0 log m t th -> th_cur th = None -> thread_inv progs a0 log m' t th.
Proof. intros (H1 & H2 & _) Hc. split_and!; [exact H1 | exact H2 | by rewrite Hc]. Qed.

Lemma thread_inv_commit_other progs a0 log m t t' c th :
  thread_inv progs a0 log m t' th -> t <> t' -> thread_inv progs a0 (log ++ [(t, c)]) m t' th.
Proof.
  intros (H1 & H2 & H3) Hne. split_and!; [| | exact H3].
  - rewrite H1. change [(t, c)] with (map (pair t) [c]).
    autorewrite with kismet_rw. rewrite decide_False by done. by rewrite app_nil_r.
  - rewrite atomic_run_snoc, H2. simpl. autorewrite with kismet_rw.
    rewrite decide_False by done. by rewrite app_nil_r.
Qed.

Lemma of_thread_snoc_self {X} t (x : X) l : of_thread t (l ++ [(t, x)]) = of_thread t l ++ [x].
Proof. change [(t, x)] with (map (pair t) [x]). autorewrite with kismet_rw. by rewrite decide_True. Qed.

Lemma pending_inside c y l todo out :
  pending (mk_thread todo (Some (c, y :: l ++ [IUnlock])) out) = c :: todo.
Proof. by destruct l. Qed.

Lemma view_inside y l pre a : view (y :: l ++ [IUnlock]) pre a = (exec_instrs pre a).1.
Proof. by destruct l. Qed.

Lemma view_write c rem pre a w :
  in_call c rem pre -> unguarded_write w ->
  (exec_instr w (view rem pre a)).1 = view rem pre (exec_instr w a).1.
Proof.
  intros (rb & Hg & Hnn & Hb & ->) Hw. destruct rb as [| x rb]; [reflexivity |].
  rewrite <- app_comm_cons, !view_inside. symmetry.
  apply exec_prefix_write; [| exact Hw]. by apply (call_body_proper_prefix c pre (x :: rb)).
Qed.

Lemma in_call_rem_nonempty c rem pre : in_call c rem pre -> rem <> [].
Proof. intros (rb & _ & _ & _ & ->). by destruct rb. Qed.

Section Step.
Context (progs : list (list call)) (a0 : dot11_tracked_ssid_alert) (s : sys) (log : list (nat * call)).
Hypothesis Hlen : length (sys_threads s) = length progs.
Hypothesis Hlog : Forall (fun x => x.1 < length progs)%nat log.
Hypothesis Hth : forall t th, sys_threads s !! t = Some th -> thread_inv progs a0 log (sys_mutex s) t th.

Let abs := (atomic_run a0 log).1.

Lemma log_snoc_bound t th c :
  sys_threads s !! t = Some th -> Forall (fun x => x.1 < length progs)%nat (log ++ [(t, c)]).
Proof.
  intros Ht. apply Forall_app. split; [exact Hlog |].
  apply Forall_singleton. simpl. rewrite <- Hlen. by eapply lookup_lt_Some.
Qed.

(** The owner leaves its call: the unlock. *)
Lemma owner_unlock_inv t th c pre :
  sys_threads s !! t = Some th -> th_cur th = Some (c, [IUnlock]) ->
  sys_mutex s = mk_mutex (Some t) 1 -> sys_alert s = view [IUnlock] pre abs ->
  lock_inv progs a0 (mk_sys (sys_alert s) mutex_free
    (<[t := mk_thread (th_todo th) None (th_out th ++ [])]> (sys_threads s))).
Proof.
  intros Ht Hc Hm Ha. destruct (Hth t th Ht) as (Hp & Ho & _).
  apply (lock_inv_update _ _ _ log t th); try done.
  - split_and!; [| by rewrite app_nil_r | done]. rewrite Hp. unfold pending. by rewrite Hc.
  - intros t' th' Hne Ht'. eapply thread_inv_mutex; [by apply Hth |].
    eapply thread_inv_not_owner; [by apply Hth | by rewrite Hm | done].
Qed.

(** The owner runs the last instruction of the body: the call takes
    effect whole. *)
Lemma owner_commit_inv t th c pre x :
  sys_threads s !! t = Some th -> th_cur th = Some (c, [x; IUnlock]) ->
  sys_mutex s = mk_mutex (Some t) 1 -> in_call c [x; IUnlock] pre ->
  sys_alert s = view [x; IUnlock] pre abs ->
  lock_inv progs a0 (mk_sys (exec_instr x (sys_alert s)).1 (sys_mutex s)
    (<[t := mk_thread (th_todo th) (Some (c, [IUnlock])) (th_out th ++ (exec_instr x (sys_alert s)).2)]>
       (sys_threads s))).
Proof.
  intros Ht Hc Hm (rb & Hg & Hnn & Hb & Hrem) Ha.
  assert (rb = [x]) as ->.
  { destruct rb as [| y [| z rb]]; simplify_eq/=; [done | by destruct rb]. }
  destruct (Hth t th Ht) as (Hp & Ho & _). simpl in Ha.
  assert (Hbody : exec_instrs (call_body c) abs =
                  ((exec_instr x (sys_alert s)).1, (exec_instr x (sys_alert s)).2)).
  { rewrite Hb, exec_instrs_snoc, Ha, (call_body_silent c pre [x]) by done. reflexivity. }
  rewrite call_body_atomic in Hbody.
  apply (lock_inv_update _ _ _ (log ++ [(t, c)]) t th); try done.
  - by eapply log_snoc_bound.
  - split_and!.
    + rewrite Hp, of_thread_snoc_self, <- app_assoc. unfold pending. by rewrite Hc.
    + rewrite Ho, atomic_run_snoc. fold abs. rewrite Hbody. simpl.
      autorewrite with kismet_rw. by rewrite decide_True.
    + intros ? ? _. exact Hm.
  - intros t' th' Hne Ht'. apply thread_inv_commit_other; [by apply Hth | done].
  - unfold alert_inv. simpl. rewrite Hm. simpl.
    exists (mk_thread (th_todo th) (Some (c, [IUnlock])) (th_out th ++ (exec_instr x (sys_alert s)).2)),
      c, [IUnlock], (pre ++ [x]).
    split_and!.
    + apply list_lookup_insert_eq. by eapply lookup_lt_Some.
    + reflexivity.
    + exists []. by rewrite app_nil_r.
    + simpl. rewrite atomic_run_snoc. fold abs. by rewrite Hbody.
Qed.

(** The owner runs an instruction of the body that is not its last. *)
Lemma owner_mid_inv t th c pre x y l :
  sys_threads s !! t = Some th -> th_cur th = Some (c, x :: y :: l ++ [IUnlock]) ->
  sys_mutex s = mk_mutex (Some t) 1 -> in_call c (x :: y :: l ++ [IUnlock]) pre ->
  sys_alert s = view (x :: y :: l ++ [IUnlock]) pre abs ->
  lock_inv progs a0 (mk_sys (exec_instr x (sys_alert s)).1 (sys_mutex s)
    (<[t := mk_thread (th_todo th) (Some (c, y :: l ++ [IUnlock])) (th_out th ++ (exec_instr x (sys_alert s)).2)]>
       (sys_threads s))).
Proof.
  intros Ht Hc Hm (rb & Hg & Hnn & Hb & Hrem) Ha.
  assert (rb = x :: y :: l) as ->.
  { rewrite app_comm_cons, app_comm_cons in Hrem. by apply app_inv_tail in Hrem. }
  destruct (Hth t th Ht) as (Hp & Ho & _).
  rewrite (app_comm_cons l [IUnlock] y), view_inside in Ha.
  assert (Hsil : (exec_instr x (sys_alert s)).2 = []).
  { pose proof (call_body_silent c (pre ++ [x]) (y :: l) abs) as H.
    rewrite exec_instrs_snoc, <- Ha, (call_body_silent c pre (x :: y :: l)) in H by (try rewrite <- app_assoc; done).
    simpl in H. apply H; [exact Hnn | by rewrite <- app_assoc | done]. }
  apply (lock_inv_update _ _ _ log t th); try done.
  - split_and!.
    + rewrite Hp, pending_inside. unfold pending. by rewrite Hc.
    + by rewrite Hsil, app_nil_r.
    + intros ? ? _. exact Hm.
  - intros t' th' Hne Ht'. eapply thread_inv_mutex; [by apply Hth |].
    eapply thread_inv_not_owner; [by apply Hth | by rewrite Hm | done].
  - unfold alert_inv. simpl. rewrite Hm. simpl.
    eexists _, c, (y :: l ++ [IUnlock]), (pre ++ [x]). split_and!.
    + apply list_lookup_insert_eq. by eapply lookup_lt_Some.
    + reflexivity.
    + exists (y :: l). by rewrite Hb, <- app_assoc.
    + rewrite view_inside, exec_instrs_snoc. simpl. by rewrite Ha.
Qed.

(** A thread outside every call takes the free mutex to start a guarded
    call. *)
Lemma fetch_lock_inv t th c todo :
  sys_threads s !! t = Some th -> th_cur th = None -> th_todo th = c :: todo -> guarded c = true ->
  nested c = false ->
  mtx_owner (sys_mutex s) = None -> sys_alert s = abs ->
  lock_inv progs a0 (mk_sys (sys_alert s) (mk_mutex (Some t) 1)
    (<[t := mk_thread todo (cont c (call_body c ++ [IUnlock])) (th_out th ++ [])]> (sys_threads s))).
Proof.
  intros Ht Hc Htodo Hg Hnn Hfree Ha. destruct (Hth t th Ht) as (Hp & Ho & _).
  destruct (call_body c) as [| b body] eqn:Hb; [by destruct (call_body_nonempty c) |].
  cbn [cont app].
  apply (lock_inv_update _ _ _ log t th); try done.
  - split_and!.
    + rewrite Hp, pending_inside. unfold pending. by rewrite Hc, Htodo.
    + by rewrite app_nil_r.
    + intros ? ? _. reflexivity.
  - intros t' th' Hne Ht'. eapply thread_inv_mutex; [by apply Hth |].
    destruct (Hth t' th' Ht') as (_ & _ & Hm). destruct (th_cur th') as [[c' rem] |]; [| done].
    rewrite (Hm c' rem eq_refl) in Hfree. discriminate.
  - unfold alert_inv. simpl. eexists _, c, (b :: body ++ [IUnlock]), []. split_and!.
    + apply list_lookup_insert_eq. by eapply lookup_lt_Some.
    + reflexivity.
    + by exists (b :: body).
    + by rewrite view_inside.
Qed.

(** A setter generated by the proxy macros runs without the mutex,
    whoever holds it. *)
Lemma fetch_unguarded_inv t th c todo w :
  sys_threads s !! t = Some th -> th_cur th = None -> th_todo th = c :: todo ->
  unguarded_write w -> (forall a, atomic_call c a = ((exec_instr w a).1, [])) ->
  alert_inv a0 log s ->
  lock_inv progs a0 (mk_sys (exec_instr w (sys_alert s)).1 (sys_mutex s)
    (<[t := mk_thread todo None (th_out th ++ [])]> (sys_threads s))).
Proof.
  intros Ht Hc Htodo Hw Hat Hal. destruct (Hth t th Ht) as (Hp & Ho & _).
  apply (lock_inv_update _ _ _ (log ++ [(t, c)]) t th); try done.
  - by eapply log_snoc_bound.
  - split_and!.
    + rewrite Hp, of_thread_snoc_self, <- app_assoc. unfold pending. by rewrite Hc, Htodo.
    + rewrite Ho, atomic_run_snoc, Hat. simpl. by rewrite !app_nil_r.
    + done.
  - intros t' th' Hne Ht'. apply thread_inv_commit_other; [by apply Hth | done].
  - unfold alert_inv in *. simpl. rewrite atomic_run_snoc, Hat. simpl.
    destruct (mtx_owner (sys_mutex s)) as [o |] eqn:Ho'; [| by rewrite Hal].
    destruct Hal as (th' & c' & rem & pre & Ht' & Hc' & Hin & Ha).
    assert (o <> t) by (intros ->; congruence).
    exists th', c', rem, pre. split_and!; [| done | done |].
    + by rewrite list_lookup_insert_ne.
    + rewrite Ha. by apply (view_write c').
Qed.

End Step.

Lemma lock_inv_init progs a0 : lock_inv progs a0 (init_sys a0 progs).
Proof.
  exists []. simpl. split_and!; [by rewrite length_map | constructor | | reflexivity].
  intros t th Ht. apply list_lookup_fmap_Some in Ht as (cs & -> & Hcs).
  split_and!; [exact Hcs | reflexivity | done].
Qed.

(** A call a thread is about to start comes from its program. *)
Lemma todo_head_prog (P : call -> Prop) progs a0 log m t th c todo :
  Forall (Forall P) progs -> thread_inv progs a0 log m t th ->
  th_cur th = None -> th_todo th = c :: todo -> P c.
Proof.
  intros HP (Hp & _ & _) Hc Htodo. unfold pending in Hp. rewrite Hc, Htodo in Hp.
  eapply Forall_lookup_1 in HP; [| exact Hp].
  apply Forall_app in HP as [_ HP]. by apply Forall_cons in HP as [? _].
Qed.

(** Every step of every thread keeps the invariant. *)
Lemma lock_inv_step progs a0 r t s s' :
  Forall (Forall (fun c => nested c = false)) progs ->
  lock_inv progs a0 s -> thread_step r t s = Some s' -> lock_inv progs a0 s'.
Proof.
  intros Hnest (log & Hlen & Hlog & Hth & Hal) Hstep. unfold thread_step in Hstep.
  destruct (sys_threads s !! t) as [th |] eqn:Ht; [| discriminate]. simpl in Hstep.
  destruct (next_instr th) as [[[i cur] todo] |] eqn:Hn; [| discriminate]. simpl in Hstep.
  destruct (exec_shared r t i (sys_alert s) (sys_mutex s)) as [[[a' m'] o] |] eqn:He; [| discriminate].
  simpl in Hstep. injection Hstep as <-.
  pose proof (Hth t th Ht) as (_ & _ & Hm).
  unfold next_instr in Hn. destruct (th_cur th) as [[c rem] |] eqn:Hc.
  - specialize (Hm c rem eq_refl).
    unfold alert_inv in Hal. rewrite Hm in Hal. simpl in Hal.
    destruct Hal as (th1 & c1 & rem1 & pre & Ht1 & Hc1 & Hin & Ha).
    rewrite Ht in Ht1. injection Ht1 as <-. rewrite Hc in Hc1. injection Hc1 as <- <-.
    destruct rem as [| i0 rem']; [by destruct (in_call_rem_nonempty _ _ _ Hin) |].
    injection Hn as <- <- <-. pose proof Hin as (rb & Hg & Hnn & Hb & Hrem).
    assert (Hbody : forall x, x ∈ call_body c -> x <> ILock /\ x <> IUnlock)
      by (intros x; apply call_body_no_lock, Hnn).
    destruct rb as [| x [| y l]]; simplify_eq/=.
    + rewrite Hm in He. simpl in He. rewrite mutex_unlock_once in He. simpl in He.
      injection He as <- <- <-. by apply (owner_unlock_inv progs a0 s log Hlen Hlog Hth t th c pre).
    + destruct (Hbody x) as [Hx1 Hx2]; [rewrite Hb; set_solver |].
      rewrite exec_shared_body in He by done. injection He as <- <- <-.
      by apply (owner_commit_inv progs a0 s log Hlen Hlog Hth t th c pre x).
    + destruct (Hbody x) as [Hx1 Hx2]; [rewrite Hb; set_solver |].
      rewrite exec_shared_body in He by done. injection He as <- <- <-.
      by apply (owner_mid_inv progs a0 s log Hlen Hlog Hth t th c pre x y l).
  - destruct (th_todo th) as [| c todo'] eqn:Htodo; [discriminate |].
    unfold call_instrs in Hn. destruct (guarded c) eqn:Hg.
    + injection Hn as <- <- <-.
      destruct (mtx_owner (sys_mutex s)) as [ow |] eqn:Ho.
      * unfold alert_inv in Hal. rewrite Ho in Hal.
        destruct Hal as (th1 & c1 & rem1 & pre & Ht1 & Hc1 & _).
        destruct (decide (ow = t)) as [-> | Hne]; [congruence |].
        simpl in He. unfold mutex_lock in He. rewrite Ho, bool_decide_false in He by done.
        by destruct r.
      * unfold alert_inv in Hal. rewrite Ho in Hal.
        simpl in He. unfold mutex_lock in He. rewrite Ho in He. injection He as <- <- <-.
        apply (fetch_lock_inv progs a0 s log Hlen Hlog Hth t th c todo'); try done.
        exact (todo_head_prog _ _ _ _ _ _ _ _ _ Hnest (Hth t th Ht) Hc Htodo).
    + destruct (unguarded_call c Hg) as (w & Hw & Hu & Hat).
      unfold call_instrs in Hw. rewrite Hg in Hw. rewrite Hw in Hn. injection Hn as <- <- <-.
      assert (w <> ILock /\ w <> IUnlock) as [Hw1 Hw2] by (destruct w; done).
      rewrite exec_shared_body in He by done. injection He as <- <- <-.
      assert (Hs : (exec_instr w (sys_alert s)).2 = []) by (destruct w; done). rewrite Hs.
      exact (fetch_unguarded_inv progs a0 s log Hlen Hlog Hth t th c todo' w Ht Hc Htodo Hu Hat Hal).
Qed.

Lemma lock_inv_rtc progs a0 r s s' :
  Forall (Forall (fun c => nested c = false)) progs ->
  lock_inv progs a0 s -> rtc (sys_step r) s s' -> lock_inv progs a0 s'.
Proof.
  intros Hn Hi Hr. induction Hr as [| x y z Hxy _ IH]; [exact Hi |].
  apply IH. destruct Hxy as [t ? ? Hs]. by eapply lock_inv_step.
Qed.

(** ** Progress and the work measure *)

Lemma forallb_false_lookup {X} (f : X -> bool) l :
  forallb f l = false -> exists i x, l !! i = Some x /\ f x = false.
Proof.
  induction l as [| x l IH]; simpl; [discriminate |].
  destruct (f x) eqn:Hx; simpl.
  - intros H. destruct (IH H) as (i & y & Hy & Hf). by exists (S i), y.
  - intros _. by exists 0%nat, x.
Qed.

Lemma finished_spec s :
  finished s = true <-> forall t th, sys_threads s !! t = Some th -> th_todo th = [] /\ th_cur th = None.
Proof.
  unfold finished. rewrite forallb_forall. split.
  - intros H t th Ht. specialize (H th (proj1 (list_elem_of_In _ _) (list_elem_of_lookup_2 _ _ _ Ht))).
    destruct th as [[| ? ?] [? |] ?]; by simpl in H.
  - intros H th Hin. apply list_elem_of_In, list_elem_of_lookup_1 in Hin as [t Ht].
    destruct (H t th Ht) as [H1 H2]. unfold thread_done. by rewrite H1, H2.
Qed.


Lemma thread_work_cont c rem todo out :
  thread_work (mk_thread todo (cont c rem) out) = (length rem + sum_list_with (length ∘ call_instrs) todo)%nat.
Proof. by destruct rem. Qed.

(** Every instruction run is one less left. *)
Lemma thread_step_work r t s s' : thread_step r t s = Some s' -> (sys_work s' + 1 = sys_work s)%nat.
Proof.
  unfold thread_step. destruct (sys_threads s !! t) as [th |] eqn:Ht; [| discriminate]. simpl.
  destruct (next_instr th) as [[[i cur] todo] |] eqn:Hn; [| discriminate]. simpl.
  destruct (exec_shared r t i (sys_alert s) (sys_mutex s)) as [[[a' m'] o] |]; [| discriminate].
  simpl. intros [= <-]. unfold sys_work. simpl.
  pose proof (sum_list_with_insert thread_work (sys_threads s) t
                (mk_thread todo cur (th_out th ++ o)) th Ht) as Hs.
  enough (thread_work th = S (thread_work (mk_thread todo cur (th_out th ++ o)))) by lia.
  unfold next_instr in Hn. unfold thread_work at 1.
  destruct (th_cur th) as [[c [| i' rem]] |].
  - destruct (th_todo th) as [| c' todo']; [discriminate |].
    cbn [sum_list_with compose]. destruct (call_instrs c') as [| i'' rem]; [discriminate |].
    injection Hn as <- <- <-. rewrite thread_work_cont. simpl. lia.
  - injection Hn as <- <- <-. rewrite thread_work_cont. simpl. lia.
  - destruct (th_todo th) as [| c' todo']; [discriminate |].
    cbn [sum_list_with compose]. destruct (call_instrs c') as [| i'' rem]; [discriminate |].
    injection Hn as <- <- <-. rewrite thread_work_cont. simpl. lia.
Qed.

(** Every run of the system is finite, whatever the programs and the
    mutex: the relation "one step before" is well-founded. *)
Lemma sys_step_wf r : well_founded (fun s' s => sys_step r s s').
Proof.
  apply (wf_projected lt sys_work); [| exact lt_wf].
  intros s' s [t ? ? Hs]. apply thread_step_work in Hs. lia.
Qed.


(** ** The round-robin scheduler *)

Lemma rr_fold_rtc r ts s : rtc (sys_step r) s (rr_fold r ts s).
Proof.
  induction ts as [| t ts IH] in s |- *; [reflexivity |]. simpl.
  destruct (thread_step r t s) as [s1 |] eqn:E; simpl; [| apply IH].
  eapply rtc_l; [by econstructor | apply IH].
Qed.



Lemma rr_run_rtc r fuel s : rtc (sys_step r) s (rr_run r fuel s).
Proof.
  induction fuel as [| f IH] in s |- *; [reflexivity |]. simpl.
  etrans; [unfold rr_pass; apply rr_fold_rtc | apply IH].
Qed.

(** ** No race among the calls of the .cc file *)

Lemma conflict_lock_l i : conflict ILock i = false.
Proof. reflexivity. Qed.

Lemma conflict_lock_r i : conflict i ILock = false.
Proof. by destruct i. Qed.

Lemma locked_nested progs :
  Forall (Forall (fun c => locked_call c = true)) progs -> Forall (Forall (fun c => nested c = false)) progs.
Proof.
  intros H. eapply Forall_impl; [exact H |]. intros cs Hcs. eapply Forall_impl; [exact Hcs |].
  intros c. unfold locked_call. by destruct (guarded c), (nested c).
Qed.

(** In a run of the .cc calls, a thread about to access the matcher
    holds the mutex. *)
Lemma locked_next_owner progs a0 s t i :
  Forall (Forall (fun c => locked_call c = true)) progs -> lock_inv progs a0 s ->
  next_of s t = Some i -> i <> ILock -> mtx_owner (sys_mutex s) = Some t.
Proof.
  intros Hl (log & _ & _ & Hth & _) Hn Hi. unfold next_of in Hn.
  destruct (sys_threads s !! t) as [th |] eqn:Ht; [| discriminate]. simpl in Hn.
  destruct (next_instr th) as [[[i' cur] todo] |] eqn:Hx; [| discriminate]. simpl in Hn.
  injection Hn as ->.
  destruct (th_cur th) as [[c rem] |] eqn:Hc.
  - destruct (Hth t th Ht) as (_ & _ & Hm). by rewrite (Hm c rem Hc).
  - unfold next_instr in Hx. rewrite Hc in Hx.
    destruct (th_todo th) as [| c todo'] eqn:Htodo; [discriminate |].
    pose proof (todo_head_prog _ _ _ _ _ _ _ _ _ Hl (Hth t th Ht) Hc Htodo) as Hlc.
    unfold locked_call in Hlc. apply andb_prop in Hlc as [Hg _].
    unfold call_instrs in Hx. rewrite Hg in Hx. by injection Hx as <- _ _.
Qed.

Lemma locked_race_free progs a0 s :
  Forall (Forall (fun c => locked_call c = true)) progs -> lock_inv progs a0 s -> ~ race s.
Proof.
  intros Hl Hi (t1 & t2 & i1 & i2 & Hne & H1 & H2 & Hc).
  assert (i1 <> ILock) by (intros ->; by rewrite conflict_lock_l in Hc).
  assert (i2 <> ILock) by (intros ->; by rewrite conflict_lock_r in Hc).
  pose proof (locked_next_owner _ _ _ _ _ Hl Hi H1 ltac:(done)).
  pose proof (locked_next_owner _ _ _ _ _ Hl Hi H2 ltac:(done)). congruence.
Qed.

(** ** The mutex invariant *)

Lemma snoc_ne_nil {X} (l : list X) x : l ++ [x] <> [].
Proof. intros H. apply app_eq_nil in H as [_ H]. discriminate. Qed.

Lemma lock_depth_snoc pre i : lock_depth (pre ++ [i]) = depth_step (lock_depth pre) i.
Proof. unfold lock_depth. by rewrite fold_left_app. Qed.

Lemma well_nested_prefix l pre rem :
  well_nested l = true -> l = pre ++ rem -> pre <> [] -> rem <> [] -> (1 <= lock_depth pre)%nat.
Proof.
  unfold well_nested. intros Hw -> Hpre Hrem. apply andb_prop in Hw as [_ Hw].
  rewrite forallb_forall in Hw.
  assert (Hin : In (length pre) (seq 1 (length (pre ++ rem) - 1))).
  { apply in_seq. rewrite length_app. destruct pre, rem; simpl in *; try congruence; lia. }
  specialize (Hw _ Hin). rewrite take_app_length in Hw. by apply Nat.leb_le in Hw.
Qed.

Lemma well_nested_total l : well_nested l = true -> lock_depth l = 0%nat.
Proof. unfold well_nested. intros Hw. apply andb_prop in Hw as [Hw _]. by apply Nat.eqb_eq in Hw. Qed.

(** Every call that takes the mutex holds it until its last instruction,
    which releases it as often as the call took it. *)
Lemma guarded_well_nested c : guarded c = true -> well_nested (call_instrs c) = true.
Proof.
  unfold call_instrs. intros Hg. rewrite Hg.
  destruct c as [s | m | s | v | ssid mac | ssid mac]; simpl; [destruct (compile_regex true s) |..];
    reflexivity.
Qed.

Lemma guarded_last c pre i : guarded c = true -> call_instrs c = pre ++ [i] -> i = IUnlock.
Proof.
  unfold call_instrs. intros Hg H. rewrite Hg, app_comm_cons in H.
  by apply app_inj_tail in H as [_ <-].
Qed.

Lemma guarded_first c i rem : guarded c = true -> call_instrs c = i :: rem -> i = ILock /\ rem <> [].
Proof.
  unfold call_instrs. intros Hg H. rewrite Hg in H. injection H as <- <-.
  split; [done |]. intros H. apply app_eq_nil in H as [_ ?]. discriminate.
Qed.

Lemma mutex_inv_init a0 progs : mutex_inv (init_sys a0 progs).
Proof.
  split; [| reflexivity].
  intros t th c rem Ht. simpl in Ht. apply list_lookup_fmap_Some in Ht as (cs & -> & _). discriminate.
Qed.

(** Only the owner of the mutex is inside a call. *)
Lemma mutex_inv_owner s t th c rem t' th' :
  mutex_inv s -> sys_threads s !! t = Some th -> th_cur th = Some (c, rem) ->
  sys_threads s !! t' = Some th' -> t' <> t -> th_cur th' = None.
Proof.
  intros [Hin _] Ht Hc Ht' Hne. destruct (th_cur th') as [[c' rem'] |] eqn:Hc'; [| done].
  destruct (Hin t th c rem Ht Hc) as (pre & _ & _ & _ & _ & Hm).
  destruct (Hin t' th' c' rem' Ht' Hc') as (pre' & _ & _ & _ & _ & Hm').
  rewrite Hm in Hm'. injection Hm' as ->. congruence.
Qed.

Lemma mutex_inv_set s t th_new a' m' :
  (t < length (sys_threads s))%nat ->
  (forall t' th', t' <> t -> sys_threads s !! t' = Some th' -> th_cur th' = None) ->
  (forall c rem, th_cur th_new = Some (c, rem) -> exists pre, call_instrs c = pre ++ rem /\
     pre <> [] /\ rem <> [] /\ guarded c = true /\ m' = mk_mutex (Some t) (lock_depth pre)) ->
  (th_cur th_new = None -> m' = mutex_free) ->
  mutex_inv (mk_sys a' m' (<[t := th_new]> (sys_threads s))).
Proof.
  intros Hlt Hoth Hnew Hfree. split; simpl.
  - intros t'' th c rem Ht Hc. destruct (decide (t'' = t)) as [-> | Hne].
    + rewrite list_lookup_insert_eq in Ht by done. injection Ht as <-. by apply Hnew.
    + rewrite list_lookup_insert_ne in Ht by done. by rewrite (Hoth t'' th Hne Ht) in Hc.
  - intros Hall. apply Hfree, (Hall t). by rewrite list_lookup_insert_eq.
Qed.

Lemma mutex_inv_outside s t th th_new a' :
  mutex_inv s -> sys_threads s !! t = Some th -> th_cur th = None -> th_cur th_new = None ->
  mutex_inv (mk_sys a' (sys_mutex s) (<[t := th_new]> (sys_threads s))).
Proof.
  intros [Hin Hfree] Ht Hc Hc'. pose proof (lookup_lt_Some _ _ _ Ht) as Hlt. split; simpl.
  - intros t'' th'' c rem Ht'' Hc''. destruct (decide (t'' = t)) as [-> | Hne].
    + rewrite list_lookup_insert_eq in Ht'' by done. injection Ht'' as <-. congruence.
    + rewrite list_lookup_insert_ne in Ht'' by done. by apply (Hin t'' th'').
  - intros Hall. apply Hfree. intros t'' th'' Ht''. destruct (decide (t'' = t)) as [-> | Hne].
    + rewrite Ht in Ht''. by injection Ht'' as <-.
    + apply (Hall t''). by rewrite list_lookup_insert_ne.
Qed.

(** What an instruction of the owner does to the mutex. *)
Lemma owner_exec_mutex r t i a d a' m' o :
  exec_shared r t i a (mk_mutex (Some t) d) = Some (a', m', o) ->
  (i = IUnlock /\ m' = if (d <=? 1)%nat then mutex_free else mk_mutex (Some t) (pred d)) \/
  (i <> IUnlock /\ m' = mk_mutex (Some t) (depth_step d i)).
Proof.
  destruct i; simpl; unfold mutex_lock, mutex_unlock; simpl; rewrite ?bool_decide_true by done;
    [destruct r; simpl; [| discriminate] |..]; intros [= _ <- _];
    [right | left | right..]; split; (discriminate || reflexivity).
Qed.

Lemma mutex_inv_step r t s s' : mutex_inv s -> thread_step r t s = Some s' -> mutex_inv s'.
Proof.
  intros Hi Hstep. unfold thread_step in Hstep.
  destruct (sys_threads s !! t) as [th |] eqn:Ht; [| discriminate]. simpl in Hstep.
  destruct (next_instr th) as [[[i cur] todo] |] eqn:Hn; [| discriminate]. simpl in Hstep.
  destruct (exec_shared r t i (sys_alert s) (sys_mutex s)) as [[[a' m'] o] |] eqn:He; [| discriminate].
  simpl in Hstep. injection Hstep as <-. pose proof (lookup_lt_Some _ _ _ Ht) as Hlt.
  unfold next_instr in Hn. destruct (th_cur th) as [[c rem] |] eqn:Hc.
  - destruct (proj1 Hi t th c rem Ht Hc) as (pre & Hci & Hpre & Hrem & Hg & Hm).
    destruct rem as [| i0 rem']; [done |]. injection Hn as -> <- <-.
    pose proof (guarded_well_nested c Hg) as W.
    pose proof (well_nested_prefix _ _ _ W Hci Hpre Hrem) as Hd.
    assert (Hoth : forall t' th', t' <> t -> sys_threads s !! t' = Some th' -> th_cur th' = None)
      by (intros t' th' Hne Ht'; exact (mutex_inv_owner _ _ _ _ _ _ _ Hi Ht Hc Ht' Hne)).
    rewrite Hm in He. destruct (owner_exec_mutex _ _ _ _ _ _ _ _ He) as [[-> ->] | [Hni ->]];
      destruct rem' as [| j rem'']; apply mutex_inv_set; try exact Hlt; try exact Hoth; simpl;
      try (intros ? ? Hx; discriminate Hx); try (intros Hx; discriminate Hx).
    + intros _. pose proof (well_nested_total _ W) as H0. rewrite Hci, lock_depth_snoc in H0.
      simpl in H0. destruct (lock_depth pre) as [| [| ?]]; simpl in *; [lia | reflexivity | lia].
    + intros c' rem' [= <- <-]. exists (pre ++ [IUnlock]). rewrite <- app_assoc.
      pose proof (well_nested_prefix _ (pre ++ [IUnlock]) (j :: rem'') W ltac:(by rewrite <- app_assoc)
                    (snoc_ne_nil pre IUnlock) ltac:(done)) as Hd'.
      rewrite lock_depth_snoc in Hd' |- *. simpl in Hd' |- *.
      split_and!; [done | apply snoc_ne_nil | done | done |].
      destruct (lock_depth pre) as [| [| ?]]; simpl in *; [lia | lia | reflexivity].
    + intros _. exfalso. apply Hni. exact (guarded_last c pre i Hg Hci).
    + intros c' rem' [= <- <-]. exists (pre ++ [i]). rewrite <- app_assoc, lock_depth_snoc.
      split_and!; try done. apply snoc_ne_nil.
  - destruct (th_todo th) as [| c todo'] eqn:Htodo; [discriminate |].
    destruct (call_instrs c) as [| i0 rem] eqn:Hci; [discriminate |]. injection Hn as -> <- <-.
    destruct (guarded c) eqn:Hg.
    + destruct (guarded_first c i rem Hg Hci) as [-> Hrem].
      assert (Hall : forall t' th', sys_threads s !! t' = Some th' -> th_cur th' = None).
      { intros t' th' Ht'. destruct (th_cur th') as [[c' rem'] |] eqn:Hc'; [| done].
        destruct (proj1 Hi t' th' c' rem' Ht' Hc') as (pre & _ & _ & _ & _ & Hm).
        assert (t' <> t) by (intros ->; congruence).
        rewrite Hm in He. simpl in He. unfold mutex_lock in He. simpl in He.
        rewrite bool_decide_false in He by done. destruct r; discriminate. }
      rewrite (proj2 Hi Hall) in He. simpl in He. injection He as <- <- <-.
      apply mutex_inv_set; [exact Hlt | intros t' th' _; apply Hall | |].
      * simpl. destruct rem as [| j rem']; [done |]. intros c' rem'' [= <- <-].
        exists [ILock]. split_and!; try done.
      * simpl. by destruct rem.
    + destruct (unguarded_call c Hg) as (w & Hw & Hu & _). rewrite Hw in Hci.
      injection Hci as -> <-. rewrite exec_shared_body in He by (destruct i; done).
      injection He as <- <- <-. eapply mutex_inv_outside; [exact Hi | exact Ht | exact Hc | reflexivity].
Qed.

Lemma mutex_inv_rtc r s s' : mutex_inv s -> rtc (sys_step r) s s' -> mutex_inv s'.
Proof.
  intros Hi Hr. induction Hr as [| x y z [t ? ? Hs] _ IH]; [exact Hi |].
  apply IH. by eapply mutex_inv_step.
Qed.

(** With the recursive mutex some thread can always move: the one
    inside a call, or, with none inside, any thread with calls left. *)
Lemma mutex_inv_progress s : mutex_inv s -> finished s = false -> exists t s', thread_step true t s = Some s'.
Proof.
  intros [Hin Hfree] Hf.
  destruct (forallb (fun th => if th_cur th is None then true else false) (sys_threads s)) eqn:Hout.
  - assert (Hall : forall t th, sys_threads s !! t = Some th -> th_cur th = None).
    { intros t th Ht. rewrite forallb_forall in Hout.
      specialize (Hout th (proj1 (list_elem_of_In _ _) (list_elem_of_lookup_2 _ _ _ Ht))).
      by destruct (th_cur th). }
    pose proof (Hfree Hall) as Hm.
    unfold finished in Hf. apply forallb_false_lookup in Hf as (t & th & Ht & Hd).
    pose proof (Hall t th Ht) as Hc. unfold thread_done in Hd. rewrite Hc in Hd.
    destruct (th_todo th) as [| c todo] eqn:Htodo; [discriminate |].
    exists t. unfold thread_step. rewrite Ht. simpl. unfold next_instr. rewrite Hc, Htodo.
    destruct (guarded c) eqn:Hg.
    + unfold call_instrs. rewrite Hg. simpl. rewrite Hm. by eexists.
    + destruct (unguarded_call c Hg) as (w & -> & Hw & _). simpl.
      rewrite exec_shared_body by (destruct w; done). by eexists.
  - apply forallb_false_lookup in Hout as (t & th & Ht & Hc).
    destruct (th_cur th) as [[c rem] |] eqn:Hc'; [| discriminate].
    destruct (Hin t th c rem Ht Hc') as (pre & Hci & Hpre & Hrem & Hg & Hm).
    pose proof (well_nested_prefix _ _ _ (guarded_well_nested c Hg) Hci Hpre Hrem) as Hd.
    destruct rem as [| i rem']; [done |].
    exists t. unfold thread_step. rewrite Ht. simpl. unfold next_instr. rewrite Hc'. simpl.
    rewrite Hm. destruct i; simpl; try by eexists.
    + unfold mutex_lock. simpl. rewrite bool_decide_true by done. by eexists.
    + unfold mutex_unlock. simpl. rewrite bool_decide_true by done. by eexists.
Qed.



(** ** The matcher under concurrency *)

(** (C10) The calls of the .cc file ([set_regex], [set_allowed_macs],
    [compare_ssid]), each taking [ssid_mutex] for its body, are
    race-free and serializable.  Take any interleaving of their
    instructions, with a recursive mutex or a plain one.  No reachable
    state has a data race.  When every thread has finished, some order
    of the threads' calls explains the run: an interleaving that keeps
    each thread's own order.  Applying the calls whole in that order
    (the sequential semantics of [Watchlist]) gives the final matcher,
    and every thread sees exactly the results its calls return there.
    In particular no [compare_ssid] ever sees a pattern half set. *)
Theorem lock_serializable r progs a0 s :
  Forall (Forall (fun c => locked_call c = true)) progs ->
  rtc (sys_step r) (init_sys a0 progs) s ->
  ~ race s /\
  (finished s = true ->
   exists log,
    Forall (fun x => x.1 < length progs)%nat log /\
    (forall t cs, progs !! t = Some cs -> of_thread t log = cs) /\
    sys_alert s = (atomic_run a0 log).1 /\
    (forall t th, sys_threads s !! t = Some th -> th_out th = of_thread t (atomic_run a0 log).2)).
Proof.
  intros Hl Hr. pose proof (lock_inv_rtc _ _ _ _ _ (locked_nested _ Hl) (lock_inv_init progs a0) Hr) as Hi.
  split; [exact (locked_race_free _ _ _ Hl Hi) |]. intros Hf.
  destruct Hi as (log & Hlen & Hlog & Hth & Hal).
  rewrite finished_spec in Hf. exists log. split_and!; [exact Hlog | | |].
  - intros t cs Hcs.
    destruct (sys_threads s !! t) as [th |] eqn:Ht.
    + destruct (Hth t th Ht) as (Hp & _ & _). destruct (Hf t th Ht) as [Htodo Hc].
      unfold pending in Hp. rewrite Hc, Htodo, app_nil_r, Hcs in Hp. by injection Hp.
    + apply lookup_ge_None in Ht. apply lookup_lt_Some in Hcs. lia.
  - unfold alert_inv in Hal. destruct (mtx_owner (sys_mutex s)) as [o |]; [| exact Hal].
    destruct Hal as (th & c & rem & pre & Ht & Hc & _). destruct (Hf o th Ht) as [_ Hc']. congruence.
  - intros t th Ht. by destruct (Hth t th Ht) as (_ & Ho & _).
Qed.

(** (C11) The exempt-vector setter the proxy macro generates
    ([__ProxyTrackable(tracker_allowed_macs_vec, ...)], line 264) stores
    without [ssid_mutex].  Whatever the matcher, the pattern, the MACs
    and the calls that follow, a [compare_ssid] in one thread and that
    setter in another reach a state where the match is about to read
    [allowed_macs_vec] while the setter is about to replace it: a data
    race, where the spec (4.4) requires both paths to serialize through
    the lock. *)
Theorem unguarded_setter_races r a0 ssid mac v rest1 rest2 :
  exists s, rtc (sys_step r) (init_sys a0 [CCompareSsid ssid mac :: rest1;
                                           CSetTrackerAllowedMacsVec v :: rest2]) s /\ race s.
Proof.
  eexists. split.
  - apply rtc_once. apply (SysStep r 0%nat). reflexivity.
  - exists 0%nat, 1%nat, (IMatch ssid mac), (IWriteMacs v). split_and!; [lia | reflexivity..].
Qed.

(** (C12) No run deadlocks with the recursive mutex of line 271, whatever
    the programs: reconfiguration callbacks that match under the lock
    they hold, unlocked setters and the calls of the .cc file.  In every
    state reached from the start, if some thread has calls left, some
    thread can move. *)
Theorem lock_no_deadlock progs a0 s :
  rtc (sys_step true) (init_sys a0 progs) s -> finished s = false ->
  exists t s', thread_step true t s = Some s'.
Proof.
  intros Hr Hf. apply mutex_inv_progress; [| exact Hf].
  exact (mutex_inv_rtc _ _ _ (mutex_inv_init a0 progs) Hr).
Qed.


(** ** Witnesses *)

Lemma lock_serializable_witness :
  Forall (Forall (fun c => locked_call c = true)) locked_demo_progs /\
  rtc (sys_step true) locked_demo_sys (rr_run true 20 locked_demo_sys) /\
  finished (rr_run true 20 locked_demo_sys) = true /\
  ~ race (rr_run true 20 locked_demo_sys) /\
  exists log,
    Forall (fun x => x.1 < length locked_demo_progs)%nat log /\
    (forall t cs, locked_demo_progs !! t = Some cs -> of_thread t log = cs) /\
    sys_alert (rr_run true 20 locked_demo_sys) = (atomic_run new_alert log).1 /\
    (forall t th, sys_threads (rr_run true 20 locked_demo_sys) !! t = Some th ->
       th_out th = of_thread t (atomic_run new_alert log).2).
Proof.
  assert (Hl : Forall (Forall (fun c => locked_call c = true)) locked_demo_progs) by (repeat constructor).
  assert (H1 : rtc (sys_step true) locked_demo_sys (rr_run true 20 locked_demo_sys)) by apply rr_run_rtc.
  assert (H2 : finished (rr_run true 20 locked_demo_sys) = true) by (vm_compute; reflexivity).
  destruct (lock_serializable true locked_demo_progs new_alert _ Hl H1) as [Hr Hs].
  split; [exact Hl | split; [exact H1 | split; [exact H2 | split; [exact Hr | exact (Hs H2)]]]].
Defined.

Lemma lock_no_deadlock_witness :
  rtc (sys_step true) callback_demo_sys (rr_run true 1 callback_demo_sys) /\
  finished (rr_run true 1 callback_demo_sys) = false /\
  exists t s', thread_step true t (rr_run true 1 callback_demo_sys) = Some s'.
Proof.
  assert (H1 : rtc (sys_step true) callback_demo_sys (rr_run true 1 callback_demo_sys)) by apply rr_run_rtc.
  assert (H2 : finished (rr_run true 1 callback_demo_sys) = false) by (vm_compute; reflexivity).
  split; [exact H1 | split; [exact H2 | exact (lock_no_deadlock callback_demo_progs new_alert _ H1 H2)]].
Defined.
