(* ===== verification/Registry.v ===== *)
(** * Field registration: [register_fields] against the entry tracker

    Every constructor of a record calls [register_fields()] (the device:
    lines 1328-1472; the client: lines 940-971; the 802.11d range: lines
    331-335).  Each [register_field(name, desc, &field)] or
    [register_dynamic_field(...)] asks Kismet's entry tracker for the id
    of a field name, and [register_field(name, tracker_element_factory<T>(),
    desc)] for the id of a nested record type.  The ids are what a clone
    copies ([client_map_id = p->client_map_id], ...) and what a
    serialised record is keyed by.

    The entry tracker is outside [src/]; its [register_field] is modelled
    from Kismet's contract (spec section 4.5).  It looks the lower-cased
    name up.  A known name with the same element type gives back its id,
    and one with another type is an error.  An unknown name gets the next
    free id.  The registrations of a record are transcribed in source
    order as lists of [field_decl].  The theorems run the three bodies
    of this header one after another against one registry, as the first
    device, client and country record built do, and show the ids they
    get are distinct and stable for every later constructor. *)

From S2P Require Import Prelude Tracker.
From Stdlib Require Import Ascii.

(** ** Element types *)

(** The [tracker_element] type a field is built with; a nested record
    type is known by its signature. *)
Inductive elem_type :=
| TUInt8 | TUInt16 | TUInt32 | TUInt64 | TInt16 | TInt32 | TDouble
| TString | TByteArray | TMacAddr | TDeviceKey
| TMacMap | THashkeyMap | TIntMap | TVector | TVectorDouble | TVectorString | TAlias
| TComponent (signature : Z).

#[global] Instance elem_type_eq_dec : EqDecision elem_type.
Proof. solve_decision. Defined.

(** How a record asks for an id. *)
Inductive reg_kind :=
| Fixed     (* register_field(name, desc, &field): the field is built now *)
| Dynamic   (* register_dynamic_field(name, desc, &field): built on first use *)
| Entry.    (* register_field(name, tracker_element_factory<T>(), desc) *)

Record field_decl := mk_decl {
  fd_name : string;
  fd_desc : string;
  fd_type : elem_type;
  fd_kind : reg_kind;
}.

(** ** The entry tracker *)

Definition lower_char (c : ascii) : ascii :=
  let n := nat_of_ascii c in
  if (65 <=? n)%nat && (n <=? 90)%nat then ascii_of_nat (n + 32) else c.

Fixpoint str_lower (s : string) : string :=
  match s with
  | EmptyString => EmptyString
  | String c s' => String (lower_char c) (str_lower s')
  end.

Record reserved_field := mk_reserved { rf_id : Z; rf_type : elem_type; rf_desc : string }.

Record registry := mk_registry {
  reg_fields : gmap string reserved_field;
  reg_next : Z;
}.

Definition empty_registry : registry := mk_registry ∅ 0.

Inductive reg_error := ErrTypeConflict (name : string).

(** [entry_tracker::register_field(name, builder, desc)]. *)
Definition register_field (r : registry) (d : field_decl) : reg_error + (registry * Z) :=
  let lname := str_lower (fd_name d) in
  match reg_fields r !! lname with
  | Some f =>
      if decide (rf_type f = fd_type d) then inr (r, rf_id f)
      else inl (ErrTypeConflict (fd_name d))
  | None =>
      inr (mk_registry (<[lname := mk_reserved (reg_next r) (fd_type d) (fd_desc d)]> (reg_fields r))
                       (reg_next r + 1), reg_next r)
  end.

(** A [register_fields()] body: the registrations in order, each id
    stored as it is returned; an error ([throw]) stops the body. *)
Fixpoint register_all (r : registry) (ds : list field_decl) : reg_error + (registry * list Z) :=
  match ds with
  | [] => inr (r, [])
  | d :: ds' =>
      match register_field r d with
      | inl e => inl e
      | inr (r1, i) =>
          match register_all r1 ds' with
          | inl e => inl e
          | inr (r2, ids) => inr (r2, i :: ids)
          end
      end
  end.

(** ** The registrations of the records *)

(** [dot11_client::register_fields] (lines 940-971). *)
Definition client_field_decls : list field_decl := [
  mk_decl "dot11.client.bssid" "bssid" TMacAddr Fixed;
  mk_decl "dot11.client.bssid_key" "key of BSSID record" TDeviceKey Fixed;
  mk_decl "dot11.client.first_time" "first time seen" TUInt64 Fixed;
  mk_decl "dot11.client.last_time" "last time seen" TUInt64 Fixed;
  mk_decl "dot11.client.type" "type of client" TUInt32 Fixed;
  mk_decl "dot11.client.dhcp_host" "dhcp host" TString Dynamic;
  mk_decl "dot11.client.dhcp_vendor" "dhcp vendor" TString Dynamic;
  mk_decl "dot11.client.tx_cryptset" "bitset of transmitted encryption" TUInt64 Fixed;
  mk_decl "dot11.client.rx_cryptset" "bitset of received encryption" TUInt64 Fixed;
  mk_decl "dot11.client.eap_identity" "EAP identity" TString Dynamic;
  mk_decl "dot11.client.cdp_device" "CDP device" TString Dynamic;
  mk_decl "dot11.client.cdp_port" "CDP port" TString Dynamic;
  mk_decl "dot11.client.decrypted" "client decrypted" TUInt8 Fixed;
  mk_decl "dot11.client.ipdata" "IPv4 information" (TComponent (adler32_checksum "kis_tracked_ip_data")) Dynamic;
  mk_decl "dot11.client.datasize" "data in bytes" TUInt64 Fixed;
  mk_decl "dot11.client.datasize_retry" "retry data in bytes" TUInt64 Fixed;
  mk_decl "dot11.client.num_fragments" "number of fragmented packets" TUInt64 Fixed;
  mk_decl "dot11.client.num_retries" "number of retried packets" TUInt64 Fixed;
  mk_decl "dot11.client.location" "location" (TComponent (adler32_checksum "kis_tracked_location")) Dynamic
].

(** [dot11_11d_tracked_range_info::register_fields] (lines 331-335). *)
Definition range_info_field_decls : list field_decl := [
  mk_decl "dot11.11d.start_channel" "Starting channel of 11d range" TUInt32 Fixed;
  mk_decl "dot11.11d.num_channels" "Number of channels covered by range" TUInt32 Fixed;
  mk_decl "dot11.11d.tx_power" "Maximum allowed transmit power" TInt32 Fixed
].

Definition sig_client := adler32_checksum "dot11_client".
Definition sig_advertised := adler32_checksum "dot11_advertised_ssid".
Definition sig_probed := adler32_checksum "dot11_probed_ssid".
Definition sig_eapol := adler32_checksum "dot11_tracked_eapol".
Definition sig_nonce := adler32_checksum "dot11_tracked_nonce".
Definition sig_packet := adler32_checksum "kis_tracked_packet".

(** [dot11_tracked_device::register_fields] (lines 1328-1472). *)
Definition device_field_decls : list field_decl := [
  mk_decl "dot11.device.typeset" "bitset of device type" TUInt64 Fixed;
  mk_decl "dot11.device.client_map" "client behavior" TMacMap Dynamic;
  mk_decl "dot11.device.client" "client behavior record" (TComponent sig_client) Entry;
  mk_decl "dot11.device.num_client_aps" "number of APs connected to" TUInt64 Fixed;
  mk_decl "dot11.device.advertised_ssid_map" "advertised SSIDs" THashkeyMap Dynamic;
  mk_decl "dot11.device.advertised_ssid" "advertised SSID" (TComponent sig_advertised) Entry;
  mk_decl "dot11.device.num_advertised_ssids" "number of advertised SSIDs" TUInt64 Fixed;
  mk_decl "dot11.device.responded_ssid_map" "responded SSIDs" THashkeyMap Dynamic;
  mk_decl "dot11.device.responded_ssid" "responded SSID" (TComponent sig_advertised) Entry;
  mk_decl "dot11.device.num_responded_ssids" "number of responded SSIDs" TUInt64 Fixed;
  mk_decl "dot11.device.probed_ssid_map" "probed SSIDs" THashkeyMap Dynamic;
  mk_decl "dot11.device.probed_ssid" "probed ssid" (TComponent sig_probed) Entry;
  mk_decl "dot11.device.num_probed_ssids" "number of probed SSIDs" TUInt64 Fixed;
  mk_decl "dot11.device.associated_client_map" "associated clients" TMacMap Dynamic;
  mk_decl "dot11.device.associated_client" "associated client" TDeviceKey Entry;
  mk_decl "dot11.device.num_associated_clients" "number of associated clients" TUInt64 Fixed;
  mk_decl "dot11.device.client_disconnects" "client disconnects message count" TUInt64 Fixed;
  mk_decl "dot11.device.client_disconnects_last" "client disconnects last message" TUInt64 Fixed;
  mk_decl "dot11.device.last_sequence" "last sequence number" TUInt64 Fixed;
  mk_decl "dot11.device.bss_timestamp" "last BSS timestamp" TUInt64 Fixed;
  mk_decl "dot11.device.num_fragments" "number of fragmented packets" TUInt64 Fixed;
  mk_decl "dot11.device.num_retries" "number of retried packets" TUInt64 Fixed;
  mk_decl "dot11.device.datasize" "data in bytes" TUInt64 Fixed;
  mk_decl "dot11.device.datasize_retry" "retried data in bytes" TUInt64 Fixed;
  mk_decl "dot11.device.last_bssid" "last BSSID" TMacAddr Dynamic;
  mk_decl "dot11.device.last_beacon_timestamp" "unix timestamp of last beacon frame" TUInt64 Fixed;
  mk_decl "dot11.device.wps_m3_count" "WPS M3 message count" TUInt64 Fixed;
  mk_decl "dot11.device.wps_m3_last" "WPS M3 last message" TUInt64 Fixed;
  mk_decl "dot11.device.wpa_handshake_list" "WPA handshakes" TVector Dynamic;
  mk_decl "dot11.eapol.key" "WPA handshake key" (TComponent sig_eapol) Entry;
  mk_decl "dot11.device.wpa_nonce_list" "Previous WPA Nonces" TVector Dynamic;
  mk_decl "dot11.device.wpa_anonce_list" "Previous WPA ANonces" TVector Dynamic;
  mk_decl "dot11.device.wpa_present_handshake" "handshake sequences seen (bitmask)" TUInt8 Fixed;
  mk_decl "dot11.device.wpa_nonce" "WPA nonce exchange" (TComponent sig_nonce) Entry;
  mk_decl "dot11.device.ssid_beacon_packet" "snapshotted beacon packet" (TComponent sig_packet) Dynamic;
  mk_decl "dot11.device.pmkid_packet" "snapshotted RSN PMKID packet" (TComponent sig_packet) Dynamic;
  mk_decl "dot11.device.min_tx_power" "Minimum advertised TX power" TUInt8 Fixed;
  mk_decl "dot11.device.max_tx_power" "Maximum advertised TX power" TUInt8 Fixed;
  mk_decl "dot11.device.supported_channels" "Advertised supported channels" TVectorDouble Dynamic;
  mk_decl "dot11.device.link_measurement_capable" "Advertised link measurement client capability" TUInt8 Fixed;
  mk_decl "dot11.device.neighbor_report_capable" "Advertised neighbor report capability" TUInt8 Fixed;
  mk_decl "dot11.device.extended_capabilities" "Advertised extended capabilities list" TVectorString Dynamic;
  mk_decl "dot11.device.beacon_fingerprint" "Beacon fingerprint" TUInt32 Fixed;
  mk_decl "dot11.device.probe_fingerprint" "Probe (Client->AP) fingerprint" TUInt32 Fixed;
  mk_decl "dot11.device.response_fingerprint" "Response (AP->Client) fingerprint" TUInt32 Fixed;
  mk_decl "dot11.device.last_beaconed_ssid_record" "last beaconed ssid, complete record" TAlias Dynamic;
  mk_decl "dot11.device.last_probed_ssid_record" "last probed ssid, complete record" TAlias Dynamic
].

(** The ids [start], [start+1], ... handed out to [n] new names. *)
Fixpoint zseq (start : Z) (n : nat) : list Z :=
  match n with O => [] | S n' => start :: zseq (start + 1) n' end.

(** The lower-cased names a body registers. *)
Definition decl_keys (ds : list field_decl) : list string := map (fun d => str_lower (fd_name d)) ds.

(** Ids below the next free one, one name per id. *)
Definition reg_wf (r : registry) : Prop :=
  0 <= reg_next r /\
  map_Forall (fun _ f => 0 <= rf_id f < reg_next r) (reg_fields r) /\
  (forall n1 n2 f1 f2, reg_fields r !! n1 = Some f1 -> reg_fields r !! n2 = Some f2 ->
     rf_id f1 = rf_id f2 -> n1 = n2).

Definition register_fields_device (r : registry) := register_all r device_field_decls.
Definition register_fields_client (r : registry) := register_all r client_field_decls.
Definition register_fields_range_info (r : registry) := register_all r range_info_field_decls.

(** ** One registration *)

Lemma register_field_keeps r d r' i n f :
  register_field r d = inr (r', i) -> reg_fields r !! n = Some f -> reg_fields r' !! n = Some f.
Proof.
  unfold register_field. intros Hr Hn.
  destruct (reg_fields r !! str_lower (fd_name d)) eqn:E.
  - case_decide; simplify_eq. exact Hn.
  - injection Hr as <- <-. simpl. rewrite lookup_insert_ne by congruence. exact Hn.
Qed.

Lemma register_field_entry r d r' i :
  register_field r d = inr (r', i) ->
  exists f, reg_fields r' !! str_lower (fd_name d) = Some f /\ rf_id f = i /\ rf_type f = fd_type d.
Proof.
  unfold register_field. intros Hr.
  destruct (reg_fields r !! str_lower (fd_name d)) as [f |] eqn:E.
  - case_decide; simplify_eq. eauto.
  - injection Hr as <- <-. simpl. rewrite lookup_insert_eq. eauto.
Qed.

Lemma register_field_known r d f :
  reg_fields r !! str_lower (fd_name d) = Some f -> rf_type f = fd_type d ->
  register_field r d = inr (r, rf_id f).
Proof. unfold register_field. intros -> Ht. rewrite decide_True by exact Ht. reflexivity. Qed.

Lemma register_field_fresh r d :
  reg_fields r !! str_lower (fd_name d) = None ->
  register_field r d =
    inr (mk_registry (<[str_lower (fd_name d) := mk_reserved (reg_next r) (fd_type d) (fd_desc d)]>
           (reg_fields r)) (reg_next r + 1), reg_next r).
Proof. unfold register_field. intros ->. reflexivity. Qed.

Lemma register_field_wf r d r' i : reg_wf r -> register_field r d = inr (r', i) -> reg_wf r'.
Proof.
  intros (Hn & Hb & Hi) Hr. unfold register_field in Hr.
  destruct (reg_fields r !! str_lower (fd_name d)) as [f |] eqn:E.
  - case_decide; simplify_eq. exact (conj Hn (conj Hb Hi)).
  - injection Hr as <- <-. unfold reg_wf. simpl. split_wf; [lia | |].
    + apply map_Forall_insert_2; [simpl; lia |].
      intros k g Hg. specialize (Hb k g Hg). simpl in Hb. lia.
    + intros n1 n2 f1 f2 H1 H2 Hid.
      rewrite lookup_insert in H1, H2.
      destruct (decide (str_lower (fd_name d) = n1)), (decide (str_lower (fd_name d) = n2));
        simplify_eq; try reflexivity.
      * pose proof (Hb n2 f2 H2). simpl in *. lia.
      * pose proof (Hb n1 f1 H1). simpl in *. lia.
      * eapply Hi; eassumption.
Qed.

(** ** A whole body *)

Lemma register_all_keeps r ds r' ids n f :
  register_all r ds = inr (r', ids) -> reg_fields r !! n = Some f -> reg_fields r' !! n = Some f.
Proof.
  revert r ids. induction ds as [| d ds IH]; intros r ids Hr Hn; simpl in Hr; [by simplify_eq |].
  destruct (register_field r d) as [| [r1 i]] eqn:E1; [discriminate |].
  destruct (register_all r1 ds) as [| [r2 is']] eqn:E2; simplify_eq.
  eapply IH; [exact E2 | eapply register_field_keeps; eassumption].
Qed.

Lemma register_all_wf r ds r' ids : reg_wf r -> register_all r ds = inr (r', ids) -> reg_wf r'.
Proof.
  revert r ids. induction ds as [| d ds IH]; intros r ids Hw Hr; simpl in Hr; [by simplify_eq |].
  destruct (register_field r d) as [| [r1 i]] eqn:E1; [discriminate |].
  destruct (register_all r1 ds) as [| [r2 is']] eqn:E2; simplify_eq.
  eapply IH; [eapply register_field_wf; eassumption | exact E2].
Qed.

(** After a body, each name it registered holds the id it returned. *)
Lemma register_all_entries r ds r' ids :
  register_all r ds = inr (r', ids) ->
  Forall2 (fun d i => exists f, reg_fields r' !! str_lower (fd_name d) = Some f /\
                                rf_id f = i /\ rf_type f = fd_type d) ds ids.
Proof.
  revert r ids. induction ds as [| d ds IH]; intros r ids Hr; simpl in Hr; [by simplify_eq |].
  destruct (register_field r d) as [| [r1 i]] eqn:E1; [discriminate |].
  destruct (register_all r1 ds) as [| [r2 is']] eqn:E2; simplify_eq.
  constructor; [| exact (IH _ _ E2)].
  destruct (register_field_entry _ _ _ _ E1) as (f & Hf & Hid & Ht).
  exists f. split_wf; [eapply register_all_keeps; eassumption | assumption | assumption].
Qed.

(** A body whose names all hold their entries changes nothing. *)
Lemma register_all_known r ds ids :
  Forall2 (fun d i => exists f, reg_fields r !! str_lower (fd_name d) = Some f /\
                                rf_id f = i /\ rf_type f = fd_type d) ds ids ->
  register_all r ds = inr (r, ids).
Proof.
  induction 1 as [| d i ds ids (f & Hf & <- & Ht) _ IH]; [reflexivity |].
  simpl. rewrite (register_field_known _ _ _ Hf Ht), IH. reflexivity.
Qed.

(** A body of new, distinct names takes the next ids in order. *)
Lemma register_all_fresh r ds :
  NoDup (decl_keys ds) -> Forall (fun k => reg_fields r !! k = None) (decl_keys ds) ->
  exists r', register_all r ds = inr (r', zseq (reg_next r) (length ds)) /\
             reg_next r' = reg_next r + Z.of_nat (length ds).
Proof.
  revert r. induction ds as [| d ds IH]; intros r Hnd Hfr.
  - exists r. simpl. split; [reflexivity | lia].
  - simpl in Hnd, Hfr. apply NoDup_cons in Hnd as [Hnin Hnd]. apply Forall_cons in Hfr as [Hd Hfr].
    cbn [register_all]. rewrite (register_field_fresh _ _ Hd).
    destruct (IH (mk_registry (<[str_lower (fd_name d) := mk_reserved (reg_next r) (fd_type d) (fd_desc d)]>
                 (reg_fields r)) (reg_next r + 1)) Hnd) as (r' & Hr' & Hn').
    { apply Forall_forall. intros k Hk. simpl. rewrite lookup_insert_ne.
      - eapply Forall_forall in Hfr; eassumption.
      - intros Heq. apply Hnin. rewrite Heq. exact Hk. }
    exists r'. rewrite Hr'. simpl in Hn' |- *. split; [reflexivity | lia].
Qed.

Lemma zseq_nodup start n : NoDup (zseq start n).
Proof.
  revert start. induction n as [| n IH]; intros start; simpl; constructor; [| apply IH].
  assert (Hlo : forall m s, Forall (fun x => s <= x) (zseq s m)).
  { induction m as [| m IHm]; intros s; simpl; constructor; [lia |].
    eapply Forall_impl; [apply IHm | simpl; lia]. }
  intros Hin. eapply Forall_forall in Hin; [| apply Hlo]. simpl in Hin. lia.
Qed.

Lemma zseq_app start n m :
  zseq start n ++ zseq (start + Z.of_nat n) m = zseq start (n + m).
Proof.
  revert start. induction n as [| n IH]; intros start; simpl.
  - rewrite Z.add_0_r. reflexivity.
  - f_equal. rewrite <- IH. do 2 f_equal. lia.
Qed.

Lemma decl_keys_app ds1 ds2 : decl_keys (ds1 ++ ds2) = decl_keys ds1 ++ decl_keys ds2.
Proof. apply map_app. Qed.

Lemma register_field_untouched r d r' i k :
  register_field r d = inr (r', i) -> k <> str_lower (fd_name d) -> reg_fields r' !! k = reg_fields r !! k.
Proof.
  unfold register_field. intros Hr Hk.
  destruct (reg_fields r !! str_lower (fd_name d)) eqn:E.
  - case_decide; simplify_eq. reflexivity.
  - injection Hr as <- <-. simpl. rewrite lookup_insert_ne by congruence. reflexivity.
Qed.

(** A body leaves the names it does not register as they were. *)
Lemma register_all_untouched r ds r' ids k :
  register_all r ds = inr (r', ids) -> k ∉ decl_keys ds -> reg_fields r' !! k = reg_fields r !! k.
Proof.
  revert r ids. induction ds as [| d ds IH]; intros r ids Hr Hk; simpl in Hr; [by simplify_eq |].
  destruct (register_field r d) as [| [r1 i]] eqn:E1; [discriminate |].
  destruct (register_all r1 ds) as [| [r2 is']] eqn:E2; simplify_eq.
  simpl in Hk. apply not_elem_of_cons in Hk as [Hk1 Hk2].
  rewrite (IH _ _ E2 Hk2). eapply register_field_untouched; eassumption.
Qed.

Lemma register_all_fresh_after r ds r' ids ks :
  register_all r ds = inr (r', ids) -> Forall (fun k => reg_fields r !! k = None) ks ->
  (forall k, k ∈ ks -> k ∉ decl_keys ds) -> Forall (fun k => reg_fields r' !! k = None) ks.
Proof.
  intros Hr Hf Hd. apply Forall_forall. intros k Hk.
  rewrite (register_all_untouched _ _ _ _ _ Hr) by (apply Hd, Hk).
  eapply Forall_forall in Hf; eassumption.
Qed.

Lemma disjoint_keys_r (l1 l2 l3 : list string) :
  (forall x, x ∈ l1 -> x ∉ l2 ++ l3) -> forall x, x ∈ l2 -> x ∉ l1.
Proof. intros H x Hx Hin. apply (H x Hin). apply elem_of_app. left. exact Hx. Qed.

Lemma disjoint_keys_rr (l1 l2 l3 : list string) :
  (forall x, x ∈ l1 -> x ∉ l2 ++ l3) -> forall x, x ∈ l3 -> x ∉ l1.
Proof. intros H x Hx Hin. apply (H x Hin). apply elem_of_app. right. exact Hx. Qed.

(** ** The device's registration *)

(** Every name the header's three classes register, in the order the
    constructors of [dot11_tracked_device], [dot11_client] and
    [dot11_11d_tracked_range_info] run [register_fields]. *)
Definition header_field_decls : list field_decl :=
  device_field_decls ++ client_field_decls ++ range_info_field_decls.

(** The header registers each lower-cased name once, across all three classes. *)
Lemma header_keys_nodup : NoDup (decl_keys header_field_decls).
Proof. apply (bool_decide_unpack _). vm_compute. exact I. Qed.

(** (C9) On a well-formed registry that knows none of the header's field
    names, registering the device's fields, then a client's, then an 802.11d
    range's (the order in which the first device, its first client and its
    first country record are built) succeeds at each step.  The three
    classes get consecutive blocks of ids, pairwise distinct across all
    three, the registry stays well-formed, and every later constructor of
    any of the three classes gets the same ids back and leaves the registry
    unchanged.  This is why a copy constructor can copy the ids of its
    source. *)
Theorem register_fields_header_ids r :
  reg_wf r -> Forall (fun k => reg_fields r !! k = None) (decl_keys header_field_decls) ->
  let s := reg_next r in
  let nd := length device_field_decls in
  let nc := length client_field_decls in
  let nr := length range_info_field_decls in
  exists r1 r2 r3,
    register_fields_device r = inr (r1, zseq s nd) /\
    register_fields_client r1 = inr (r2, zseq (s + Z.of_nat nd) nc) /\
    register_fields_range_info r2 = inr (r3, zseq (s + Z.of_nat nd + Z.of_nat nc) nr) /\
    reg_wf r3 /\
    NoDup (zseq s nd ++ zseq (s + Z.of_nat nd) nc ++ zseq (s + Z.of_nat nd + Z.of_nat nc) nr) /\
    register_fields_device r3 = inr (r3, zseq s nd) /\
    register_fields_client r3 = inr (r3, zseq (s + Z.of_nat nd) nc) /\
    register_fields_range_info r3 = inr (r3, zseq (s + Z.of_nat nd + Z.of_nat nc) nr).
Proof.
  intros Hw Hfr s nd nc nr.
  pose proof header_keys_nodup as Hnd. unfold header_field_decls in Hnd, Hfr.
  rewrite !decl_keys_app in Hnd, Hfr.
  apply NoDup_app in Hnd as (Hd & Hdcr & Hnd). apply NoDup_app in Hnd as (Hc & Hcr & Hr).
  apply Forall_app in Hfr as (Fd & Hfr). apply Forall_app in Hfr as (Fc & Fr).
  unfold register_fields_device, register_fields_client, register_fields_range_info.
  destruct (register_all_fresh r _ Hd Fd) as (r1 & E1 & N1).
  assert (Fc1 := register_all_fresh_after _ _ _ _ _ E1 Fc (disjoint_keys_r _ _ _ Hdcr)).
  destruct (register_all_fresh r1 _ Hc Fc1) as (r2 & E2 & N2).
  assert (Fr2 := register_all_fresh_after _ _ _ _ _ E2
                  (register_all_fresh_after _ _ _ _ _ E1 Fr (disjoint_keys_rr _ _ _ Hdcr))
                  (fun k Hk Hin => Hcr k Hin Hk)).
  destruct (register_all_fresh r2 _ Hr Fr2) as (r3 & E3 & _).
  rewrite N1 in E2. rewrite N2, N1 in E3.
  exists r1, r2, r3. split_wf; [exact E1 | exact E2 | exact E3 | | | | |].
  - do 3 (eapply register_all_wf; [| eassumption]). exact Hw.
  - rewrite !zseq_app. apply zseq_nodup.
  - apply register_all_known. eapply Forall2_impl; [apply (register_all_entries r), E1 |].
    intros d i (f & Hf & ? & ?). exists f. split_wf; [| assumption..].
    eapply register_all_keeps; [exact E3 |]. eapply register_all_keeps; [exact E2 | exact Hf].
  - apply register_all_known. eapply Forall2_impl; [apply (register_all_entries r1), E2 |].
    intros d i (f & Hf & ? & ?). exists f. split_wf; [| assumption..].
    eapply register_all_keeps; [exact E3 | exact Hf].
  - apply register_all_known, (register_all_entries r2), E3.
Qed.

Lemma register_fields_header_ids_witness :
  reg_wf empty_registry /\
  Forall (fun k => reg_fields empty_registry !! k = None) (decl_keys header_field_decls) /\
  exists r1 r2 r3,
    register_fields_device empty_registry = inr (r1, zseq 0 47) /\
    register_fields_client r1 = inr (r2, zseq 47 19) /\
    register_fields_range_info r2 = inr (r3, zseq 66 3) /\
    reg_wf r3 /\ NoDup (zseq 0 47 ++ zseq 47 19 ++ zseq 66 3) /\
    register_fields_device r3 = inr (r3, zseq 0 47) /\
    register_fields_client r3 = inr (r3, zseq 47 19) /\
    register_fields_range_info r3 = inr (r3, zseq 66 3).
Proof.
  assert (Hw : reg_wf empty_registry).
  { unfold reg_wf. split_wf; [simpl; lia | apply map_Forall_empty | intros n1 n2 f1 f2 H1; discriminate]. }
  assert (Hf : Forall (fun k => reg_fields empty_registry !! k = None) (decl_keys header_field_decls)).
  { apply Forall_forall. intros k _. reflexivity. }
  split; [exact Hw | split; [exact Hf | exact (register_fields_header_ids empty_registry Hw Hf)]].
Defined.
