(* ===== verification/Schema.v ===== *)
(** * Schema signatures of the record types

    Each record's [get_signature()] returns the Adler-32 checksum of its
    class name; readers compare signatures to detect a schema mismatch
    before trusting a record's layout (spec sections 4.5 and 7). *)

From S2P Require Import Prelude Tracker Eapol Client IeTag Ssid Device Watchlist.

(** The nine signatures, in the order of the classes in the header. *)
Definition all_signatures : list Z :=
  [tracker_signature eapol.dot11_tracked_eapol;
   tracker_signature nonce.dot11_tracked_nonce;
   tracker_signature alert.dot11_tracked_ssid_alert;
   tracker_signature range_info.dot11_11d_tracked_range_info;
   tracker_signature ietag.dot11_tracked_ietag;
   tracker_signature probed.dot11_probed_ssid;
   tracker_signature advertised.dot11_advertised_ssid;
   tracker_signature client.dot11_client;
   device.device_signature].

(** The nine record types have pairwise distinct 32-bit signatures,
    so a signature check tells any two of them apart. *)
Theorem signatures_distinct :
  NoDup all_signatures /\ Forall (in_width 32) all_signatures.
Proof.
  split.
  - apply (bool_decide_unpack _). vm_compute. exact I.
  - repeat constructor; apply adler32_checksum_range.
Qed.
